(** * Foundry-Local tool-calling demos: the quiz agents and their tools

    A shallow embedding of

    - [quiz_slm_fixed.py]    (tools, [extract_functools], [execute_tool],
                              [Agent], [QuizCoordinator]; embedded-text mode),
    - [quiz_slm_working.py]  (the same tools, [Agent], [QuizCoordinator];
                              structured [tool_calls] mode),
    - [compare_modes.py]     ([test_mode_a], [test_mode_b],
                              [test_mode_b_from_response], [compare_modes]),
    - [quick_test_toolcalling.py] (the module-level check),
    - [test_phi4_toolcalling.py]  (the mock quiz tools, [test_tool_calling]),

    followed by the properties of the specification that concern them.

    Conventions of the embedding.

    - A Python value that travels through the tools is a JSON value
      ([json]): the arguments come from [json.loads], the results go to
      [json.dumps].  A [dict] keeps its insertion order (a list of
      members); a [float] is kept as the decimal it was read from.
    - A [str] is the [string] of its UTF-8 bytes; [len], indexing, slicing
      and iteration work on code points ([py_chars]).  [str.upper],
      [str.lower], [str.strip] and the regular expression class [\s] are
      modelled on their ASCII part.
    - A Python exception is a value ([exn]): a computation returns
      [Ok v] or [Raise e].  The wording of the messages follows CPython
      but no property depends on it.
    - The file system, the clock, the chat-completion endpoint and the
      terminal are explicit: a [world] carries the files, the readings of
      [datetime.now()] and a trace of the events that the programs print
      banners for.
    - The files are a map from the path as it is written to the content:
      there is no directory structure and no normalisation of paths, and
      the output directory exists.  A file written by [json.dump] holds
      the value itself ([JsonDoc]), which is what [json.load] returns
      from it; a report is a text ([TextDoc]).
    - The JSON reader ([scan_once]) recurses on a fuel that
      [json_loads] sets from the length of its input, two units for each
      character and two more. *)

From Stdlib Require Import ZArith Ascii String List DecimalString Lia.
From stdpp Require Import gmap strings list.

Local Open Scope Z_scope.
Local Open Scope nat_scope.

(** ** Python values *)

Module Py.

(** A Python [float]: the decimal [m * 10^e] of its literal, or one of the
    three non-finite values that [json.loads] also reads. *)
Inductive pyfloat : Type :=
| Dec (m e : Z)
| NaN
| PosInf
| NegInf.

#[local] Unset Elimination Schemes.
Inductive json : Type :=
| JNull
| JBool (b : bool)
| JInt (n : Z)
| JFloat (f : pyfloat)
| JStr (s : string)
| JArr (items : list json)
| JObj (members : list (string * json)).
#[local] Set Elimination Schemes.

(** Exceptions, by class. [JSONDecodeError] is a subclass of [ValueError];
    none of the handlers of the sources names [ValueError]. *)
Inductive exn_class : Type :=
| TypeError
| AttributeError
| KeyError
| IndexError
| JSONDecodeError.

Record exn : Type := Exn { exn_kind : exn_class; exn_msg : string }.

Inductive res (A : Type) : Type :=
| Ok (a : A)
| Raise (e : exn).
Arguments Ok {A} a.
Arguments Raise {A} e.

Definition res_bind {A B} (r : res A) (k : A -> res B) : res B :=
  match r with
  | Ok a => k a
  | Raise e => Raise e
  end.

Definition raise {A} (c : exn_class) (msg : string) : res A :=
  Raise (Exn c msg).

(** *** Strings *)

(** A continuation byte of UTF-8: [10xxxxxx]. *)
Definition is_cont (c : ascii) : bool :=
  let n := nat_of_ascii c in Nat.leb 128 n && Nat.ltb n 192.

Definition starts_with_cont (s : string) : bool :=
  match s with
  | String c _ => is_cont c
  | EmptyString => false
  end.

(** The code points of a [str], each as the string of its bytes. *)
Fixpoint py_chars (s : string) : list string :=
  match s with
  | EmptyString => []
  | String c rest =>
      match py_chars rest with
      | h :: t => if starts_with_cont h then String c h :: t
                  else String c EmptyString :: h :: t
      | [] => [String c EmptyString]
      end
  end.

Definition concat_str (l : list string) : string :=
  fold_right String.append EmptyString l.

Definition str_len (s : string) : nat := length (py_chars s).

(** [s[:n]] *)
Definition str_take (n : nat) (s : string) : string :=
  concat_str (take n (py_chars s)).

(** [str.upper], on the ASCII letters. *)
Definition upper_ascii (c : ascii) : ascii :=
  let n := nat_of_ascii c in
  if Nat.leb 97 n && Nat.leb n 122 then ascii_of_nat (n - 32) else c.

Fixpoint str_upper (s : string) : string :=
  match s with
  | EmptyString => EmptyString
  | String c rest => String (upper_ascii c) (str_upper rest)
  end.

(** The ASCII characters that [str.strip] and [\s] take for white space. *)
Definition is_space (c : ascii) : bool :=
  let n := nat_of_ascii c in
  (Nat.leb 9 n && Nat.leb n 13) || (Nat.leb 28 n && Nat.leb n 32).

Fixpoint lstrip (s : string) : string :=
  match s with
  | String c rest => if is_space c then lstrip rest else s
  | EmptyString => EmptyString
  end.

Fixpoint rstrip (s : string) : string :=
  match s with
  | EmptyString => EmptyString
  | String c rest =>
      match rstrip rest with
      | EmptyString => if is_space c then EmptyString else String c EmptyString
      | r => String c r
      end
  end.

Definition str_strip (s : string) : string := rstrip (lstrip s).

(** [s.split(sep)] for a separator of one character: the pieces between
    the separators, at least one piece. *)
Fixpoint str_split (sep : ascii) (s : string) : list string :=
  match s with
  | EmptyString => [EmptyString]
  | String c rest =>
      if Ascii.eqb c sep then EmptyString :: str_split sep rest
      else match str_split sep rest with
           | h :: t => String c h :: t
           | [] => [String c EmptyString]
           end
  end.

Fixpoint is_prefix (p s : string) : bool :=
  match p, s with
  | EmptyString, _ => true
  | String a p', String b s' => Ascii.eqb a b && is_prefix p' s'
  | String _ _, EmptyString => false
  end.

(** [sub in s] for two strings. *)
Fixpoint is_substring (sub s : string) : bool :=
  is_prefix sub s ||
  match s with
  | EmptyString => false
  | String _ rest => is_substring sub rest
  end.

Fixpoint str_drop (n : nat) (s : string) : string :=
  match n, s with
  | O, _ => s
  | S n', String _ rest => str_drop n' rest
  | S _, EmptyString => EmptyString
  end.

Definition join (sep : string) (l : list string) : string :=
  match l with
  | [] => EmptyString
  | h :: t => fold_left (fun acc x => acc +:+ sep +:+ x) t h
  end.

(** Decimal numerals, as [str(n)] writes them. *)
Definition dec_Z (n : Z) : string := NilZero.string_of_int (Z.to_int n).
Definition dec_nat (n : nat) : string := dec_Z (Z.of_nat n).

Definition quote : ascii := "034"%char.
Definition apostrophe : ascii := "039"%char.
Definition backslash : ascii := "092"%char.

Definition str1 (c : ascii) : string := String c EmptyString.

Definition hex_digit (n : N) : ascii :=
  if N.ltb n 10 then ascii_of_N (48 + n) else ascii_of_N (87 + n).

Definition hex2 (n : N) : string :=
  String (hex_digit (n / 16 mod 16)) (str1 (hex_digit (n mod 16))).

Definition hex4 (n : N) : string := hex2 (n / 256) +:+ hex2 (n mod 256).

(** The code point that the bytes of one character encode. *)
Definition code_point (ch : string) : N :=
  match ch with
  | EmptyString => 0
  | String b0 rest =>
      let n0 := N_of_ascii b0 in
      if N.ltb n0 128 then n0
      else
        let lead := if N.ltb n0 224 then n0 mod 32
                    else if N.ltb n0 240 then n0 mod 16 else n0 mod 8 in
        fold_left (fun acc c => acc * 64 + N_of_ascii c mod 64)
                  (list_ascii_of_string rest) lead
  end%N.

(** *** Dictionaries: insertion-ordered, one member per key *)

Fixpoint dict_get (k : string) (d : list (string * json)) : option json :=
  match d with
  | [] => None
  | (k', v) :: rest => if String.eqb k k' then Some v else dict_get k rest
  end.

Definition dict_has (k : string) (d : list (string * json)) : bool :=
  match dict_get k d with Some _ => true | None => false end.

(** [d[k] = v]: in place when the key is there, at the end otherwise. *)
Fixpoint dict_set (k : string) (v : json) (d : list (string * json))
  : list (string * json) :=
  match d with
  | [] => [(k, v)]
  | (k', v') :: rest =>
      if String.eqb k k' then (k, v) :: rest else (k', v') :: dict_set k v rest
  end.

(** *** The operations of the language that the sources apply to values *)

Definition type_name (v : json) : string :=
  match v with
  | JNull => "NoneType"
  | JBool _ => "bool"
  | JInt _ => "int"
  | JFloat _ => "float"
  | JStr _ => "str"
  | JArr _ => "list"
  | JObj _ => "dict"
  end.

(** [bool(v)]: what [if v] and [not v] test. *)
Definition truthy (v : json) : bool :=
  match v with
  | JNull => false
  | JBool b => b
  | JInt n => negb (Z.eqb n 0)
  | JFloat (Dec m _) => negb (Z.eqb m 0)
  | JFloat _ => true
  | JStr s => negb (String.eqb s EmptyString)
  | JArr items => match items with [] => false | _ => true end
  | JObj members => match members with [] => false | _ => true end
  end.

(** [s == v] for a [str] [s]. *)
Definition eq_str (s : string) (v : json) : bool :=
  match v with
  | JStr t => String.eqb s t
  | _ => false
  end.

(** [k in v] for a [str] [k]. *)
Definition py_contains (k : string) (v : json) : res bool :=
  match v with
  | JObj members => Ok (dict_has k members)
  | JArr items => Ok (existsb (eq_str k) items)
  | JStr s => Ok (is_substring k s)
  | _ => raise TypeError
           ("argument of type '" +:+ type_name v +:+ "' is not iterable")
  end.

(** [v[k]] for a [str] [k]. *)
Definition getitem_str (v : json) (k : string) : res json :=
  match v with
  | JObj members =>
      match dict_get k members with
      | Some x => Ok x
      | None => raise KeyError ("'" +:+ k +:+ "'")
      end
  | JArr _ => raise TypeError "list indices must be integers or slices, not str"
  | JStr _ => raise TypeError "string indices must be integers, not 'str'"
  | _ => raise TypeError
           ("'" +:+ type_name v +:+ "' object is not subscriptable")
  end.

(** [v[i]] for an index [i >= 0]. *)
Definition getitem_nat (v : json) (i : nat) : res json :=
  match v with
  | JArr items =>
      match items !! i with
      | Some x => Ok x
      | None => raise IndexError "list index out of range"
      end
  | JStr s =>
      match py_chars s !! i with
      | Some ch => Ok (JStr ch)
      | None => raise IndexError "string index out of range"
      end
  | JObj _ => raise KeyError (dec_nat i)
  | _ => raise TypeError
           ("'" +:+ type_name v +:+ "' object is not subscriptable")
  end.

(** [v.get(k, default)] *)
Definition get_method (v : json) (k : string) (default : json) : res json :=
  match v with
  | JObj members =>
      Ok (match dict_get k members with Some x => x | None => default end)
  | _ => raise AttributeError
           ("'" +:+ type_name v +:+ "' object has no attribute 'get'")
  end.

(** [len(v)] *)
Definition py_len (v : json) : res nat :=
  match v with
  | JStr s => Ok (str_len s)
  | JArr items => Ok (length items)
  | JObj members => Ok (length members)
  | _ => raise TypeError
           ("object of type '" +:+ type_name v +:+ "' has no len()")
  end.

(** What [for x in v] runs through. *)
Definition py_iter (v : json) : res (list json) :=
  match v with
  | JArr items => Ok items
  | JStr s => Ok (map JStr (py_chars s))
  | JObj members => Ok (map (fun kv => JStr (fst kv)) members)
  | _ => raise TypeError
           ("'" +:+ type_name v +:+ "' object is not iterable")
  end.

(** [v.upper()] *)
Definition upper_method (v : json) : res json :=
  match v with
  | JStr s => Ok (JStr (str_upper s))
  | _ => raise AttributeError
           ("'" +:+ type_name v +:+ "' object has no attribute 'upper'")
  end.

(** *** [repr], [str] and [json.dumps] *)

Definition float_repr (f : pyfloat) : string :=
  match f with
  | Dec m e => dec_Z m +:+ "e" +:+ dec_Z e
  | NaN => "nan"
  | PosInf => "inf"
  | NegInf => "-inf"
  end.

Definition repr_char (q : ascii) (ch : string) : string :=
  let cp := code_point ch in
  if N.eqb cp (N_of_ascii q) || N.eqb cp 92 then String backslash ch
  else if N.eqb cp 9 then String backslash "t"
  else if N.eqb cp 10 then String backslash "n"
  else if N.eqb cp 13 then String backslash "r"
  else if N.ltb cp 32 || N.eqb cp 127 then String backslash "x" +:+ hex2 cp
  else ch.

Definition repr_str (s : string) : string :=
  let q := if is_substring (str1 apostrophe) s && negb (is_substring (str1 quote) s)
           then quote else apostrophe in
  String q (concat_str (map (repr_char q) (py_chars s))) +:+ str1 q.

Fixpoint py_repr (v : json) : string :=
  match v with
  | JNull => "None"
  | JBool true => "True"
  | JBool false => "False"
  | JInt n => dec_Z n
  | JFloat f => float_repr f
  | JStr s => repr_str s
  | JArr items => "[" +:+ join ", " (map py_repr items) +:+ "]"
  | JObj members =>
      "{" +:+ join ", " (map (fun kv => repr_str (fst kv) +:+ ": " +:+ py_repr (snd kv))
                             members) +:+ "}"
  end.

(** [str(v)], what an f-string writes for [{v}]. *)
Definition py_str (v : json) : string :=
  match v with
  | JStr s => s
  | _ => py_repr v
  end.

Definition json_escape_char (ch : string) : string :=
  let cp := code_point ch in
  if N.eqb cp 34 then String backslash (str1 quote)
  else if N.eqb cp 92 then String backslash (str1 backslash)
  else if N.eqb cp 8 then String backslash "b"
  else if N.eqb cp 12 then String backslash "f"
  else if N.eqb cp 10 then String backslash "n"
  else if N.eqb cp 13 then String backslash "r"
  else if N.eqb cp 9 then String backslash "t"
  else if N.leb 32 cp && N.leb cp 126 then ch
  else if N.ltb cp 65536 then String backslash "u" +:+ hex4 cp
  else (String backslash "u" +:+ hex4 (55296 + (cp - 65536) / 1024) +:+
        String backslash "u" +:+ hex4 (56320 + (cp - 65536) mod 1024))%N.

Definition json_quote (s : string) : string :=
  String quote (concat_str (map json_escape_char (py_chars s))) +:+ str1 quote.

Definition float_dumps (f : pyfloat) : string :=
  match f with
  | Dec m e => dec_Z m +:+ "e" +:+ dec_Z e
  | NaN => "NaN"
  | PosInf => "Infinity"
  | NegInf => "-Infinity"
  end.

(** [json.dumps(v)] with the default separators. *)
Fixpoint json_dumps (v : json) : string :=
  match v with
  | JNull => "null"
  | JBool true => "true"
  | JBool false => "false"
  | JInt n => dec_Z n
  | JFloat f => float_dumps f
  | JStr s => json_quote s
  | JArr items => "[" +:+ join ", " (map json_dumps items) +:+ "]"
  | JObj members =>
      "{" +:+ join ", " (map (fun kv => json_quote (fst kv) +:+ ": " +:+ json_dumps (snd kv))
                             members) +:+ "}"
  end.

(** *** [json.loads]

    The scanner of CPython's [json] module: [scan_once] reads one value
    at the head of the text, [json_loads] skips the white space around
    it and refuses whatever follows.  [None] stands for a
    [JSONDecodeError]. *)

Definition is_json_ws (c : ascii) : bool :=
  let n := N_of_ascii c in
  N.eqb n 32 || N.eqb n 9 || N.eqb n 10 || N.eqb n 13.

Fixpoint skip_ws (s : string) : string :=
  match s with
  | String c rest => if is_json_ws c then skip_ws rest else s
  | EmptyString => EmptyString
  end.

Definition is_digit (c : ascii) : bool :=
  let n := N_of_ascii c in N.leb 48 n && N.leb n 57.

Definition digit_val (c : ascii) : Z := (Z.of_N (N_of_ascii c) - 48)%Z.

(** The longest run of digits at the head, and what follows it. *)
Fixpoint scan_digits (s : string) : string * string :=
  match s with
  | String c rest =>
      if is_digit c then
        let (ds, rest') := scan_digits rest in (String c ds, rest')
      else (EmptyString, s)
  | EmptyString => (EmptyString, EmptyString)
  end.

Definition Z_of_digits (ds : string) : Z :=
  fold_left (fun acc c => (acc * 10 + digit_val c)%Z) (list_ascii_of_string ds) 0%Z.

Definition hex_val (c : ascii) : option N :=
  let n := N_of_ascii c in
  if N.leb 48 n && N.leb n 57 then Some (n - 48)%N
  else if N.leb 97 n && N.leb n 102 then Some (n - 87)%N
  else if N.leb 65 n && N.leb n 70 then Some (n - 55)%N
  else None.

(** The four hexadecimal digits of a [\u] escape. *)
Definition scan_hex4 (s : string) : option (N * string) :=
  match s with
  | String a (String b (String c (String d rest))) =>
      match hex_val a, hex_val b, hex_val c, hex_val d with
      | Some x, Some y, Some z, Some w =>
          Some (((x * 16 + y) * 16 + z) * 16 + w, rest)%N
      | _, _, _, _ => None
      end
  | _ => None
  end.

Definition utf8_encode (cp : N) : string :=
  (if cp <? 128 then str1 (ascii_of_N cp)
   else if cp <? 2048 then
     String (ascii_of_N (192 + cp / 64)) (str1 (ascii_of_N (128 + cp mod 64)))
   else if cp <? 65536 then
     String (ascii_of_N (224 + cp / 4096))
       (String (ascii_of_N (128 + cp / 64 mod 64))
          (str1 (ascii_of_N (128 + cp mod 64))))
   else
     String (ascii_of_N (240 + cp / 262144))
       (String (ascii_of_N (128 + cp / 4096 mod 64))
          (String (ascii_of_N (128 + cp / 64 mod 64))
             (str1 (ascii_of_N (128 + cp mod 64))))))%N.

(** The body of a string literal, after its opening quote, up to and
    with the closing one. Control characters are refused (strict mode). *)
Fixpoint scan_string (fuel : nat) (s : string) : option (string * string) :=
  match fuel with
  | O => None
  | S fuel' =>
      match s with
      | EmptyString => None
      | String c rest =>
          if Ascii.eqb c quote then Some (EmptyString, rest)
          else if N.ltb (N_of_ascii c) 32 then None
          else if Ascii.eqb c backslash then
            match rest with
            | EmptyString => None
            | String e rest1 =>
                let simple (x : ascii) :=
                  match scan_string fuel' rest1 with
                  | Some (t, r) => Some (String x t, r)
                  | None => None
                  end in
                if Ascii.eqb e quote then simple quote
                else if Ascii.eqb e backslash then simple backslash
                else if Ascii.eqb e "/" then simple "/"%char
                else if Ascii.eqb e "b" then simple "008"%char
                else if Ascii.eqb e "f" then simple "012"%char
                else if Ascii.eqb e "n" then simple "010"%char
                else if Ascii.eqb e "r" then simple "013"%char
                else if Ascii.eqb e "t" then simple "009"%char
                else if Ascii.eqb e "u" then
                  match scan_hex4 rest1 with
                  | None => None
                  | Some (hi, rest2) =>
                      let single :=
                        match scan_string fuel' rest2 with
                        | Some (t, r) => Some (utf8_encode hi +:+ t, r)
                        | None => None
                        end in
                      if (N.leb 55296 hi && N.leb hi 56319)%N then
                        match rest2 with
                        | String b1 (String u1 rest3) =>
                            if Ascii.eqb b1 backslash && Ascii.eqb u1 "u" then
                              match scan_hex4 rest3 with
                              | Some (lo, rest4) =>
                                  if (N.leb 56320 lo && N.leb lo 57343)%N then
                                    match scan_string fuel' rest4 with
                                    | Some (t, r) =>
                                        Some (utf8_encode
                                                (65536 + (hi - 55296) * 1024
                                                 + (lo - 56320))%N +:+ t, r)
                                    | None => None
                                    end
                                  else single
                              | None => single
                              end
                            else single
                        | _ => single
                        end
                      else single
                  end
                else None
            end
          else
            match scan_string fuel' rest with
            | Some (t, r) => Some (String c t, r)
            | None => None
            end
      end
  end.

(** A number: an optional minus sign, then a zero or a run of digits
    that does not start with a zero, then an optional fraction (a dot
    and at least one digit), then an optional exponent ([e] or [E], an
    optional sign, at least one digit).  It is an [int] when it has
    neither fraction nor exponent. *)
Definition scan_number (s : string) : option (json * string) :=
  let (neg, s1) := match s with
                   | String "-" r => (true, r)
                   | _ => (false, s)
                   end in
  let int_part :=
    match s1 with
    | String c r =>
        if Ascii.eqb c "0" then Some ("0", r)
        else if is_digit c then
          let (ds, r') := scan_digits r in Some (String c ds, r')
        else None
    | EmptyString => None
    end in
  match int_part with
  | None => None
  | Some (ip, s2) =>
      let (frac, s3) :=
        match s2 with
        | String "." r =>
            let (fs, r') := scan_digits r in
            match fs with
            | EmptyString => (EmptyString, s2)
            | _ => (fs, r')
            end
        | _ => (EmptyString, s2)
        end in
      let (ex, s4) :=
        match s3 with
        | String c r =>
            if Ascii.eqb c "e" || Ascii.eqb c "E" then
              let (sign, r1) := match r with
                                | String "-" r' => ((-1)%Z, r')
                                | String "+" r' => (1%Z, r')
                                | _ => (1%Z, r)
                                end in
              let (es, r2) := scan_digits r1 in
              match es with
              | EmptyString => (None, s3)
              | _ => (Some (sign * Z_of_digits es)%Z, r2)
              end
            else (None, s3)
        | EmptyString => (None, s3)
        end in
      let sgn := if neg then (-1)%Z else 1%Z in
      match frac, ex with
      | EmptyString, None => Some (JInt (sgn * Z_of_digits ip), s4)
      | _, _ =>
          Some (JFloat (Dec (sgn * Z_of_digits (ip +:+ frac))
                            (match ex with Some e => e | None => 0 end
                             - Z.of_nat (String.length frac))%Z), s4)
      end
  end.

Definition scan_literal (s : string) : option (json * string) :=
  if is_prefix "null" s then Some (JNull, str_drop 4 s)
  else if is_prefix "true" s then Some (JBool true, str_drop 4 s)
  else if is_prefix "false" s then Some (JBool false, str_drop 5 s)
  else if is_prefix "NaN" s then Some (JFloat NaN, str_drop 3 s)
  else if is_prefix "Infinity" s then Some (JFloat PosInf, str_drop 8 s)
  else if is_prefix "-Infinity" s then Some (JFloat NegInf, str_drop 9 s)
  else scan_number s.

Fixpoint scan_once (fuel : nat) (s : string) {struct fuel}
  : option (json * string) :=
  match fuel with
  | O => None
  | S fuel' =>
      match s with
      | EmptyString => None
      | String c rest =>
          if Ascii.eqb c quote then
            match scan_string (S (String.length rest)) rest with
            | Some (t, r) => Some (JStr t, r)
            | None => None
            end
          else if Ascii.eqb c "[" then
            match skip_ws rest with
            | String "]" r => Some (JArr [], r)
            | s' =>
                match scan_items fuel' s' [] with
                | Some (items, r) => Some (JArr items, r)
                | None => None
                end
            end
          else if Ascii.eqb c "{" then
            match skip_ws rest with
            | String "}" r => Some (JObj [], r)
            | s' =>
                match scan_members fuel' s' [] with
                | Some (members, r) => Some (JObj members, r)
                | None => None
                end
            end
          else scan_literal s
      end
  end

with scan_items (fuel : nat) (s : string) (acc : list json) {struct fuel}
  : option (list json * string) :=
  match fuel with
  | O => None
  | S fuel' =>
      match scan_once fuel' s with
      | None => None
      | Some (v, r) =>
          match skip_ws r with
          | String "]" r' => Some (acc ++ [v], r')
          | String "," r' => scan_items fuel' (skip_ws r') (acc ++ [v])
          | _ => None
          end
      end
  end

with scan_members (fuel : nat) (s : string) (acc : list (string * json))
       {struct fuel} : option (list (string * json) * string) :=
  match fuel with
  | O => None
  | S fuel' =>
      match s with
      | String c rest =>
          if Ascii.eqb c quote then
            match scan_string (S (String.length rest)) rest with
            | None => None
            | Some (k, r) =>
                match skip_ws r with
                | String ":" r1 =>
                    match scan_once fuel' (skip_ws r1) with
                    | None => None
                    | Some (v, r2) =>
                        match skip_ws r2 with
                        | String "}" r3 => Some (dict_set k v acc, r3)
                        | String "," r3 =>
                            scan_members fuel' (skip_ws r3) (dict_set k v acc)
                        | _ => None
                        end
                    end
                | _ => None
                end
            end
          else None
      | EmptyString => None
      end
  end.

Definition json_loads (s : string) : res json :=
  let s0 := skip_ws s in
  match scan_once (2 * String.length s0 + 2) s0 with
  | Some (v, rest) =>
      match skip_ws rest with
      | EmptyString => Ok v
      | _ => raise JSONDecodeError "Extra data"
      end
  | None => raise JSONDecodeError "Expecting value"
  end.

(** *** The marker of the embedded-text encoding

    Both parsers look for [functools], white space, an opening bracket
    and a closing one ([re.search] with [re.DOTALL]); they differ in the
    group between the brackets, which is greedy in [quiz_slm_fixed.py]
    and lazy in [compare_modes.py]. *)

(** What stands before the last closing bracket of [s], if there is one. *)
Fixpoint before_last_bracket (s : string) : option string :=
  match s with
  | EmptyString => None
  | String c rest =>
      match before_last_bracket rest with
      | Some g => Some (String c g)
      | None => if Ascii.eqb c "]" then Some EmptyString else None
      end
  end.

(** What stands before the first closing bracket of [s], if there is one. *)
Fixpoint before_first_bracket (s : string) : option string :=
  match s with
  | EmptyString => None
  | String c rest =>
      if Ascii.eqb c "]" then Some EmptyString
      else match before_first_bracket rest with
           | Some g => Some (String c g)
           | None => None
           end
  end.

(** The text after the marker, its white space and the opening bracket,
    when [s] starts with them. *)
Definition after_marker (s : string) : option string :=
  if is_prefix "functools" s then
    match lstrip (str_drop 9 s) with
    | String "[" body => Some body
    | _ => None
    end
  else None.

(** [re.search] with the greedy pattern of [extract_functools] and
    [re.DOTALL]: [group(1)] of the leftmost match, [None] when there is
    no match. *)
Fixpoint search_functools_greedy (s : string) : option string :=
  match match after_marker s with
        | Some body => before_last_bracket body
        | None => None
        end with
  | Some g => Some g
  | None =>
      match s with
      | EmptyString => None
      | String _ rest => search_functools_greedy rest
      end
  end.

(** [re.search] with the lazy pattern of [test_mode_b_from_response]. *)
Fixpoint search_functools_lazy (s : string) : option string :=
  match match after_marker s with
        | Some body => before_first_bracket body
        | None => None
        end with
  | Some g => Some g
  | None =>
      match s with
      | EmptyString => None
      | String _ rest => search_functools_lazy rest
      end
  end.

(** [str.lower], on the ASCII letters. *)
Definition lower_ascii (c : ascii) : ascii :=
  let n := nat_of_ascii c in
  if Nat.leb 65 n && Nat.leb n 90 then ascii_of_nat (n + 32) else c.

Fixpoint str_lower (s : string) : string :=
  match s with
  | EmptyString => EmptyString
  | String c rest => String (lower_ascii c) (str_lower rest)
  end.

(** [s.replace(a, b)] for two strings of one ASCII character. *)
Fixpoint replace_char (a b : ascii) (s : string) : string :=
  match s with
  | EmptyString => EmptyString
  | String c rest =>
      String (if Ascii.eqb c a then b else c) (replace_char a b rest)
  end.

(** [v.lower()] *)
Definition lower_method (v : json) : res string :=
  match v with
  | JStr s => Ok (str_lower s)
  | _ => raise AttributeError
           ("'" +:+ type_name v +:+ "' object has no attribute 'lower'")
  end.

(** The number of rounds of [for i in range(n)]. *)
Definition range_of (n : json) : res nat :=
  match n with
  | JInt z => Ok (Z.to_nat z)
  | JBool b => Ok (if b then 1 else 0)
  | _ => raise TypeError
           ("'" +:+ type_name n +:+ "' object cannot be interpreted as an integer")
  end.

End Py.

(** ** The world: files, clock, terminal *)

Module Env.
Import Py.

(** The content of a file: a document written by [json.dump], which
    [json.load] reads back as it was, or plain text. *)
Inductive file : Type :=
| JsonDoc (j : json)
| TextDoc (s : string).

(** A reading of [datetime.now()]. *)
Record datetime : Type := Datetime {
  year : nat; month : nat; day : nat;
  hour : nat; minute : nat; second : nat;
  microsecond : nat
}.

Definition digit (n : nat) : ascii := ascii_of_nat (48 + n mod 10).
Definition pad2 (n : nat) : string := String (digit (n / 10)) (str1 (digit n)).
Definition pad4 (n : nat) : string :=
  String (digit (n / 1000)) (String (digit (n / 100)) (pad2 n)).

(** [t.strftime('%Y%m%d_%H%M%S')] *)
Definition strftime (t : datetime) : string :=
  pad4 (year t) +:+ pad2 (month t) +:+ pad2 (day t) +:+ "_" +:+
  pad2 (hour t) +:+ pad2 (minute t) +:+ pad2 (second t).

(** What the programs show on the terminal, reduced to the banners that
    tell what was run: an agent starting on a context, a request to the
    completion endpoint, a tool call taken from a response, the body of
    a tool, and the fixed text of a diagnostic. *)
Inductive event : Type :=
| EvAgent (name : string) (context : gmap string json)
| EvRequest
| EvCall (tool_name arguments : json)
| EvTool (name : string)
| EvPrint (line : string).

Record world : Type := World {
  files : gmap string file;
  clock : nat -> datetime;
  reads : nat;
  trace : list event
}.

(** A computation: it may change the world and ends with a value or an
    exception; the changes made before an exception stay. *)
Definition M (A : Type) : Type := world -> res A * world.

Definition ret {A} (a : A) : M A := fun w => (Ok a, w).

Definition bind {A B} (m : M A) (k : A -> M B) : M B :=
  fun w => match m w with
           | (Ok a, w') => k a w'
           | (Raise e, w') => (Raise e, w')
           end.

Definition lift {A} (r : res A) : M A := fun w => (r, w).

(** [isinstance(e, c)] for the classes at hand, none of which derives
    from another. *)
Definition same_class (a b : exn_class) : bool :=
  match a, b with
  | TypeError, TypeError
  | AttributeError, AttributeError
  | KeyError, KeyError
  | IndexError, IndexError
  | JSONDecodeError, JSONDecodeError => true
  | _, _ => false
  end.

(** [try: m  except c as e: h e] *)
Definition catch {A} (m : M A) (c : exn_class) (h : exn -> M A) : M A :=
  fun w => match m w with
           | (Raise e, w') =>
               if same_class (exn_kind e) c then h e w' else (Raise e, w')
           | r => r
           end.

Definition emit (e : event) : M unit :=
  fun w => (Ok tt, World (files w) (clock w) (reads w) (trace w ++ [e])).

(** [datetime.now()] *)
Definition now : M datetime :=
  fun w => (Ok (clock w (reads w)),
            World (files w) (clock w) (S (reads w)) (trace w)).

(** [filepath.exists()] *)
Definition path_exists (path : string) : M bool :=
  fun w => (Ok (bool_decide (is_Some (files w !! path))), w).

Definition write_file (path : string) (f : file) : M unit :=
  fun w => (Ok tt, World (<[path := f]> (files w)) (clock w) (reads w) (trace w)).

(** [open(filepath, 'w')]: the file is there and empty from here on. *)
Definition open_w (path : string) : M unit := write_file path (TextDoc EmptyString).

(** [json.load(f)] on an existing file. *)
Definition json_load (path : string) : M json :=
  fun w => (match files w !! path with
            | Some (JsonDoc j) => Ok j
            | Some (TextDoc s) => json_loads s
            | None => raise JSONDecodeError "Expecting value"
            end, w).

(** [dir / name] of [pathlib], on paths as they are written. *)
Definition path_join (dir name : string) : string :=
  if is_prefix "/" name then name else dir +:+ "/" +:+ name.

Definition nl : string := str1 "010"%char.

(** [try: m  except Exception as e: h e]: every class at hand derives
    from [Exception]. *)
Definition catch_all {A} (m : M A) (h : exn -> M A) : M A :=
  fun w => match m w with
           | (Raise e, w') => h e w'
           | r => r
           end.

End Env.

Declare Scope py_scope.
Delimit Scope py_scope with py.
Notation "'let*' x ':=' c1 'in' c2" :=
  (Py.res_bind c1 (fun x => c2))
  (at level 100, x name, c1 at next level, right associativity) : py_scope.
Notation "x <- c1 ;; c2" :=
  (Env.bind c1 (fun x => c2))
  (at level 100, c1 at next level, right associativity) : py_scope.
Notation "c1 ;; c2" :=
  (Env.bind c1 (fun _ => c2))
  (at level 100, right associativity) : py_scope.
Local Open Scope py_scope.

(** ** Calling a function with a mapping of keyword arguments *)

Module Call.
Import Py Env.

(** A function of the sources: its parameters in order, each with its
    default if it has one, and its body on the bound values. *)
Record pyfun : Type := PyFun {
  fname : string;
  params : list (string * option json);
  body : list json -> M json
}.

(** The value of each parameter, from the keywords or the default. *)
Fixpoint bind_params (f : string) (ps : list (string * option json))
    (kwargs : list (string * json)) : res (list json) :=
  match ps with
  | [] => Ok []
  | (p, default) :: rest =>
      let* v := match dict_get p kwargs, default with
                | Some v, _ => Ok v
                | None, Some d => Ok d
                | None, None =>
                    raise TypeError
                      (f +:+ "() missing 1 required positional argument: '"
                         +:+ p +:+ "'")
                end in
      let* vs := bind_params f rest kwargs in
      Ok (v :: vs)
  end.

(** [f( **arguments )]: the argument must be a mapping, each of its keys a
    parameter, and each parameter without default among the keys. *)
Definition call_kwargs (f : pyfun) (arguments : json) : M json :=
  match arguments with
  | JObj kwargs =>
      match find (fun kv => negb (existsb (fun p => String.eqb (fst kv) (fst p))
                                          (params f))) kwargs with
      | Some (k, _) =>
          lift (raise TypeError
                  (fname f +:+ "() got an unexpected keyword argument '"
                     +:+ k +:+ "'"))
      | None =>
          vs <- lift (bind_params (fname f) (params f) kwargs) ;;
          body f vs
      end
  | _ =>
      lift (raise TypeError
              ("argument after ** must be a mapping, not "
                 +:+ type_name arguments))
  end.

(** [name in registry] for a registry keyed by strings: a [list] or a
    [dict] cannot be hashed. *)
Definition registry_has (registry : gmap string pyfun) (name : json)
  : res bool :=
  match name with
  | JStr s => Ok (bool_decide (is_Some (registry !! s)))
  | JArr _ | JObj _ =>
      raise TypeError ("unhashable type: '" +:+ type_name name +:+ "'")
  | _ => Ok false
  end.

(** [registry[name]] *)
Definition registry_get (registry : gmap string pyfun) (name : json)
  : res pyfun :=
  match name with
  | JStr s =>
      match registry !! s with
      | Some f => Ok f
      | None => raise KeyError (py_repr name)
      end
  | JArr _ | JObj _ =>
      raise TypeError ("unhashable type: '" +:+ type_name name +:+ "'")
  | _ => raise KeyError (py_repr name)
  end.

End Call.

(** ** The tools of the quiz demos

    [create_quiz], [save_quiz], [load_quiz], [grade_responses] and
    [create_report] have the same text in [quiz_slm_fixed.py] and in
    [quiz_slm_working.py]. *)

Module Tools.
Import Py Env Call.

Definition OUTPUT_DIR : string := "quiz_data".

Definition tick : string := "✓".
Definition cross : string := "✗".

(** [k < f] for an [int] [k] and a [float] [f], on the decimal of [f]. *)
Definition int_lt_float (k : Z) (f : pyfloat) : bool :=
  match f with
  | Dec m e => if (0 <=? e)%Z then (k <? m * 10 ^ e)%Z
               else (k * 10 ^ (- e) <? m)%Z
  | NaN => false
  | PosInf => true
  | NegInf => false
  end.

(** The number of rounds of [for i in range(min(n, k))], for [k >= 1]. *)
Definition range_min (n : json) (k : nat) : res nat :=
  match n with
  | JInt z => Ok (Z.to_nat (Z.min z (Z.of_nat k)))
  | JBool b => Ok (if b then 1 else 0)
  | JFloat f =>
      if int_lt_float (Z.of_nat k) f then Ok k
      else raise TypeError "'float' object cannot be interpreted as an integer"
  | _ => raise TypeError
           ("'<' not supported between instances of 'int' and '"
              +:+ type_name n +:+ "'")
  end.

(** [source_text.split('.')] *)
Definition split_method (v : json) (sep : ascii) : res (list string) :=
  match v with
  | JStr s => Ok (str_split sep s)
  | _ => raise AttributeError
           ("'" +:+ type_name v +:+ "' object has no attribute 'split'")
  end.

Definition question (sentences : list string) (i : nat) : json :=
  let topic := match sentences with
               | [] => "the content"
               | _ => str_take 50 (default EmptyString
                                     (sentences !! (i mod length sentences)))
               end in
  JObj [("id", JInt (Z.of_nat (i + 1)));
        ("question", JStr ("What is the significance of: '" +:+ topic +:+ "...'?"));
        ("options", JArr [JStr "A) Key concept"; JStr "B) Not mentioned";
                          JStr "C) Minor detail"]);
        ("correct_answer", JStr "A")].

Definition create_quiz (source_text num_questions : json) : M json :=
  emit (EvTool "create_quiz") ;;
  pieces <- lift (split_method source_text ".") ;;
  let sentences :=
    map str_strip (filter (fun s => 10 < str_len (str_strip s)) pieces) in
  n <- lift (range_min num_questions (Nat.max 1 (length sentences))) ;;
  let questions := map (question sentences) (seq 0 n) in
  ret (JObj [("questions", JArr questions);
             ("count", JInt (Z.of_nat (length questions)))]).

Definition invalid (msg : string) : json := JObj [("error", JStr msg)].

Definition save_quiz (quiz_data : json) : M json :=
  emit (EvTool "save_quiz") ;;
  has <- lift (if truthy quiz_data then py_contains "questions" quiz_data
               else Ok false) ;;
  if negb has then ret (invalid "Invalid quiz_data")
  else
    t <- now ;;
    let quiz_id := "quiz_" +:+ strftime t in
    let filepath := path_join OUTPUT_DIR (quiz_id +:+ ".json") in
    open_w filepath ;;
    questions <- lift (getitem_str quiz_data "questions") ;;
    write_file filepath
      (JsonDoc (JObj [("quiz_id", JStr quiz_id); ("questions", questions)])) ;;
    ret (JObj [("quiz_id", JStr quiz_id); ("path", JStr filepath)]).

Definition load_quiz (quiz_id : json) : M json :=
  emit (EvTool "load_quiz") ;;
  let filepath := path_join OUTPUT_DIR (py_str quiz_id +:+ ".json") in
  there <- path_exists filepath ;;
  if negb there then ret (invalid ("Quiz not found: " +:+ py_str quiz_id))
  else
    data <- json_load filepath ;;
    questions <- lift (get_method data "questions" (JArr [])) ;;
    _ <- lift (py_len questions) ;;
    ret data.

(** One round of the loop of [grade_responses], for the question [q] at
    index [i]: the new score and the detail of the question. *)
Definition grade_one (responses : json) (i : nat) (q : json) (score : nat)
  : res (nat * json) :=
  let* n := py_len responses in
  let* user_ans :=
    if Nat.ltb i n then
      let* r := getitem_nat responses i in
      let* u := upper_method r in
      getitem_nat u 0
    else Ok (JStr "X") in
  let* answer := getitem_str q "correct_answer" in
  let* correct := getitem_nat answer 0 in
  let is_correct := eq_str (py_str user_ans) correct in
  Ok (if is_correct then score + 1 else score,
      JObj [("q", JInt (Z.of_nat (i + 1))); ("user", user_ans);
            ("correct", correct);
            ("result", JStr (if is_correct then tick else cross))]).

(** [for i, q in enumerate(questions)], from index [i] on. *)
Fixpoint grade_loop (responses : json) (questions : list json) (i : nat)
    (score : nat) (details : list json) : res (nat * list json) :=
  match questions with
  | [] => Ok (score, details)
  | q :: rest =>
      let* r := grade_one responses i q score in
      grade_loop responses rest (S i) (fst r) (details ++ [snd r])
  end.

Definition grade_responses (quiz_id responses : json) : M json :=
  emit (EvTool "grade_responses") ;;
  quiz <- load_quiz quiz_id ;;
  failed <- lift (py_contains "error" quiz) ;;
  if failed then ret quiz
  else
    questions <- lift (get_method quiz "questions" (JArr [])) ;;
    qs <- lift (py_iter questions) ;;
    r <- lift (grade_loop responses qs 0 0 []) ;;
    total <- lift (py_len questions) ;;
    ret (JObj [("quiz_id", quiz_id); ("score", JInt (Z.of_nat (fst r)));
               ("total", JInt (Z.of_nat total)); ("details", JArr (snd r))]).

(** One row of the table of the report. *)
Definition report_row (d : json) : res string :=
  let* q := getitem_str d "q" in
  let* user := getitem_str d "user" in
  let* correct := getitem_str d "correct" in
  let* result := getitem_str d "result" in
  Ok ("| " +:+ py_str q +:+ " | " +:+ py_str user +:+ " | " +:+ py_str correct
        +:+ " | " +:+ py_str result +:+ " |" +:+ nl).

Fixpoint report_rows (content : string) (details : list json) : res string :=
  match details with
  | [] => Ok content
  | d :: rest =>
      let* row := report_row d in
      report_rows (content +:+ row) rest
  end.

Definition create_report (quiz_id grading_results : json) : M json :=
  emit (EvTool "create_report") ;;
  has <- lift (if truthy grading_results then py_contains "score" grading_results
               else Ok false) ;;
  if negb has then ret (invalid "Invalid grading results")
  else
    let filepath := path_join OUTPUT_DIR (py_str quiz_id +:+ "_report.md") in
    score <- lift (getitem_str grading_results "score") ;;
    total <- lift (getitem_str grading_results "total") ;;
    let head :=
      "# Quiz Report: " +:+ py_str quiz_id +:+ nl +:+
      "**Score:** " +:+ py_str score +:+ "/" +:+ py_str total +:+ nl +:+ nl +:+
      "## Details" +:+ nl +:+
      "| Q | Your Answer | Correct | Result |" +:+ nl +:+
      "|---|-------------|---------|--------|" +:+ nl in
    details <- lift (get_method grading_results "details" (JArr [])) ;;
    ds <- lift (py_iter details) ;;
    content <- lift (report_rows head ds) ;;
    open_w filepath ;;
    write_file filepath (TextDoc content) ;;
    ret (JObj [("path", JStr filepath)]).

Definition args2 (f : json -> json -> M json) (vs : list json) : M json :=
  match vs with
  | [a; b] => f a b
  | _ => lift (raise TypeError "wrong number of arguments")
  end.

Definition args1 (f : json -> M json) (vs : list json) : M json :=
  match vs with
  | [a] => f a
  | _ => lift (raise TypeError "wrong number of arguments")
  end.

(** The tool registry. *)
Definition TOOLS : gmap string pyfun :=
  list_to_map
    [("create_quiz",
      PyFun "create_quiz" [("source_text", None); ("num_questions", None)]
        (args2 create_quiz));
     ("save_quiz",
      PyFun "save_quiz" [("quiz_data", None)] (args1 save_quiz));
     ("load_quiz",
      PyFun "load_quiz" [("quiz_id", None)] (args1 load_quiz));
     ("grade_responses",
      PyFun "grade_responses" [("quiz_id", None); ("responses", None)]
        (args2 grade_responses));
     ("create_report",
      PyFun "create_report" [("quiz_id", None); ("grading_results", None)]
        (args2 create_report))].

(** The names of the declarations of [TOOL_SCHEMAS], in their order; a
    declaration is kept by the name of its function. *)
Definition TOOL_SCHEMAS : list string :=
  ["create_quiz"; "save_quiz"; "load_quiz"; "grade_responses"; "create_report"].

End Tools.

(** ** The chat-completion endpoint *)

Module Chat.
Import Py Env.

(** A structured tool call of a response: [tool_call.id],
    [tool_call.function.name], [tool_call.function.arguments]. *)
Record tool_call : Type := ToolCall {
  tc_id : string;
  tc_name : string;
  tc_arguments : string
}.

(** [response.choices[0].message] *)
Record chat_message : Type := ChatMessage {
  content : option string;
  tool_calls : option (list tool_call)
}.

(** A turn of the conversation: a dictionary with a role and a content,
    the message object of a response as it came, or the result of a
    structured tool call. *)
Inductive turn : Type :=
| Turn (role : string) (text : string)
| Assistant (message : chat_message)
| ToolTurn (tool_call_id : string) (name : string) (text : string).

(** What [client.chat.completions.create] is given: the model, the
    conversation and the tool declarations (by name). *)
Record request : Type := Request {
  req_model : string;
  req_messages : list turn;
  req_tools : list string
}.

(** The endpoint answers each request with one message. *)
Definition client : Type := request -> chat_message.

Definition create (c : client) (r : request) : M chat_message :=
  emit EvRequest ;; ret (c r).

(** The agent context, a dictionary keyed by strings. *)
Abbreviation context := (gmap string json).

(** The projection of tool results into the context; the same text in
    both agents. *)
Definition update_context (tool_name result : json) (ctx : context)
  : res context :=
  let* c1 := if eq_str "create_quiz" tool_name
             then py_contains "questions" result else Ok false in
  if c1 then Ok (<["quiz_data" := result]> ctx)
  else
    let* c2 := if eq_str "save_quiz" tool_name
               then py_contains "quiz_id" result else Ok false in
    if c2 then
      let* v := getitem_str result "quiz_id" in
      Ok (<["quiz_id" := v]> ctx)
    else
      let* c3 := if eq_str "grade_responses" tool_name
                 then py_contains "score" result else Ok false in
      if c3 then Ok (<["grading_results" := result]> ctx)
      else
        let* c4 := if eq_str "create_report" tool_name
                   then py_contains "path" result else Ok false in
        if c4 then
          let* v := getitem_str result "path" in
          Ok (<["report_path" := v]> ctx)
        else Ok ctx.

(** [context.get(k)] *)
Definition ctx_get (ctx : context) (k : string) : json :=
  default JNull (ctx !! k).

(** The questions shown to the user between the two agents:
    the loop over [context.get("quiz_data", {}).get("questions", [])]
    reads [q['id']], [q['question']] and the options of each. *)
Definition show_question (q : json) : res unit :=
  let* _ := getitem_str q "id" in
  let* _ := getitem_str q "question" in
  let* options := getitem_str q "options" in
  let* _ := py_iter options in
  Ok tt.

Fixpoint show_questions (qs : list json) : res unit :=
  match qs with
  | [] => Ok tt
  | q :: rest => let* _ := show_question q in show_questions rest
  end.

Definition take_quiz (ctx : context) : res unit :=
  let* questions :=
    get_method (default (JObj []) (ctx !! "quiz_data")) "questions" (JArr []) in
  let* qs := py_iter questions in
  show_questions qs.

(** [[a.strip().upper() for a in answers.split(",")]] on the line that
    the user typed, itself stripped. *)
Definition read_responses (line : string) : json :=
  JArr (map (fun a => JStr (str_upper (str_strip a)))
            (str_split "," (str_strip line))).

(** The last lines of the coordinators: the score line reads
    [results.get('score', 0)] and [results.get('total', 0)]. *)
Definition show_score (results : json) : res unit :=
  let* _ := get_method results "score" (JInt 0) in
  let* _ := get_method results "total" (JInt 0) in
  Ok tt.

End Chat.

(** ** [quiz_slm_fixed.py]: the embedded-text agent *)

Module Fixed.
Import Py Env Call Tools Chat.

Definition MODEL_ALIAS : string := "phi-4".

(** [extract_functools]: [None] when the response is empty, when it has
    no marker, when what is between the brackets is no JSON, and when it
    is the empty list. *)
Definition extract_functools (response : string) : option (list json) :=
  if String.eqb response EmptyString then None
  else
    match search_functools_greedy response with
    | None => None
    | Some group =>
        match json_loads ("[" +:+ group +:+ "]") with
        | Ok (JArr (call :: calls)) => Some (call :: calls)
        | Ok _ => None
        | Raise _ => None
        end
    end.

Definition execute_tool (name arguments : json) : M json :=
  known <- lift (registry_has TOOLS name) ;;
  if negb known then ret (invalid ("Unknown tool: " +:+ py_str name))
  else
    catch (f <- lift (registry_get TOOLS name) ;; call_kwargs f arguments)
          TypeError
          (fun e => ret (invalid ("Invalid arguments for " +:+ py_str name
                                    +:+ ": " +:+ exn_msg e))).

Record Agent : Type := MkAgent {
  name : string;
  agent_client : client;
  model_id : string;
  tool_schemas : list string
}.

(** [Agent.__init__] *)
Definition new_agent (name : string) (tools : list string) (c : client)
    (model_id : string) : Agent :=
  MkAgent name c model_id
          (filter (fun s => bool_decide (s ∈ tools)) TOOL_SCHEMAS).

Definition max_iterations : nat := 6.

(** The first half of the body of [for call in func_calls]: the name of
    the tool of the call and the result of its execution. *)
Definition call_result (call : json) : M (json * json) :=
  tool_name <- lift (get_method call "name" JNull) ;;
  arguments <- lift (get_method call "arguments" (JObj [])) ;;
  emit (EvCall tool_name arguments) ;;
  result <- execute_tool tool_name arguments ;;
  ret (tool_name, result).

(** The turn that feeds a result back to the model. *)
Definition observation (r : json * json) : turn :=
  Turn "user" ("Tool '" +:+ py_str (fst r) +:+ "' returned: "
                 +:+ json_dumps (snd r)).

(** The body of [for call in func_calls] for one call. *)
Definition run_call (call : json) (messages : list turn) (ctx : context)
  : M (list turn * context) :=
  r <- call_result call ;;
  ctx' <- lift (update_context (fst r) (snd r) ctx) ;;
  ret (messages ++ [observation r], ctx').

Fixpoint run_calls (calls : list json) (messages : list turn) (ctx : context)
  : M (list turn * context) :=
  match calls with
  | [] => ret (messages, ctx)
  | call :: rest =>
      s <- run_call call messages ctx ;;
      run_calls rest (fst s) (snd s)
  end.

(** The iterations of [Agent.run] that are left, [n] of them: the
    conversation and the context at the end. *)
Fixpoint iterate (self : Agent) (n : nat) (messages : list turn)
    (ctx : context) : M (list turn * context) :=
  match n with
  | O => ret (messages, ctx)
  | S n' =>
      response <- create (agent_client self)
                    (Request (model_id self) messages (tool_schemas self)) ;;
      let text := default EmptyString (content response) in
      match extract_functools text with
      | None => ret (messages, <["summary" := JStr text]> ctx)
      | Some func_calls =>
          s <- run_calls func_calls (messages ++ [Turn "assistant" text]) ctx ;;
          iterate self n' (fst s) (snd s)
      end
  end.

(** [Agent.run] *)
Definition Agent_run (self : Agent) (task : string) (ctx : context)
  : M context :=
  emit (EvAgent (name self) ctx) ;;
  s <- iterate self max_iterations [Turn "user" task] ctx ;;
  ret (snd s).

Record QuizCoordinator : Type := MkCoordinator {
  quiz_master : Agent;
  grader : Agent
}.

(** [QuizCoordinator.__init__], given the client and the model that the
    registry resolved. *)
Definition new_coordinator (c : client) (model_id : string) : QuizCoordinator :=
  MkCoordinator
    (new_agent "QuizMaster" ["create_quiz"; "save_quiz"] c model_id)
    (new_agent "Grader" ["load_quiz"; "grade_responses"; "create_report"]
       c model_id).

Definition creation_task (source_text : string) (num_questions : Z) : string :=
  "Create a quiz with " +:+ dec_Z num_questions
    +:+ " questions from this text and save it." +:+ nl +:+ nl
    +:+ "TEXT: " +:+ source_text +:+ nl +:+ nl
    +:+ "Call create_quiz first, then save_quiz with the result.".

Definition grading_task (quiz_id responses : json) : string :=
  "Grade quiz " +:+ str1 quote +:+ py_str quiz_id +:+ str1 quote
    +:+ " with responses " +:+ json_dumps responses
    +:+ " and create a report." +:+ nl +:+ nl
    +:+ "Call grade_responses first, then create_report with the results.".

(** [QuizCoordinator.run]; [answers] is the line that the user types
    when asked. *)
Definition QuizCoordinator_run (self : QuizCoordinator) (source_text : string)
    (num_questions : Z) (answers : string) : M unit :=
  ctx <- Agent_run (quiz_master self)
           (creation_task source_text num_questions) ∅ ;;
  let quiz_id := ctx_get ctx "quiz_id" in
  if negb (truthy quiz_id) then emit (EvPrint "Failed to create quiz")
  else
    lift (take_quiz ctx) ;;
    let responses := read_responses answers in
    ctx2 <- Agent_run (grader self) (grading_task quiz_id responses)
              (<["responses" := responses]> (<["quiz_id" := quiz_id]> ∅)) ;;
    lift (show_score (default (JObj []) (ctx2 !! "grading_results"))).

End Fixed.

(** ** [quiz_slm_working.py]: the structured agent *)

Module Working.
Import Py Env Call Tools Chat.

Definition MODEL_ALIAS : string := "phi-4-cuda-gpu".

Record Agent : Type := MkAgent {
  name : string;
  agent_client : client;
  model_id : string;
  tool_schemas : list string
}.

(** [Agent.__init__] *)
Definition new_agent (name : string) (tools : list string) (c : client)
    (model_id : string) : Agent :=
  MkAgent name c model_id
          (filter (fun s => bool_decide (s ∈ tools)) TOOL_SCHEMAS).

Definition max_iterations : nat := 8.

(** The first half of the body of [for tool_call in tool_calls]: the
    call with the result of its execution. *)
Definition call_result (tc : tool_call) : M (tool_call * json) :=
  let function_name := tc_name tc in
  function_args <- lift (json_loads (tc_arguments tc)) ;;
  emit (EvCall (JStr function_name) function_args) ;;
  result <- match TOOLS !! function_name with
            | Some f => call_kwargs f function_args
            | None => ret (invalid ("Unknown tool: " +:+ function_name))
            end ;;
  ret (tc, result).

(** The turn that feeds a result back to the model, under the
    identifier of the call. *)
Definition observation (r : tool_call * json) : turn :=
  ToolTurn (tc_id (fst r)) (tc_name (fst r)) (json_dumps (snd r)).

(** The body of [for tool_call in tool_calls] for one call. *)
Definition run_call (tc : tool_call) (messages : list turn) (ctx : context)
  : M (list turn * context) :=
  r <- call_result tc ;;
  ctx' <- lift (update_context (JStr (tc_name tc)) (snd r) ctx) ;;
  ret (messages ++ [observation r], ctx').

Fixpoint run_calls (calls : list tool_call) (messages : list turn)
    (ctx : context) : M (list turn * context) :=
  match calls with
  | [] => ret (messages, ctx)
  | tc :: rest =>
      s <- run_call tc messages ctx ;;
      run_calls rest (fst s) (snd s)
  end.

(** The iterations of [Agent.run] that are left, [n] of them. *)
Fixpoint iterate (self : Agent) (n : nat) (messages : list turn)
    (ctx : context) : M (list turn * context) :=
  match n with
  | O => ret (messages, ctx)
  | S n' =>
      message <- create (agent_client self)
                   (Request (model_id self) messages (tool_schemas self)) ;;
      let text := default EmptyString (content message) in
      match tool_calls message with
      | None | Some [] => ret (messages, <["summary" := JStr text]> ctx)
      | Some calls =>
          s <- run_calls calls (messages ++ [Assistant message]) ctx ;;
          iterate self n' (fst s) (snd s)
      end
  end.

(** [Agent.run] *)
Definition Agent_run (self : Agent) (task : string) (ctx : context)
  : M context :=
  emit (EvAgent (name self) ctx) ;;
  s <- iterate self max_iterations [Turn "user" task] ctx ;;
  ret (snd s).

Record QuizCoordinator : Type := MkCoordinator {
  quiz_master : Agent;
  grader : Agent
}.

Definition new_coordinator (c : client) (model_id : string) : QuizCoordinator :=
  MkCoordinator
    (new_agent "QuizMaster" ["create_quiz"; "save_quiz"] c model_id)
    (new_agent "Grader" ["load_quiz"; "grade_responses"; "create_report"]
       c model_id).

Definition creation_task (source_text : string) (num_questions : Z) : string :=
  "You must create a quiz with " +:+ dec_Z num_questions
    +:+ " questions from the provided text, then save it." +:+ nl +:+ nl
    +:+ "TEXT: " +:+ source_text +:+ nl +:+ nl
    +:+ "Steps:" +:+ nl
    +:+ "1. Call create_quiz with the source_text and num_questions="
    +:+ dec_Z num_questions +:+ nl
    +:+ "2. Call save_quiz with the quiz_data from step 1" +:+ nl
    +:+ "3. Confirm the quiz_id when done".

Definition grading_task (quiz_id responses : json) : string :=
  "You must grade the quiz and create a report." +:+ nl +:+ nl
    +:+ "Quiz ID: " +:+ py_str quiz_id +:+ nl
    +:+ "User responses: " +:+ json_dumps responses +:+ nl +:+ nl
    +:+ "Steps:" +:+ nl
    +:+ "1. Call grade_responses with quiz_id=" +:+ str1 quote
    +:+ py_str quiz_id +:+ str1 quote +:+ " and responses="
    +:+ json_dumps responses +:+ nl
    +:+ "2. Call create_report with the quiz_id and grading_results from step 1"
    +:+ nl +:+ "3. Confirm completion".

(** The second and third phases, once an identifier is there. *)
Definition grade_phase (self : QuizCoordinator) (ctx : context)
    (quiz_id : json) (answers : string) : M unit :=
  lift (take_quiz ctx) ;;
  let responses := read_responses answers in
  ctx2 <- Agent_run (grader self) (grading_task quiz_id responses)
            (<["responses" := responses]> (<["quiz_id" := quiz_id]> ∅)) ;;
  let results := default (JObj []) (ctx2 !! "grading_results") in
  if truthy results then lift (show_score results) else ret tt.

(** [QuizCoordinator.run]; [answers] is the line that the user types
    when asked. *)
Definition QuizCoordinator_run (self : QuizCoordinator) (source_text : string)
    (num_questions : Z) (answers : string) : M unit :=
  ctx <- Agent_run (quiz_master self)
           (creation_task source_text num_questions) ∅ ;;
  let quiz_id := ctx_get ctx "quiz_id" in
  if negb (truthy quiz_id) then
    emit (EvPrint "Failed to create quiz - trying fallback...") ;;
    quiz_result <- create_quiz (JStr source_text) (JInt num_questions) ;;
    save_result <- save_quiz quiz_result ;;
    fallback_id <- lift (get_method save_result "quiz_id" JNull) ;;
    let ctx' := <["quiz_id" := fallback_id]> (<["quiz_data" := quiz_result]> ctx) in
    if negb (truthy fallback_id) then emit (EvPrint "Fallback also failed")
    else grade_phase self ctx' fallback_id answers
  else grade_phase self ctx quiz_id answers.

End Working.

(** ** [compare_modes.py] *)

Module CompareModes.
Import Py Env Call Chat.

(** [get_weather(location, unit="celsius")], a mock. *)
Definition get_weather (location unit : json) : M json :=
  ret (JObj [("location", location);
             ("temperature", JInt (if eq_str "celsius" unit then 22 else 72));
             ("unit", unit);
             ("condition", JStr "Sunny")]).

Definition get_weather_fun : pyfun :=
  PyFun "get_weather"
    [("location", None); ("unit", Some (JStr "celsius"))]
    (fun vs => match vs with
               | [a; b] => get_weather a b
               | _ => lift (raise TypeError "wrong number of arguments")
               end).

Definition TOOLS : gmap string pyfun :=
  list_to_map [("get_weather", get_weather_fun)].

Definition TOOL_SCHEMAS : list string := ["get_weather"].

Definition mode_a_detected : string :=
  "MODE A DETECTED: Found tool_calls attribute".
Definition mode_a_not_detected : string :=
  "MODE A NOT DETECTED: No tool_calls attribute".
Definition mode_b_detected : string :=
  "MODE B DETECTED: Found functools pattern".
Definition mode_b_not_detected : string :=
  "MODE B NOT DETECTED: No functools pattern found".
Definition json_parse_error : string := "JSON Parse Error".

(** The calls of the embedded-text encoding, inside the [try] of
    [test_mode_b_from_response]. *)
Fixpoint run_text_calls (calls : list json) : M unit :=
  match calls with
  | [] => ret tt
  | call :: rest =>
      func_name <- lift (get_method call "name" JNull) ;;
      func_args <- lift (get_method call "arguments" (JObj [])) ;;
      emit (EvCall func_name func_args) ;;
      f <- lift (registry_get TOOLS func_name) ;;
      _ <- call_kwargs f func_args ;;
      run_text_calls rest
  end.

(** [test_mode_b_from_response]; the content of a message may be [None],
    which [re.search] refuses. *)
Definition test_mode_b_from_response (text : option string) : M unit :=
  match text with
  | None => lift (raise TypeError "expected string or bytes-like object, got 'NoneType'")
  | Some s =>
      match search_functools_lazy s with
      | Some group =>
          emit (EvPrint mode_b_detected) ;;
          catch (calls <- lift (json_loads ("[" +:+ group +:+ "]")) ;;
                 items <- lift (py_iter calls) ;;
                 run_text_calls items)
                JSONDecodeError
                (fun _ => emit (EvPrint json_parse_error))
      | None => emit (EvPrint mode_b_not_detected)
      end
  end.

(** The loop over the structured calls of [test_mode_a]: each round
    appends the message and the result of the call. *)
Fixpoint run_structured_calls (message : chat_message) (calls : list tool_call)
    (messages : list turn) : M (list turn) :=
  match calls with
  | [] => ret messages
  | tc :: rest =>
      emit (EvCall (JStr (tc_name tc)) (JStr (tc_arguments tc))) ;;
      args <- lift (json_loads (tc_arguments tc)) ;;
      f <- lift (registry_get TOOLS (JStr (tc_name tc))) ;;
      result <- call_kwargs f args ;;
      run_structured_calls message rest
        (messages ++ [Assistant message;
                      ToolTurn (tc_id tc) (tc_name tc) (json_dumps result)])
  end.

Definition test_mode_a (c : client) (model_id : string) : M unit :=
  let messages := [Turn "user" "What's the weather in London?"] in
  message <- create c (Request model_id messages TOOL_SCHEMAS) ;;
  match tool_calls message with
  | Some (tc :: rest) =>
      emit (EvPrint mode_a_detected) ;;
      messages' <- run_structured_calls message (tc :: rest) messages ;;
      _ <- create c (Request model_id messages' []) ;;
      ret tt
  | _ =>
      emit (EvPrint mode_a_not_detected) ;;
      emit (EvPrint "Falling back to Mode B...") ;;
      test_mode_b_from_response (content message)
  end.

Definition summary : string := "SUMMARY".
Definition comparison_error : string := "Error".
Definition comparison_complete : string := "Comparison complete!".

(** [test_mode_b] *)
Definition test_mode_b (c : client) (model_id : string) : M unit :=
  response <- create c (Request model_id
                          [Turn "user" "What's the weather in Paris?"] TOOL_SCHEMAS) ;;
  test_mode_b_from_response (content response).

(** [compare_modes], from the two tests on; the client and the model
    are what the set-up lines resolve. *)
Definition compare_modes (c : client) (model_id : string) : M unit :=
  test_mode_a c model_id ;;
  test_mode_b c model_id ;;
  emit (EvPrint summary).

(** The statements under [if __name__ == "__main__"]. *)
Definition main (c : client) (model_id : string) : M unit :=
  catch_all (compare_modes c model_id) (fun _ => emit (EvPrint comparison_error)) ;;
  emit (EvPrint comparison_complete).

End CompareModes.

(** ** [quick_test_toolcalling.py] *)

Module QuickTest.
Import Py Env Call Chat.

Definition MODEL : string := "phi-4-cuda-gpu".

Definition get_weather (location : json) : M json :=
  emit (EvTool "get_weather") ;;
  ret (JObj [("location", location); ("temperature", JInt 22);
             ("condition", JStr "Sunny")]).

Definition get_weather_fun : pyfun :=
  PyFun "get_weather" [("location", None)]
    (fun vs => match vs with
               | [a] => get_weather a
               | _ => lift (raise TypeError "wrong number of arguments")
               end).

Definition TOOLS : list string := ["get_weather"].

Definition mode_a_working : string :=
  "MODE A WORKING! tool_calls attribute is populated".
Definition mode_a_not_working : string := "MODE A NOT WORKING".
Definition functools_seen : string :=
  "Response contains 'functools' - server not converting to Mode A".
Definition nothing_seen : string := "No tool calls detected at all".

Fixpoint run_structured_calls (calls : list tool_call) : M unit :=
  match calls with
  | [] => ret tt
  | tc :: rest =>
      emit (EvCall (JStr (tc_name tc)) (JStr (tc_arguments tc))) ;;
      args <- lift (json_loads (tc_arguments tc)) ;;
      _ <- call_kwargs get_weather_fun args ;;
      run_structured_calls rest
  end.

(** The statements of the module, from the test query on; the client
    and the model are what the set-up lines resolve. *)
Definition main (c : client) (model_id : string) : M unit :=
  msg <- create c (Request model_id
                     [Turn "user" "What's the weather in Paris?"] TOOLS) ;;
  match tool_calls msg with
  | Some (tc :: rest) =>
      emit (EvPrint mode_a_working) ;;
      run_structured_calls (tc :: rest) ;;
      emit (EvPrint "Tool calling is working correctly with Mode A!")
  | _ =>
      emit (EvPrint mode_a_not_working) ;;
      if is_substring "functools" (default EmptyString (content msg))
      then emit (EvPrint functools_seen)
      else emit (EvPrint nothing_seen)
  end.

End QuickTest.

(** ** [test_phi4_toolcalling.py]: the loop with a handler around each tool *)

Module Phi4Test.
Import Py Env Call Chat.

Definition generate_quiz_question (topic : json) (i : nat) : json :=
  JObj [("id", JInt (Z.of_nat (i + 1)));
        ("question", JStr ("What is an important concept about " +:+ py_str topic +:+ "?"));
        ("options", JArr [JStr "A) Concept 1"; JStr "B) Concept 2";
                          JStr "C) Concept 3"; JStr "D) Concept 4"]);
        ("correct_answer", JStr "A")].

Definition generate_quiz (topic num_questions : json) : M json :=
  emit (EvTool "generate_quiz") ;;
  n <- lift (range_of num_questions) ;;
  let questions := map (generate_quiz_question topic) (seq 0 n) in
  lowered <- lift (lower_method topic) ;;
  ret (JObj [("quiz_id", JStr ("quiz_" +:+ replace_char " " "_" lowered));
             ("topic", topic);
             ("questions", JArr questions);
             ("total", JInt (Z.of_nat (length questions)))]).

(** [save_quiz], a mock: nothing is written. *)
Definition save_quiz (quiz_id quiz_data : json) : M json :=
  emit (EvTool "save_quiz") ;;
  questions <- lift (get_method quiz_data "questions" (JArr [])) ;;
  count <- lift (py_len questions) ;;
  ret (JObj [("status", JStr "saved");
             ("quiz_id", quiz_id);
             ("file_path", JStr ("./quizzes/" +:+ py_str quiz_id +:+ ".json"));
             ("question_count", JInt (Z.of_nat count))]).

Definition generate_quiz_fun : pyfun :=
  PyFun "generate_quiz" [("topic", None); ("num_questions", Some (JInt 3))]
    (Tools.args2 generate_quiz).

Definition save_quiz_fun : pyfun :=
  PyFun "save_quiz" [("quiz_id", None); ("quiz_data", None)] (Tools.args2 save_quiz).

Definition TOOL_SCHEMAS : list string := ["generate_quiz"; "save_quiz"; "calculate"].

Definition failed_to_parse : string := "Failed to parse arguments".
Definition execution_error : string := "Execution error".
Definition unknown_function : string := "Unknown function".
Definition max_iterations_reached : string := "Max iterations reached".

Definition max_iterations : nat := 5.

Section Calculate.

(** [calculate] works on floating-point numbers, which this development
    keeps as the decimals they were read from; it is a parameter here. *)
Variable calculate : pyfun.

Definition AVAILABLE_TOOLS : gmap string pyfun :=
  list_to_map [("generate_quiz", generate_quiz_fun);
               ("save_quiz", save_quiz_fun);
               ("calculate", calculate)].

(** The body of [for idx, tool_call in enumerate(message.tool_calls, 1)]
    for one call. *)
Definition run_call (tc : tool_call) (messages : list turn) : M (list turn) :=
  emit (EvCall (JStr (tc_name tc)) (JStr (tc_arguments tc))) ;;
  match json_loads (tc_arguments tc) with
  | Raise _ => emit (EvPrint failed_to_parse) ;; ret messages
  | Ok func_args =>
      let func_name := tc_name tc in
      result <- match AVAILABLE_TOOLS !! func_name with
                | Some f =>
                    catch_all (call_kwargs f func_args)
                      (fun e => emit (EvPrint execution_error) ;;
                                ret (JObj [("error", JStr (exn_msg e))]))
                | None =>
                    emit (EvPrint unknown_function) ;;
                    ret (JObj [("error", JStr ("Unknown function: " +:+ func_name))])
                end ;;
      ret (messages ++ [ToolTurn (tc_id tc) func_name (json_dumps result)])
  end.

Fixpoint run_calls (calls : list tool_call) (messages : list turn)
  : M (list turn) :=
  match calls with
  | [] => ret messages
  | tc :: rest =>
      messages' <- run_call tc messages ;;
      run_calls rest messages'
  end.

(** The iterations of [test_tool_calling] that are left, [n] of them;
    the value is what the function returns. *)
Fixpoint iterate (c : client) (model_id : string) (n : nat)
    (messages : list turn) : M (option string) :=
  match n with
  | O => emit (EvPrint max_iterations_reached) ;; ret None
  | S n' =>
      message <- create c (Request model_id messages TOOL_SCHEMAS) ;;
      match tool_calls message with
      | None | Some [] => ret (content message)
      | Some calls =>
          messages' <- run_calls calls (messages ++ [Assistant message]) ;;
          iterate c model_id n' messages'
      end
  end.


End Calculate.

End Phi4Test.

(** ** What is observed of a run *)

Module Obs.
Import Py Env.

Definition is_request (e : event) : bool :=
  match e with EvRequest => true | _ => false end.

Definition is_agent (e : event) : bool :=
  match e with EvAgent _ _ => true | _ => false end.

(** The number of round trips to the completion endpoint in a trace. *)
Definition requests (evs : list event) : nat := length (List.filter is_request evs).


(** A coordinator starts the grader only on a context that holds an
    identifier. *)
Definition grader_has_id (e : event) : bool :=
  match e with
  | EvAgent name ctx =>
      if String.eqb name "Grader" then truthy (default JNull (ctx !! "quiz_id"))
      else true
  | _ => true
  end.

Definition no_request (e : event) : bool := negb (is_request e).

(** The first character of the correct answer of a question, when the
    question is a dictionary that holds one as a string. *)
Definition correct_of (q : json) : option string :=
  match getitem_str q "correct_answer" with
  | Ok (JStr answer) => py_chars answer !! 0
  | _ => None
  end.

(** The answer that is graded for the question at index [i]: the first
    character of the response at that index, in upper case, or [X] when
    the responses end before. *)
Definition answered (rs : list string) (i : nat) : string :=
  match rs !! i with
  | Some r => default EmptyString (py_chars (str_upper r) !! 0)
  | None => "X"
  end.

(** The detail of a question in the result of the grading. *)
Definition detail (i : nat) (user correct : string) : json :=
  JObj [("q", JInt (Z.of_nat (i + 1))); ("user", JStr user);
        ("correct", JStr correct);
        ("result", JStr (if String.eqb user correct then Tools.tick else Tools.cross))].

(** For the questions [qs], the first of them at index [i]: which are
    answered correctly, and their details. *)
Fixpoint marks (rs : list string) (qs : list json) (i : nat) : list bool :=
  match qs with
  | [] => []
  | q :: rest =>
      String.eqb (answered rs i) (default EmptyString (correct_of q))
      :: marks rs rest (S i)
  end.

Fixpoint details_of (rs : list string) (qs : list json) (i : nat) : list json :=
  match qs with
  | [] => []
  | q :: rest =>
      detail i (answered rs i) (default EmptyString (correct_of q))
      :: details_of rs rest (S i)
  end.

Definition count_true (l : list bool) : nat := length (List.filter id l).

Definition any_event (e : event) : bool := true.


(** A computation keeps a relation between the world before and after,
    whatever it returns or raises. *)
Definition stable {A} (R : world -> world -> Prop) (m : M A) : Prop :=
  forall w, R w (snd (m w)).

(** No file is changed. *)
Definition same_files (w w' : world) : Prop := files w' = files w.

(** No file is changed but the one at [p]. *)
Definition same_files_but (p : string) (w w' : world) : Prop :=
  forall q, q <> p -> files w' !! q = files w !! q.

(** The trace grows by events that satisfy [P]. *)
Definition appends (P : event -> bool) (w w' : world) : Prop :=
  exists evs, trace w' = trace w ++ evs /\ forallb P evs = true.

(** The result and the files at the end are a function of the files at
    the start. *)
Definition reads_files_only {A} (m : M A) : Prop :=
  forall w w', files w = files w' ->
    fst (m w) = fst (m w') /\ files (snd (m w)) = files (snd (m w')).

(** The events that a run added to the trace it started from. *)
Definition added (w w' : world) : list event := drop (length (trace w)) (trace w').

(** The keyword arguments fit the parameters of [f]: a mapping, each of
    its keys a parameter, and each parameter without default a key. *)
Definition well_keyed (f : Call.pyfun) (arguments : json) : bool :=
  match arguments with
  | JObj kwargs =>
      forallb (fun kv => existsb (fun p => String.eqb (fst kv) (fst p))
                                 (Call.params f)) kwargs
      && forallb (fun p => match snd p with
                           | Some _ => true
                           | None => dict_has (fst p) kwargs
                           end) (Call.params f)
  | _ => false
  end.



Definition last_char (s : string) : option ascii :=
  last (list_ascii_of_string s).

(** Two readings of the clock in the same second. *)
Definition same_second (t1 t2 : datetime) : Prop :=
  year t1 = year t2 /\ month t1 = month t2 /\ day t1 = day t2 /\
  hour t1 = hour t2 /\ minute t1 = minute t2 /\ second t1 = second t2.

(** The ranges of the fields of a [datetime], for years of four digits. *)
Definition valid_datetime (t : datetime) : Prop :=
  1000 <= year t < 100 * 100 /\ 1 <= month t <= 12 /\ 1 <= day t <= 31 /\
  hour t < 24 /\ minute t < 60 /\ second t < 60.

(** The identifier that [save_quiz] forms from a reading of the clock,
    and the file that it writes for it. *)
Definition quiz_id_at (t : datetime) : string := "quiz_" +:+ strftime t.
Definition quiz_file (quiz_id : string) : string :=
  path_join Tools.OUTPUT_DIR (quiz_id +:+ ".json").

(** The sentences that [create_quiz] draws its questions from: the
    pieces between the full stops, stripped, that are longer than ten
    characters; and the number of rounds of its loop. *)
Definition sentences_of (source_text : string) : list string :=
  map str_strip (filter (fun s => 10 < str_len (str_strip s))
                        (str_split "." source_text)).

Definition rounds_of (num_questions : Z) (sentences : list string) : nat :=
  Z.to_nat (Z.min num_questions (Z.of_nat (Nat.max 1 (length sentences)))).

(** What [load_quiz] returns, given what is stored at the path of the
    quiz. *)
Definition load_result (quiz_id : json) (f : option file) : res json :=
  match f with
  | None => Ok (Tools.invalid ("Quiz not found: " +:+ py_str quiz_id))
  | Some doc =>
      let* data := match doc with
                   | JsonDoc j => Ok j
                   | TextDoc s => json_loads s
                   end in
      let* questions := get_method data "questions" (JArr []) in
      let* _ := py_len questions in
      Ok data
  end.

(** A detail of a grading that is marked correct. *)
Definition ticked (d : json) : bool :=
  match getitem_str d "result" with
  | Ok v => eq_str Tools.tick v
  | Raise _ => false
  end.

(** The first character of a response, in upper case. *)
Definition initial (r : string) : option string := py_chars (str_upper r) !! 0.

(** The report that [create_report] writes for a quiz: its path, its
    head, and the row of a question. *)
Definition report_file (quiz_id : json) : string :=
  path_join Tools.OUTPUT_DIR (py_str quiz_id +:+ "_report.md").


Definition row (i : nat) (user correct : string) : string :=
  "| " +:+ dec_nat (i + 1) +:+ " | " +:+ user +:+ " | " +:+ correct +:+ " | "
    +:+ (if String.eqb user correct then Tools.tick else Tools.cross)
    +:+ " |" +:+ nl.


(** No file is removed: every path that holds a file still holds one. *)
Definition files_grow (w w' : world) : Prop :=
  forall p, is_Some (files w !! p) -> is_Some (files w' !! p).

(** Every value that a computation returns satisfies [Q]. *)
Definition returns {A} (Q : A -> Prop) (m : M A) : Prop :=
  forall w a w', m w = (Ok a, w') -> Q a.

Definition is_dict (v : json) : Prop := exists members, v = JObj members.

(** A result of [create_quiz]: its questions are generated ones. *)
Definition quiz_shaped (r : json) : Prop :=
  exists sentences l count,
    r = JObj [("questions", JArr (map (Tools.question sentences) l));
              ("count", count)].

(** An identifier under which a quiz file is there. *)
Definition stored_id (v : json) (w : world) : Prop :=
  exists id, v = JStr id /\ is_Some (files w !! quiz_file id).

(** What the agents can rely on in the result of the tool of a call:
    it is a dictionary; under the name [create_quiz] its questions, if
    it has any, are generated ones; under the name [save_quiz] its
    identifier, if it has one, is stored. *)
Definition tool_result (tool_name r : json) (w : world) : Prop :=
  exists members,
    r = JObj members /\
    (eq_str "create_quiz" tool_name = true ->
     dict_has "questions" members = true -> quiz_shaped r) /\
    (eq_str "save_quiz" tool_name = true ->
     forall v, dict_get "quiz_id" members = Some v -> stored_id v w).

(** What the coordinators read from a context is in order. *)
Definition sound_context (ctx : gmap string json) (w : world) : Prop :=
  (forall v, ctx !! "quiz_data" = Some v -> quiz_shaped v) /\
  (forall v, ctx !! "quiz_id" = Some v -> stored_id v w) /\
  (forall v, ctx !! "grading_results" = Some v -> is_dict v).

(** The keys that the projection of tool results writes. *)
Definition context_keys : list string :=
  ["quiz_data"; "quiz_id"; "grading_results"; "report_path"].





(** The turns that [test_mode_a] appends for the calls and their results. *)
Fixpoint call_turns (message : Chat.chat_message) (calls : list Chat.tool_call)
    (results : list json) : list Chat.turn :=
  match calls, results with
  | tc :: calls', r :: results' =>
      Chat.Assistant message
      :: Chat.ToolTurn (Chat.tc_id tc) (Chat.tc_name tc) (json_dumps r)
      :: call_turns message calls' results'
  | _, _ => []
  end.

End Obs.

(** ** Worlds and endpoints for the examples *)

Module Examples.
Import Py Env Call Tools Chat.

(** A clock that advances by one second at each reading. *)
Definition ticking (n : nat) : datetime := Datetime 2025 1 9 7 5 (3 + n) 0.

(** A clock that stays within one second. *)
Definition frozen (n : nat) : datetime := Datetime 2025 1 9 7 5 3 n.

Definition w0 : world := World ∅ ticking 0 [].
Definition w_frozen : world := World ∅ frozen 0 [].

Definition q (s : string) : string := str1 quote +:+ s +:+ str1 quote.

(** A structured call of the weather tool, and two endpoints that
    return it: one with a text that holds the marker, one with no text. *)
Definition weather_call : tool_call :=
  ToolCall "call_1" "get_weather" ("{" +:+ q "location" +:+ ": " +:+ q "London" +:+ "}").




Definition sound_call : tool_call :=
  ToolCall "call_2" "create_quiz"
    ("{" +:+ q "source_text" +:+ ": " +:+ q "Water boils at one hundred degrees."
         +:+ ", " +:+ q "num_questions" +:+ ": 1}").




(** An endpoint that asks for a quiz at each turn, in the text and as a
    structured call. *)
Definition eager_text : string :=
  "functools[{" +:+ q "name" +:+ ": " +:+ q "create_quiz" +:+ ", "
    +:+ q "arguments" +:+ ": {" +:+ q "source_text" +:+ ": "
    +:+ q "Water boils at one hundred degrees." +:+ ", "
    +:+ q "num_questions" +:+ ": 1}}]".

Definition eager_client : client :=
  fun _ => ChatMessage (Some eager_text) (Some [sound_call]).

(** An endpoint that answers in plain text. *)
Definition plain_client : client := fun _ => ChatMessage (Some "No tool is needed.") None.

(** A call of the text whose arguments hold a list. *)
Definition list_text : string :=
  "functools[{" +:+ q "name" +:+ ": " +:+ q "get_weather" +:+ ", "
    +:+ q "arguments" +:+ ": {" +:+ q "location" +:+ ": "
    +:+ q "Paris" +:+ ", " +:+ q "days" +:+ ": [1, 2]}}]".


End Examples.

(** * Properties *)

Import Py Env Call Tools Chat Obs.

(** ** Computations, step by step *)

Lemma bind_Ok {A B} (m : M A) (k : A -> M B) w a w1 :
  m w = (Ok a, w1) -> bind m k w = k a w1.
Proof. intros H. unfold bind. by rewrite H. Qed.

Lemma bind_Raise {A B} (m : M A) (k : A -> M B) w e w1 :
  m w = (Raise e, w1) -> bind m k w = (Raise e, w1).
Proof. intros H. unfold bind. by rewrite H. Qed.

Lemma bind_Ok_inv {A B} (m : M A) (k : A -> M B) w b w' :
  bind m k w = (Ok b, w') ->
  exists a w1, m w = (Ok a, w1) /\ k a w1 = (Ok b, w').
Proof.
  unfold bind. destruct (m w) as [[a|e] w1]; intros H; [eauto | discriminate].
Qed.

Lemma lift_Ok_inv {A} (r : res A) w a w' :
  lift r w = (Ok a, w') -> r = Ok a /\ w' = w.
Proof. unfold lift. intros H. by inversion H. Qed.

(** ** Relations kept by every step *)

Section Stable.
Context (R : world -> world -> Prop) `{!PreOrder R}.

Lemma stable_ret {A} (a : A) : stable R (ret a).
Proof. intros w. simpl. reflexivity. Qed.

Lemma stable_lift {A} (r : res A) : stable R (lift r).
Proof. intros w. simpl. reflexivity. Qed.

Lemma stable_bind {A B} (m : M A) (k : A -> M B) :
  stable R m -> (forall a, stable R (k a)) -> stable R (bind m k).
Proof.
  intros Hm Hk w. unfold bind. specialize (Hm w).
  destruct (m w) as [[a|e] w1]; simpl in *; [|done].
  etrans; [exact Hm | apply Hk].
Qed.

Lemma stable_catch {A} (m : M A) c (h : exn -> M A) :
  stable R m -> (forall e, stable R (h e)) -> stable R (catch m c h).
Proof.
  intros Hm Hh w. unfold catch. specialize (Hm w).
  destruct (m w) as [[a|e] w1]; simpl in *; [done|].
  destruct (same_class (exn_kind e) c); [|done]. etrans; [exact Hm | apply Hh].
Qed.

Lemma stable_path_exists p : stable R (path_exists p).
Proof. intros w. simpl. reflexivity. Qed.

Lemma stable_json_load p : stable R (json_load p).
Proof. intros w. simpl. reflexivity. Qed.
End Stable.

Ltac stable_step :=
  lazymatch goal with
  | |- stable _ (bind _ _) => apply stable_bind; [try apply _ | | intros ?]
  | |- stable _ (ret _) => apply stable_ret; try apply _
  | |- stable _ (lift _) => apply stable_lift; try apply _
  | |- stable _ (path_exists _) => apply stable_path_exists; try apply _
  | |- stable _ (json_load _) => apply stable_json_load; try apply _
  | |- stable _ (catch _ _ _) => apply stable_catch; [try apply _ | | intros ?]
  | |- stable _ (if ?b then _ else _) => destruct b
  | |- stable _ (match ?x with _ => _ end) => destruct x
  end.

#[local] Instance same_files_preorder : PreOrder same_files.
Proof.
  split; [by intros w | intros w1 w2 w3 H12 H23; unfold same_files in *; congruence].
Qed.

#[local] Instance same_files_but_preorder p : PreOrder (same_files_but p).
Proof.
  split; [by intros w q | ].
  intros w1 w2 w3 H12 H23 q Hq. rewrite H23, H12; done.
Qed.

#[local] Instance appends_preorder P : PreOrder (appends P).
Proof.
  split.
  - intros w. exists []. by rewrite app_nil_r.
  - intros w1 w2 w3 (e1 & H1 & F1) (e2 & H2 & F2). exists (e1 ++ e2).
    rewrite H2, H1, <- app_assoc, forallb_app, F1, F2. done.
Qed.

Lemma same_files_emit e : stable same_files (emit e).
Proof. by intros w. Qed.

Lemma same_files_but_emit p e : stable (same_files_but p) (emit e).
Proof. by intros w q. Qed.

Lemma same_files_but_write p f : stable (same_files_but p) (write_file p f).
Proof. intros w q Hq. simpl. by rewrite lookup_insert_ne. Qed.

Lemma appends_emit (P : event -> bool) e : P e = true -> stable (appends P) (emit e).
Proof. intros H w. exists [e]. simpl. by rewrite H. Qed.

Lemma appends_now P : stable (appends P) now.
Proof. intros w. exists []. simpl. by rewrite app_nil_r. Qed.

Lemma appends_write P p f : stable (appends P) (write_file p f).
Proof. intros w. exists []. simpl. by rewrite app_nil_r. Qed.

(** ** The tools and the files *)

Lemma create_quiz_same_files a b : stable same_files (create_quiz a b).
Proof. unfold create_quiz. repeat first [stable_step | apply same_files_emit]. Qed.

Lemma load_quiz_same_files a : stable same_files (load_quiz a).
Proof. unfold load_quiz. repeat first [stable_step | apply same_files_emit]. Qed.

Lemma grade_responses_same_files a b : stable same_files (grade_responses a b).
Proof.
  unfold grade_responses.
  repeat first [stable_step | apply same_files_emit | apply load_quiz_same_files].
Qed.

(** ** Strings *)

Lemma list_ascii_app s t :
  list_ascii_of_string (s +:+ t) = list_ascii_of_string s ++ list_ascii_of_string t.
Proof. induction s as [|c s IH]; simpl; [done | by rewrite IH]. Qed.

Lemma append_cons c s t : String c s +:+ t = String c (s +:+ t).
Proof. reflexivity. Qed.

Lemma append_empty_r s : s +:+ EmptyString = s.
Proof. induction s as [|c s IH]; [done | by rewrite append_cons, IH]. Qed.

Lemma list_ascii_inj s t : list_ascii_of_string s = list_ascii_of_string t -> s = t.
Proof.
  intros H. rewrite <- (string_of_list_ascii_of_string s),
    <- (string_of_list_ascii_of_string t). by rewrite H.
Qed.

Lemma append_inv_tail s1 s2 t : s1 +:+ t = s2 +:+ t -> s1 = s2.
Proof.
  intros H. apply list_ascii_inj. apply (f_equal list_ascii_of_string) in H.
  rewrite !list_ascii_app in H. by apply app_inv_tail in H.
Qed.

Lemma last_char_app s c t : last_char (s +:+ String c t) = last_char (String c t).
Proof.
  unfold last_char. rewrite list_ascii_app. simpl.
  by rewrite last_app_cons.
Qed.

Lemma is_prefix_app s t : is_prefix s (s +:+ t) = true.
Proof. induction s as [|c s IH]; simpl; [done|]. by rewrite Ascii.eqb_refl. Qed.

Lemma is_substring_here s t : is_substring s (s +:+ t) = true.
Proof. destruct s; simpl; [by destruct t|]. by rewrite Ascii.eqb_refl, is_prefix_app. Qed.

Lemma is_substring_app_r s a t : is_substring s t = true -> is_substring s (a +:+ t) = true.
Proof.
  intros H. induction a as [|c a IH]; simpl; [done|].
  rewrite IH. apply orb_true_r.
Qed.

(** The name of a tool is part of a message built around it. *)
Lemma is_substring_middle s a b : is_substring s (a +:+ s +:+ b) = true.
Proof. apply is_substring_app_r, is_substring_here. Qed.

(** ** The time stamp of an identifier *)

Lemma digit_inj a b : digit a = digit b -> a mod 10 = b mod 10.
Proof.
  unfold digit. intros H. apply (f_equal nat_of_ascii) in H.
  pose proof (Nat.mod_upper_bound a 10). pose proof (Nat.mod_upper_bound b 10).
  rewrite !nat_ascii_embedding in H by lia. lia.
Qed.

Lemma digits2 a b :
  a < 100 -> b < 100 ->
  (a / 10) mod 10 = (b / 10) mod 10 -> a mod 10 = b mod 10 -> a = b.
Proof.
  intros Ha Hb H1 H0.
  pose proof (Nat.div_mod_eq a 10). pose proof (Nat.div_mod_eq b 10).
  assert (a / 10 < 10) by (apply Nat.Div0.div_lt_upper_bound; lia).
  assert (b / 10 < 10) by (apply Nat.Div0.div_lt_upper_bound; lia).
  rewrite (Nat.mod_small (a / 10)) in H1 by lia.
  rewrite (Nat.mod_small (b / 10)) in H1 by lia. lia.
Qed.

Lemma digits4 a b :
  a < 100 * 100 -> b < 100 * 100 ->
  (a / 1000) mod 10 = (b / 1000) mod 10 -> (a / 100) mod 10 = (b / 100) mod 10 ->
  (a / 10) mod 10 = (b / 10) mod 10 -> a mod 10 = b mod 10 -> a = b.
Proof.
  intros Ha Hb H3 H2 H1 H0.
  pose proof (Nat.div_mod_eq a 10) as E1. pose proof (Nat.div_mod_eq b 10) as E2.
  pose proof (Nat.div_mod_eq (a / 10) 10) as E3.
  pose proof (Nat.div_mod_eq (b / 10) 10) as E4.
  pose proof (Nat.div_mod_eq (a / 100) 10) as E5.
  pose proof (Nat.div_mod_eq (b / 100) 10) as E6.
  rewrite !Nat.Div0.div_div in E3, E4, E5, E6.
  change (10 * 10) with 100 in *. change (100 * 10) with 1000 in *.
  assert (a / 1000 < 10) by (apply Nat.Div0.div_lt_upper_bound; lia).
  assert (b / 1000 < 10) by (apply Nat.Div0.div_lt_upper_bound; lia).
  rewrite (Nat.mod_small (a / 1000)) in H3 by lia.
  rewrite (Nat.mod_small (b / 1000)) in H3 by lia. lia.
Qed.

Lemma pad2_app_inj a b x y :
  a < 100 -> b < 100 -> pad2 a +:+ x = pad2 b +:+ y -> a = b /\ x = y.
Proof.
  intros Ha Hb. unfold pad2, str1.
  remember (a / 10) as a1 eqn:Ea1. remember (b / 10) as b1 eqn:Eb1.
  simpl. intros E. injection E as E1 E0 E. split; [|done].
  apply digit_inj in E1, E0. subst. by apply digits2.
Qed.

Lemma pad4_app_inj a b x y :
  a < 100 * 100 -> b < 100 * 100 -> pad4 a +:+ x = pad4 b +:+ y -> a = b /\ x = y.
Proof.
  intros Ha Hb. unfold pad4, pad2, str1.
  remember (a / 1000) as a3 eqn:Ea3. remember (b / 1000) as b3 eqn:Eb3.
  remember (a / 100) as a2 eqn:Ea2. remember (b / 100) as b2 eqn:Eb2.
  remember (a / 10) as a1 eqn:Ea1. remember (b / 10) as b1 eqn:Eb1.
  simpl. intros E. injection E as E3 E2 E1 E0 E. split; [|done].
  apply digit_inj in E3, E2, E1, E0. subst. by apply digits4.
Qed.

Lemma quiz_id_at_inj t1 t2 :
  valid_datetime t1 -> valid_datetime t2 ->
  quiz_id_at t1 = quiz_id_at t2 -> same_second t1 t2.
Proof.
  intros (Hy1 & Hm1 & Hd1 & Hh1 & Hmi1 & Hs1) (Hy2 & Hm2 & Hd2 & Hh2 & Hmi2 & Hs2).
  unfold quiz_id_at, strftime. intros H.
  apply String.app_inj in H.
  destruct t1 as [y1 mo1 d1 h1 mi1 s1 u1], t2 as [y2 mo2 d2 h2 mi2 s2 u2].
  unfold year, month, day, hour, minute, second in *.
  apply pad4_app_inj in H as [-> H]; [|lia..].
  apply pad2_app_inj in H as [-> H]; [|lia..].
  apply pad2_app_inj in H as [-> H]; [|lia..].
  apply String.app_inj in H.
  apply pad2_app_inj in H as [-> H]; [|lia..].
  apply pad2_app_inj in H as [-> H]; [|lia..].
  rewrite <- (append_empty_r (pad2 s1)), <- (append_empty_r (pad2 s2)) in H.
  apply pad2_app_inj in H as [-> _]; [|lia..].
  by repeat split.
Qed.

Lemma quiz_id_at_same_second t1 t2 :
  same_second t1 t2 -> quiz_id_at t1 = quiz_id_at t2.
Proof.
  intros (Hy & Hm & Hd & Hh & Hmi & Hs). unfold quiz_id_at, strftime.
  by rewrite Hy, Hm, Hd, Hh, Hmi, Hs.
Qed.

Lemma append_assoc s t u : (s +:+ t) +:+ u = s +:+ t +:+ u.
Proof. induction s as [|c s IH]; [done | by rewrite !append_cons, IH]. Qed.

Lemma last_char_path_join dir s c t :
  last_char (path_join dir (s +:+ String c t)) = last_char (String c t).
Proof.
  unfold path_join. destruct (is_prefix _ _).
  - apply last_char_app.
  - rewrite <- !append_assoc. apply last_char_app.
Qed.

(** A report is never written over a quiz. *)
Lemma report_file_not_quiz_file x quiz_id :
  path_join OUTPUT_DIR (x +:+ "_report.md") <> quiz_file quiz_id.
Proof.
  intros H. apply (f_equal last_char) in H. unfold quiz_file in H.
  rewrite !last_char_path_join in H. discriminate.
Qed.

Lemma quiz_file_at_inj t1 t2 :
  quiz_file (quiz_id_at t1) = quiz_file (quiz_id_at t2) -> quiz_id_at t1 = quiz_id_at t2.
Proof.
  unfold quiz_file, path_join, quiz_id_at. simpl. intros H.
  do 2 apply String.app_inj in H. by apply append_inv_tail in H.
Qed.

(** ** [save_quiz], [load_quiz] and [create_report], run *)

Lemma save_quiz_run quiz_data w :
  save_quiz quiz_data w =
  let tr := trace w ++ [EvTool "save_quiz"] in
  match (if truthy quiz_data then py_contains "questions" quiz_data else Ok false) with
  | Raise e => (Raise e, World (files w) (clock w) (reads w) tr)
  | Ok false => (Ok (invalid "Invalid quiz_data"), World (files w) (clock w) (reads w) tr)
  | Ok true =>
      let id := quiz_id_at (clock w (reads w)) in
      match getitem_str quiz_data "questions" with
      | Ok qs =>
          (Ok (JObj [("quiz_id", JStr id); ("path", JStr (quiz_file id))]),
           World (<[quiz_file id :=
                      JsonDoc (JObj [("quiz_id", JStr id); ("questions", qs)])]>
                    (files w))
                 (clock w) (S (reads w)) tr)
      | Raise e =>
          (Raise e, World (<[quiz_file id := TextDoc EmptyString]> (files w))
                          (clock w) (S (reads w)) tr)
      end
  end.
Proof.
  unfold save_quiz, bind, emit, lift, now, open_w, write_file, ret. simpl.
  destruct (if truthy quiz_data then _ else _) as [[|]|e]; simpl; try done.
  destruct (getitem_str quiz_data "questions"); simpl; [|done].
  by rewrite insert_insert_eq.
Qed.

Lemma save_quiz_same_files_but quiz_data w :
  same_files_but (quiz_file (quiz_id_at (clock w (reads w)))) w
    (snd (save_quiz quiz_data w)).
Proof.
  rewrite save_quiz_run. simpl. intros p Hp.
  destruct (if truthy quiz_data then _ else _) as [[|]|e]; simpl; try done.
  destruct (getitem_str quiz_data "questions"); simpl; by rewrite lookup_insert_ne.
Qed.

Lemma create_report_same_files_but a b :
  stable (same_files_but (path_join OUTPUT_DIR (py_str a +:+ "_report.md")))
    (create_report a b).
Proof.
  unfold create_report, open_w.
  repeat first [stable_step | apply same_files_but_emit | apply same_files_but_write].
Qed.

(** ** Results that are a function of the files *)

Lemma rfo_ret {A} (a : A) : reads_files_only (ret a).
Proof. by intros w w' H. Qed.

Lemma rfo_lift {A} (r : res A) : reads_files_only (lift r).
Proof. by intros w w' H. Qed.

Lemma rfo_emit e : reads_files_only (emit e).
Proof. by intros w w' H. Qed.

Lemma rfo_path_exists p : reads_files_only (path_exists p).
Proof. intros w w' H. simpl. by rewrite H. Qed.

Lemma rfo_json_load p : reads_files_only (json_load p).
Proof. intros w w' H. simpl. by rewrite H. Qed.

Lemma rfo_bind {A B} (m : M A) (k : A -> M B) :
  reads_files_only m -> (forall a, reads_files_only (k a)) ->
  reads_files_only (bind m k).
Proof.
  intros Hm Hk w w' H. unfold bind. destruct (Hm w w' H) as [H1 H2].
  destruct (m w) as [[a|e] w1], (m w') as [[a'|e'] w1']; simpl in *;
    try discriminate.
  - injection H1 as ->. by apply Hk.
  - by injection H1 as ->.
Qed.

Ltac rfo_step :=
  lazymatch goal with
  | |- reads_files_only (bind _ _) => apply rfo_bind; [| intros ?]
  | |- reads_files_only (ret _) => apply rfo_ret
  | |- reads_files_only (lift _) => apply rfo_lift
  | |- reads_files_only (emit _) => apply rfo_emit
  | |- reads_files_only (path_exists _) => apply rfo_path_exists
  | |- reads_files_only (json_load _) => apply rfo_json_load
  | |- reads_files_only (if ?b then _ else _) => destruct b
  end.

Lemma load_quiz_reads_files_only a : reads_files_only (load_quiz a).
Proof. unfold load_quiz. repeat rfo_step. Qed.

Lemma grade_responses_reads_files_only a b : reads_files_only (grade_responses a b).
Proof.
  unfold grade_responses. repeat first [rfo_step | apply load_quiz_reads_files_only].
Qed.

(** ** The quiz store *)

(** C7, as the code has it: the identifier of a save is the time stamp of
    its reading of the clock, to the second.  Two readings (of years of
    four digits) give the same identifier exactly when they fall in the
    same second; and the file of an identifier is left as it is by
    [create_quiz], [load_quiz], [grade_responses] and [create_report], and
    by every [save_quiz] whose reading gives another identifier. *)
Theorem C7_identifier_by_the_second :
  (forall quiz_data w r w' v,
      save_quiz quiz_data w = (Ok r, w') -> getitem_str r "quiz_id" = Ok v ->
      v = JStr (quiz_id_at (clock w (reads w)))) /\
  (forall t1 t2, valid_datetime t1 -> valid_datetime t2 ->
      (quiz_id_at t1 = quiz_id_at t2 <-> same_second t1 t2)) /\
  (forall t w a b,
      let p := quiz_file (quiz_id_at t) in
      files (snd (create_quiz a b w)) !! p = files w !! p /\
      files (snd (load_quiz a w)) !! p = files w !! p /\
      files (snd (grade_responses a b w)) !! p = files w !! p /\
      files (snd (create_report a b w)) !! p = files w !! p /\
      (quiz_id_at (clock w (reads w)) <> quiz_id_at t ->
       files (snd (save_quiz a w)) !! p = files w !! p)).
Proof.
  split; [|split].
  - intros quiz_data w r w' v H Hv. rewrite save_quiz_run in H. simpl in H.
    destruct (if truthy quiz_data then _ else _) as [[|]|e]; simpl in H.
    + destruct (getitem_str quiz_data "questions"); inversion H; subst.
      simpl in Hv. by inversion Hv.
    + inversion H; subst. discriminate.
    + discriminate.
  - intros t1 t2 V1 V2. split; [by apply quiz_id_at_inj | apply quiz_id_at_same_second].
  - intros t w a b p. repeat split.
    + by rewrite (create_quiz_same_files a b w).
    + by rewrite (load_quiz_same_files a w).
    + by rewrite (grade_responses_same_files a b w).
    + apply (create_report_same_files_but a b w). symmetry.
      apply report_file_not_quiz_file.
    + intros Hne. apply (save_quiz_same_files_but a w).
      intros E. apply Hne. symmetry. by apply quiz_file_at_inj.
Qed.

(** C8: a quiz record with a list of questions, saved and then loaded by
    the identifier that the save returned, comes back with the same list
    of questions. *)
Theorem C8_save_load_roundtrip (members : list (string * json)) (qs : list json)
    (w : world) :
  dict_get "questions" members = Some (JArr qs) ->
  exists quiz_id w1 w2,
    save_quiz (JObj members) w
      = (Ok (JObj [("quiz_id", JStr quiz_id); ("path", JStr (quiz_file quiz_id))]), w1)
    /\ load_quiz (JStr quiz_id) w1
      = (Ok (JObj [("quiz_id", JStr quiz_id); ("questions", JArr qs)]), w2)
    /\ getitem_str (JObj [("quiz_id", JStr quiz_id); ("questions", JArr qs)])
         "questions" = Ok (JArr qs).
Proof.
  intros Hq. eexists _, _, _. rewrite save_quiz_run.
  assert (Ht : truthy (JObj members) = true) by (by destruct members).
  rewrite Ht. simpl. unfold dict_has. rewrite Hq. simpl.
  split; [reflexivity|]. split; [|reflexivity].
  unfold load_quiz, bind, emit, path_exists, json_load, lift, ret. simpl.
  fold (quiz_file (quiz_id_at (clock w (reads w)))).
  repeat (rewrite lookup_insert_eq; simpl). reflexivity.
Qed.

Lemma C8_save_load_roundtrip_witness :
  exists quiz_id w1 w2,
    save_quiz (JObj [("questions", JArr [JStr "one"; JStr "two"]); ("count", JInt 2)])
      Examples.w0
      = (Ok (JObj [("quiz_id", JStr quiz_id); ("path", JStr (quiz_file quiz_id))]), w1)
    /\ load_quiz (JStr quiz_id) w1
      = (Ok (JObj [("quiz_id", JStr quiz_id);
                   ("questions", JArr [JStr "one"; JStr "two"])]), w2)
    /\ getitem_str (JObj [("quiz_id", JStr quiz_id);
                          ("questions", JArr [JStr "one"; JStr "two"])])
         "questions" = Ok (JArr [JStr "one"; JStr "two"]).
Proof.
  apply (C8_save_load_roundtrip
           [("questions", JArr [JStr "one"; JStr "two"]); ("count", JInt 2)]
           [JStr "one"; JStr "two"] Examples.w0).
  reflexivity.
Defined.

(** C9: grading twice with the same identifier and the same responses
    gives the same result both times (the same score, total and details,
    or the same error), and grading changes no file; more generally the
    result is the same in any two worlds that hold the same files. *)
Theorem C9_grading_is_deterministic (quiz_id responses : json) (w : world) :
  let first := grade_responses quiz_id responses w in
  let second := grade_responses quiz_id responses (snd first) in
  fst second = fst first /\
  files (snd first) = files w /\ files (snd second) = files w /\
  forall w', files w' = files w ->
             fst (grade_responses quiz_id responses w') = fst first.
Proof.
  intros first second.
  assert (H1 : files (snd first) = files w)
    by apply (grade_responses_same_files quiz_id responses w).
  assert (H2 : files (snd second) = files (snd first))
    by apply (grade_responses_same_files quiz_id responses (snd first)).
  repeat split.
  - by apply (grade_responses_reads_files_only quiz_id responses).
  - done.
  - congruence.
  - intros w' H. by apply (grade_responses_reads_files_only quiz_id responses).
Qed.

(** Two saves within one second: the second takes the identifier of the
    first and replaces its questions. *)
Lemma C7_same_second_collision :
  let first := JObj [("questions", JArr [JStr "first"])] in
  let second := JObj [("questions", JArr [JStr "second"])] in
  let s1 := save_quiz first Examples.w_frozen in
  let s2 := save_quiz second (snd s1) in
  let id := "quiz_20250109_070503" in
  clock Examples.w_frozen 0 <> clock Examples.w_frozen 1 /\
  fst s1 = Ok (JObj [("quiz_id", JStr id); ("path", JStr (quiz_file id))]) /\
  fst s2 = Ok (JObj [("quiz_id", JStr id); ("path", JStr (quiz_file id))]) /\
  fst (load_quiz (JStr id) (snd s1))
    = Ok (JObj [("quiz_id", JStr id); ("questions", JArr [JStr "first"])]) /\
  fst (load_quiz (JStr id) (snd s2))
    = Ok (JObj [("quiz_id", JStr id); ("questions", JArr [JStr "second"])]).
Proof. vm_compute. repeat split; try reflexivity. discriminate. Qed.

Lemma valid_ticking n : n < 50 -> valid_datetime (Examples.ticking n).
Proof. intros H. unfold valid_datetime, Examples.ticking. simpl. lia. Defined.

Lemma C7_identifier_by_the_second_witness :
  (quiz_id_at (Examples.ticking 0) = quiz_id_at (Examples.ticking 1)
   <-> same_second (Examples.ticking 0) (Examples.ticking 1)) /\
  files (snd (save_quiz (JObj [("questions", JArr [])])
                (World ∅ Examples.ticking 1 [])))
    !! quiz_file (quiz_id_at (Examples.ticking 0))
  = (∅ : gmap string file) !! quiz_file (quiz_id_at (Examples.ticking 0)).
Proof.
  split.
  - apply (proj1 (proj2 C7_identifier_by_the_second)); apply valid_ticking; lia.
  - apply (proj2 (proj2 C7_identifier_by_the_second) (Examples.ticking 0)
             (World ∅ Examples.ticking 1 []) (JObj [("questions", JArr [])]) JNull).
    vm_compute. discriminate.
Defined.

(** ** The response interpreter *)


(** The extraction on the marker text of the interface description, on
    a text without the marker and on a marker with nothing between the
    brackets. *)
Example extract_functools_one_call :
  Fixed.extract_functools
    ("functools[{" +:+ Examples.q "name" +:+ ":" +:+ Examples.q "get_weather" +:+ ","
       +:+ Examples.q "arguments" +:+ ":{" +:+ Examples.q "location" +:+ ":"
       +:+ Examples.q "Paris" +:+ "}}]")
  = Some [JObj [("name", JStr "get_weather");
                ("arguments", JObj [("location", JStr "Paris")])]].
Proof. by vm_compute. Qed.

Example extract_functools_plain_text :
  Fixed.extract_functools "The capital of France is Paris." = None.
Proof. by vm_compute. Qed.

Example extract_functools_no_call :
  Fixed.extract_functools "functools[]" = None.
Proof. by vm_compute. Qed.




(** ** The tool executor *)

Lemma existsb_param_false k (ps : list (string * option json)) :
  existsb (fun p => String.eqb k (fst p)) ps = false ->
  forall d, (k, d) ∉ ps.
Proof.
  intros H d Hin. apply list_elem_of_In in Hin.
  assert (existsb (fun p => String.eqb k (fst p)) ps = true); [|congruence].
  apply existsb_exists. exists (k, d). split; [done|]. apply String.eqb_refl.
Qed.

Lemma bind_params_missing f ps kwargs :
  forallb (fun p => match snd p with
                    | Some _ => true
                    | None => dict_has (fst p) kwargs
                    end) ps = false ->
  exists msg, bind_params f ps kwargs = raise TypeError (f +:+ msg).
Proof.
  induction ps as [|[p d] ps IH]; simpl; [done|].
  unfold dict_has. destruct (dict_get p kwargs) as [v|] eqn:Hp; simpl.
  - rewrite (Bool.andb_true_l) || idtac. destruct d; simpl; intros H.
    + destruct (IH H) as [msg ->]. by exists msg.
    + destruct (IH H) as [msg ->]. by exists msg.
  - destruct d; simpl; intros H.
    + destruct (IH H) as [msg ->]. by exists msg.
    + eexists. reflexivity.
Qed.

(** Keyword arguments that do not fit are refused with a [TypeError],
    before the body of the function runs. *)
Lemma call_kwargs_ill_keyed f arguments w :
  well_keyed f arguments = false ->
  exists msg, call_kwargs f arguments w = (raise TypeError msg, w).
Proof.
  unfold well_keyed, call_kwargs. destruct arguments; try (by eexists).
  intros H. destruct (find _ members) as [[k v]|] eqn:Hf; [by eexists|].
  apply andb_false_iff in H as [H|H].
  - exfalso. apply not_true_iff_false in H. apply H. apply forallb_forall.
    intros kv Hin. apply find_none with (x := kv) in Hf; [|done].
    by apply negb_false_iff in Hf.
  - destruct (bind_params_missing (fname f) _ _ H) as [msg Hm].
    exists (fname f +:+ msg). unfold bind, lift. by rewrite Hm.
Qed.

Lemma execute_tool_known name f arguments w :
  TOOLS !! name = Some f ->
  Fixed.execute_tool (JStr name) arguments w
  = match call_kwargs f arguments w with
    | (Ok v, w') => (Ok v, w')
    | (Raise e, w') =>
        match exn_kind e with
        | TypeError =>
            (Ok (invalid ("Invalid arguments for " +:+ name +:+ ": " +:+ exn_msg e)), w')
        | _ => (Raise e, w')
        end
    end.
Proof.
  intros Hf. unfold Fixed.execute_tool, bind at 1, lift at 1. simpl.
  rewrite Hf. simpl. unfold catch, bind, lift. simpl.
  destruct (call_kwargs f arguments w) as [[v|e] w']; [done|].
  by destruct (exn_kind e).
Qed.

(** What [execute_tool] does at its boundary: it answers an unknown name
    with an error that holds the name, and turns a [TypeError] of the
    call of a known tool (keyword arguments that do not fit, or a
    [TypeError] inside the body) into an error that holds the name; a
    fault of any other class passes through it, and the structured agent
    calls the tools with no handler at all. *)
Theorem execute_tool_boundary (name : string) (arguments : json) (w : world) :
  (TOOLS !! name = None ->
   Fixed.execute_tool (JStr name) arguments w
   = (Ok (invalid ("Unknown tool: " +:+ name)), w)
   /\ is_substring name ("Unknown tool: " +:+ name) = true) /\
  (forall f, TOOLS !! name = Some f ->
     match call_kwargs f arguments w with
     | (Ok v, w') => Fixed.execute_tool (JStr name) arguments w = (Ok v, w')
     | (Raise e, w') =>
         match exn_kind e with
         | TypeError =>
             Fixed.execute_tool (JStr name) arguments w
             = (Ok (invalid ("Invalid arguments for " +:+ name +:+ ": " +:+ exn_msg e)), w')
             /\ is_substring name
                  ("Invalid arguments for " +:+ name +:+ ": " +:+ exn_msg e) = true
         | _ => Fixed.execute_tool (JStr name) arguments w = (Raise e, w')
         end
     end) /\
  (forall f, TOOLS !! name = Some f -> well_keyed f arguments = false ->
     exists msg,
       Fixed.execute_tool (JStr name) arguments w = (Ok (invalid msg), w)
       /\ is_substring name msg = true) /\
  (forall f tc messages ctx a e w',
     TOOLS !! name = Some f -> tc_name tc = name ->
     json_loads (tc_arguments tc) = Ok a ->
     call_kwargs f a
       (World (files w) (clock w) (reads w) (trace w ++ [EvCall (JStr name) a]))
     = (Raise e, w') ->
     Working.run_call tc messages ctx w = (Raise e, w')).
Proof.
  split; [|split; [|split]].
  - intros Hn. split.
    + unfold Fixed.execute_tool, bind, lift. simpl. by rewrite Hn.
    + rewrite <- (append_empty_r name) at 2. apply is_substring_middle.
  - intros f Hf. rewrite (execute_tool_known _ _ _ _ Hf).
    destruct (call_kwargs f arguments w) as [[v|e] w']; [done|].
    destruct (exn_kind e); try done. split; [done|]. apply is_substring_middle.
  - intros f Hf Hk. destruct (call_kwargs_ill_keyed f arguments w Hk) as [msg Hm].
    rewrite (execute_tool_known _ _ _ _ Hf), Hm. simpl.
    eexists. split; [reflexivity|]. apply is_substring_middle.
  - intros f tc messages ctx a e w' Hf Hn Ha Hc.
    unfold Working.run_call, Working.call_result, bind, lift, emit.
    rewrite Ha, Hn. simpl. by rewrite Hf, Hc.
Qed.

(** C2 asks that no fault of a tool leaves the executor.  [execute_tool]
    is run here on two calls of known tools: grading results that lack
    the total (a [KeyError] in the body of [create_report]) and a source
    text that is a number (an [AttributeError] in [create_quiz]).  Both
    faults leave [execute_tool], which handles [TypeError] alone, and so
    they leave the structured agent, which has no handler. *)
Lemma C2_fault_escapes_the_executor :
  is_Some (TOOLS !! "create_report") /\
  fst (Fixed.execute_tool (JStr "create_report")
         (JObj [("quiz_id", JStr "quiz_1");
                ("grading_results", JObj [("score", JInt 1)])])
         Examples.w0)
  = Raise (Exn KeyError "'total'") /\
  fst (Fixed.execute_tool (JStr "create_quiz")
         (JObj [("source_text", JInt 5); ("num_questions", JInt 1)])
         Examples.w0)
  = Raise (Exn AttributeError "'int' object has no attribute 'split'") /\
  fst (Working.run_call
         (ToolCall "call_1" "create_report"
            ("{" +:+ Examples.q "quiz_id" +:+ ": " +:+ Examples.q "quiz_1" +:+ ", "
                 +:+ Examples.q "grading_results" +:+ ": {"
                 +:+ Examples.q "score" +:+ ": 1}}"))
         [] ∅ Examples.w0)
  = Raise (Exn KeyError "'total'").
Proof.
  split; [by eexists|]. vm_compute. by repeat split.
Qed.

Lemma execute_tool_boundary_example :
  (Fixed.execute_tool (JStr "get_weather") (JObj []) Examples.w0
   = (Ok (invalid "Unknown tool: get_weather"), Examples.w0)
   /\ is_substring "get_weather" "Unknown tool: get_weather" = true) /\
  exists msg,
    Fixed.execute_tool (JStr "save_quiz") (JObj [("quiz", JObj [])]) Examples.w0
    = (Ok (invalid msg), Examples.w0)
    /\ is_substring "save_quiz" msg = true.
Proof.
  split.
  - apply (proj1 (execute_tool_boundary "get_weather" (JObj []) Examples.w0)).
    reflexivity.
  - apply (proj1 (proj2 (proj2
             (execute_tool_boundary "save_quiz" (JObj [("quiz", JObj [])]) Examples.w0)))
             (PyFun "save_quiz" [("quiz_data", None)] (args1 save_quiz)));
      reflexivity.
Defined.

(** ** Structured calls come first *)

#[local] Arguments registry_get : simpl never.
#[local] Arguments registry_has : simpl never.
#[local] Arguments call_kwargs : simpl never.
#[local] Arguments json_loads : simpl never.
#[local] Arguments json_dumps : simpl never.
#[local] Arguments py_str : simpl never.
#[local] Arguments update_context : simpl never.

Lemma stable_bind_lift R `{!PreOrder R} {A B} (r : res A) (k : A -> M B) :
  (forall a, r = Ok a -> stable R (k a)) -> stable R (bind (lift r) k).
Proof.
  intros Hk w. unfold bind, lift. destruct r as [a|e]; [by apply Hk|].
  simpl. reflexivity.
Qed.

Lemma stable_call_kwargs R `{!PreOrder R} f arguments :
  (forall vs, stable R (body f vs)) -> stable R (call_kwargs f arguments).
Proof.
  intros Hb. unfold call_kwargs. destruct arguments; try (by apply stable_lift).
  destruct (find _ _) as [[k v]|]; [by apply stable_lift|].
  apply stable_bind; [done | by apply stable_lift | done].
Qed.

Lemma appends_added P w w' :
  appends P w w' -> forallb P (added w w') = true.
Proof.
  intros (evs & H & F). unfold added. by rewrite H, drop_app_length.
Qed.

Lemma compare_modes_tool name f :
  registry_get CompareModes.TOOLS name = Ok f -> f = CompareModes.get_weather_fun.
Proof.
  unfold registry_get. destruct name; try discriminate.
  destruct (CompareModes.TOOLS !! s) as [g|] eqn:Hg; [|discriminate].
  intros [= <-]. unfold CompareModes.TOOLS in Hg. simpl in Hg.
  apply lookup_insert_Some in Hg as [[_ <-]|[_ Hg]]; [done|].
  by rewrite lookup_empty in Hg.
Qed.

Lemma get_weather_fun_stable R `{!PreOrder R} vs :
  stable R (body CompareModes.get_weather_fun vs).
Proof.
  simpl. destruct vs as [|a [|b [|? ?]]]; by apply stable_lift.
Qed.









(** When there are no structured calls, [test_mode_a] falls back to the
    scan of the text. *)
Lemma test_mode_a_falls_back c model_id w :
  let message := c (Request model_id [Turn "user" "What's the weather in London?"]
                      CompareModes.TOOL_SCHEMAS) in
  tool_calls message = None \/ tool_calls message = Some [] ->
  CompareModes.test_mode_a c model_id w
  = CompareModes.test_mode_b_from_response (content message)
      (World (files w) (clock w) (reads w)
         (trace w ++ [EvRequest; EvPrint CompareModes.mode_a_not_detected;
                      EvPrint "Falling back to Mode B..."])).
Proof.
  intros message H. unfold CompareModes.test_mode_a. unfold bind at 1, create. simpl.
  unfold bind at 1. simpl. fold message.
  destruct H as [H|H]; rewrite H; unfold bind, emit; simpl;
    by rewrite <- !app_assoc.
Qed.


(** ** The events of the tools and of the agents *)

Lemma tools_cases name f :
  TOOLS !! name = Some f ->
  f ∈ [PyFun "create_quiz" [("source_text", None); ("num_questions", None)]
         (args2 create_quiz);
       PyFun "save_quiz" [("quiz_data", None)] (args1 save_quiz);
       PyFun "load_quiz" [("quiz_id", None)] (args1 load_quiz);
       PyFun "grade_responses" [("quiz_id", None); ("responses", None)]
         (args2 grade_responses);
       PyFun "create_report" [("quiz_id", None); ("grading_results", None)]
         (args2 create_report)].
Proof.
  intros H. unfold TOOLS in H. apply elem_of_list_to_map_2 in H.
  repeat (apply elem_of_cons in H as [H|H]; [injection H as _ <-; set_solver|]).
  by apply elem_of_nil in H.
Qed.

Section ToolEvents.
Context (P : event -> bool).
Context (P_tool : forall name, P (EvTool name) = true).

Lemma tool_appends name f vs :
  TOOLS !! name = Some f -> stable (appends P) (body f vs).
Proof.
  intros H. apply tools_cases in H.
  repeat (apply elem_of_cons in H as [->|H]); [..|by apply elem_of_nil in H];
    simpl; unfold args1, args2, create_quiz, save_quiz, load_quiz,
      grade_responses, load_quiz, create_report, open_w;
    repeat first [ stable_step
                 | apply appends_emit, P_tool
                 | apply appends_now
                 | apply appends_write ].
Qed.

Context (P_call : forall tool_name arguments, P (EvCall tool_name arguments) = true).

Lemma fixed_execute_tool_appends tool_name arguments :
  stable (appends P) (Fixed.execute_tool tool_name arguments).
Proof.
  unfold Fixed.execute_tool.
  apply stable_bind; [apply _ | apply stable_lift; apply _ | intros known].
  destruct known; simpl; [|apply stable_ret; apply _].
  apply stable_catch; [apply _ | | intros e; apply stable_ret; apply _].
  apply stable_bind_lift; [apply _|]. intros f Hf.
  apply stable_call_kwargs; [apply _|]. intros vs.
  unfold registry_get in Hf. destruct tool_name; try discriminate.
  destruct (TOOLS !! s) eqn:Hs; [|discriminate]. injection Hf as ->.
  by apply (tool_appends s).
Qed.

Lemma fixed_call_result_appends call :
  stable (appends P) (Fixed.call_result call).
Proof.
  unfold Fixed.call_result.
  repeat first [ stable_step
               | apply appends_emit, P_call
               | apply fixed_execute_tool_appends ].
Qed.

Lemma fixed_run_calls_appends calls messages ctx :
  stable (appends P) (Fixed.run_calls calls messages ctx).
Proof.
  revert messages ctx. induction calls as [|call rest IH]; intros messages ctx; simpl.
  - apply stable_ret. apply _.
  - apply stable_bind; [apply _ | | intros s; apply IH].
    unfold Fixed.run_call.
    repeat first [stable_step | apply fixed_call_result_appends].
Qed.

Lemma working_call_result_appends tc :
  stable (appends P) (Working.call_result tc).
Proof.
  unfold Working.call_result.
  apply stable_bind; [apply _ | apply stable_lift; apply _ | intros args].
  apply stable_bind; [apply _ | apply appends_emit, P_call | intros _].
  apply stable_bind; [apply _ | | intros result; apply stable_ret; apply _].
  destruct (TOOLS !! tc_name tc) as [f|] eqn:Hf; [|apply stable_ret; apply _].
  apply stable_call_kwargs; [apply _|]. intros vs. by apply (tool_appends (tc_name tc)).
Qed.

Lemma working_run_calls_appends calls messages ctx :
  stable (appends P) (Working.run_calls calls messages ctx).
Proof.
  revert messages ctx. induction calls as [|tc rest IH]; intros messages ctx; simpl.
  - apply stable_ret. apply _.
  - apply stable_bind; [apply _ | | intros s; apply IH].
    unfold Working.run_call.
    repeat first [stable_step | apply working_call_result_appends].
Qed.

Context (P_request : P EvRequest = true).

Lemma create_appends c r : stable (appends P) (create c r).
Proof.
  unfold create.
  apply stable_bind; [apply _ | by apply appends_emit | intros _].
  apply stable_ret. apply _.
Qed.

Lemma fixed_iterate_appends self n messages ctx :
  stable (appends P) (Fixed.iterate self n messages ctx).
Proof.
  revert messages ctx. induction n as [|n IH]; intros messages ctx; simpl.
  - apply stable_ret. apply _.
  - apply stable_bind; [apply _ | apply create_appends | intros response].
    destruct (Fixed.extract_functools _); [|apply stable_ret; apply _].
    apply stable_bind; [apply _ | apply fixed_run_calls_appends | intros s; apply IH].
Qed.

Lemma working_iterate_appends self n messages ctx :
  stable (appends P) (Working.iterate self n messages ctx).
Proof.
  revert messages ctx. induction n as [|n IH]; intros messages ctx; simpl.
  - apply stable_ret. apply _.
  - apply stable_bind; [apply _ | apply create_appends | intros message].
    destruct (tool_calls message) as [[|tc rest]|]; try (apply stable_ret; apply _).
    apply stable_bind; [apply _ | apply working_run_calls_appends | intros s; apply IH].
Qed.

End ToolEvents.

(** ** The coordinators *)

Lemma grader_has_id_agent name ctx :
  grader_has_id (EvAgent name ctx)
  = if String.eqb name "Grader" then truthy (default JNull (ctx !! "quiz_id")) else true.
Proof. reflexivity. Qed.

Lemma fixed_agent_run_appends P self task ctx :
  (forall name, P (EvTool name) = true) ->
  (forall tool_name arguments, P (EvCall tool_name arguments) = true) ->
  P EvRequest = true ->
  P (EvAgent (Fixed.name self) ctx) = true ->
  stable (appends P) (Fixed.Agent_run self task ctx).
Proof.
  intros Ht Hc Hr Ha. unfold Fixed.Agent_run.
  apply stable_bind; [apply _ | by apply appends_emit | intros _].
  apply stable_bind; [apply _ | by apply fixed_iterate_appends | intros s].
  apply stable_ret. apply _.
Qed.

Lemma working_agent_run_appends P self task ctx :
  (forall name, P (EvTool name) = true) ->
  (forall tool_name arguments, P (EvCall tool_name arguments) = true) ->
  P EvRequest = true ->
  P (EvAgent (Working.name self) ctx) = true ->
  stable (appends P) (Working.Agent_run self task ctx).
Proof.
  intros Ht Hc Hr Ha. unfold Working.Agent_run.
  apply stable_bind; [apply _ | by apply appends_emit | intros _].
  apply stable_bind; [apply _ | by apply working_iterate_appends | intros s].
  apply stable_ret. apply _.
Qed.

Lemma grader_context_has_id quiz_id responses :
  truthy quiz_id = true ->
  grader_has_id
    (EvAgent "Grader" (<["responses" := responses]> (<["quiz_id" := quiz_id]> ∅)))
  = true.
Proof.
  intros H. rewrite grader_has_id_agent. simpl.
  rewrite lookup_insert_ne by done. by rewrite lookup_insert_eq.
Qed.

Lemma fixed_coordinator_appends c model_id src n answers :
  stable (appends grader_has_id)
    (Fixed.QuizCoordinator_run (Fixed.new_coordinator c model_id) src n answers).
Proof.
  unfold Fixed.QuizCoordinator_run.
  apply stable_bind; [apply _ | by apply fixed_agent_run_appends | intros ctx].
  cbv zeta. destruct (truthy (ctx_get ctx "quiz_id")) eqn:Hid; simpl.
  - apply stable_bind; [apply _ | apply stable_lift; apply _ | intros _].
    apply stable_bind; [apply _ | | intros ctx2; apply stable_lift; apply _].
    apply fixed_agent_run_appends; [done | done | done |].
    by apply grader_context_has_id.
  - by apply appends_emit.
Qed.

Lemma working_grade_phase_appends c model_id ctx quiz_id answers :
  truthy quiz_id = true ->
  stable (appends grader_has_id)
    (Working.grade_phase (Working.new_coordinator c model_id) ctx quiz_id answers).
Proof.
  intros Hid. unfold Working.grade_phase.
  apply stable_bind; [apply _ | apply stable_lift; apply _ | intros _].
  apply stable_bind; [apply _ | | intros ctx2].
  - apply working_agent_run_appends; [done | done | done |].
    by apply grader_context_has_id.
  - cbv zeta. destruct (truthy (default (JObj []) (ctx2 !! "grading_results")));
      [apply stable_lift | apply stable_ret]; apply _.
Qed.

Lemma working_coordinator_appends c model_id src n answers :
  stable (appends grader_has_id)
    (Working.QuizCoordinator_run (Working.new_coordinator c model_id) src n answers).
Proof.
  unfold Working.QuizCoordinator_run.
  apply stable_bind; [apply _ | by apply working_agent_run_appends | intros ctx].
  cbv zeta. destruct (truthy (ctx_get ctx "quiz_id")) eqn:Hid; simpl.
  - by apply working_grade_phase_appends.
  - apply stable_bind; [apply _ | by apply appends_emit | intros _].
    apply stable_bind; [apply _ | | intros quiz_result].
    { apply (tool_appends grader_has_id (fun _ => eq_refl) "create_quiz"
               (PyFun "create_quiz" [("source_text", None); ("num_questions", None)]
                  (args2 create_quiz)) [JStr src; JInt n]). reflexivity. }
    apply stable_bind; [apply _ | | intros save_result].
    { apply (tool_appends grader_has_id (fun _ => eq_refl) "save_quiz"
               (PyFun "save_quiz" [("quiz_data", None)] (args1 save_quiz))
               [quiz_result]). reflexivity. }
    apply stable_bind; [apply _ | apply stable_lift; apply _ | intros fallback_id].
    destruct (truthy fallback_id) eqn:Hf; simpl.
    + by apply working_grade_phase_appends.
    + by apply appends_emit.
Qed.

Lemma bind_extends {A B} (m : M A) (k : A -> M B) w :
  (forall a, stable (appends any_event) (k a)) ->
  appends any_event (snd (m w)) (snd (bind m k w)).
Proof.
  intros Hk. unfold bind. destruct (m w) as [[a|e] w1]; simpl; [apply Hk | reflexivity].
Qed.

Lemma working_agent_run_trace self task ctx w :
  exists evs,
    trace (snd (Working.Agent_run self task ctx w))
    = trace w ++ EvAgent (Working.name self) ctx :: evs.
Proof.
  unfold Working.Agent_run. unfold bind at 1. unfold emit at 1. cbv beta iota zeta.
  match goal with
  | |- context [bind ?m ?k ?w0] =>
      assert (Hs : stable (appends any_event) (bind m k))
  end.
  { apply stable_bind; [apply _ | by apply working_iterate_appends | intros s].
    apply stable_ret. apply _. }
  match goal with
  | |- context [bind ?m ?k ?w0] => destruct (Hs w0) as (evs & Ht & _)
  end.
  exists evs. rewrite Ht. simpl. by rewrite <- app_assoc.
Qed.

Lemma show_questions_generated sentences l :
  show_questions (map (question sentences) l) = Ok tt.
Proof. induction l as [|i l IH]; [done|]. simpl. exact IH. Qed.

(** The fallback of the structured coordinator always gets a quiz: the
    two tools are called on a text and a number. *)
Lemma create_quiz_typed src n w :
  exists qs,
    create_quiz (JStr src) (JInt n) w
    = (Ok (JObj [("questions", JArr qs); ("count", JInt (Z.of_nat (length qs)))]),
       World (files w) (clock w) (reads w) (trace w ++ [EvTool "create_quiz"]))
    /\ show_questions qs = Ok tt.
Proof.
  eexists. split; [reflexivity|]. apply show_questions_generated.
Qed.

Lemma dict_get_first k v rest : dict_get k ((k, v) :: rest) = Some v.
Proof. simpl. by rewrite String.eqb_refl. Qed.

Lemma truthy_quiz_id_at t : truthy (JStr (quiz_id_at t)) = true.
Proof. reflexivity. Qed.

Lemma working_fallback c model_id src n answers w ctx w1 :
  Working.Agent_run (Working.quiz_master (Working.new_coordinator c model_id))
    (Working.creation_task src n) ∅ w = (Ok ctx, w1) ->
  ctx !! "quiz_id" = None ->
  exists evs,
    trace (snd (Working.QuizCoordinator_run (Working.new_coordinator c model_id)
                  src n answers w))
    = trace w1 ++
      [EvPrint "Failed to create quiz - trying fallback...";
       EvTool "create_quiz"; EvTool "save_quiz";
       EvAgent "Grader"
         (<["responses" := read_responses answers]>
            (<["quiz_id" := JStr (quiz_id_at (clock w1 (reads w1)))]> ∅))] ++ evs.
Proof.
  intros Hrun Hnone. unfold Working.QuizCoordinator_run.
  rewrite (bind_Ok _ _ _ _ _ Hrun). cbv zeta.
  unfold ctx_get. rewrite Hnone. cbn [default truthy negb].
  erewrite bind_Ok by reflexivity.
  destruct (create_quiz_typed src n
              (World (files w1) (clock w1) (reads w1)
                 (trace w1 ++ [EvPrint "Failed to create quiz - trying fallback..."])))
    as (qs & Hq & Hshow).
  cbn [files clock reads trace] in Hq.
  rewrite (bind_Ok _ _ _ _ _ Hq).
  erewrite bind_Ok; [|rewrite save_quiz_run; cbn [files clock reads trace]; reflexivity].
  erewrite bind_Ok by reflexivity.
  rewrite !dict_get_first, truthy_quiz_id_at. cbn [negb].
  unfold Working.grade_phase.
  erewrite bind_Ok; [|unfold lift, take_quiz;
                      rewrite lookup_insert_ne by done; rewrite lookup_insert_eq;
                      simpl; rewrite Hshow; reflexivity].
  match goal with
  | |- context [bind (Working.Agent_run ?s ?t ?g) ?k ?w0] =>
      destruct (bind_extends (Working.Agent_run s t g) k w0) as (evs2 & Ht2 & _);
      [| destruct (working_agent_run_trace s t g w0) as (evs1 & Ht1)]
  end.
  { intros ctx2. cbv zeta.
    destruct (truthy (default (JObj []) (ctx2 !! "grading_results")));
      [apply stable_lift | apply stable_ret]; apply _. }
  exists (evs1 ++ evs2). rewrite Ht2, Ht1. cbn [files clock reads trace Working.name
    Working.grader Working.new_coordinator Working.new_agent].
  rewrite <- !app_assoc. reflexivity.
Qed.

(** C4, as the code has it: neither coordinator starts the grader on a
    context without identifier.  When the context of the first phase
    holds no identifier, the coordinator of [quiz_slm_fixed.py] prints
    the failure and ends there; the one of [quiz_slm_working.py] does
    not end: it calls [create_quiz] and [save_quiz] itself and starts the
    grader on the identifier of that save. *)
Theorem C4_grader_is_started_with_an_identifier (c : client)
    (model_id src : string) (n : Z) (answers : string) (w : world) :
  let fixed := Fixed.new_coordinator c model_id in
  let working := Working.new_coordinator c model_id in
  (forall ctx w1,
      Fixed.Agent_run (Fixed.quiz_master fixed) (Fixed.creation_task src n) ∅ w
        = (Ok ctx, w1) ->
      ctx !! "quiz_id" = None ->
      Fixed.QuizCoordinator_run fixed src n answers w
      = (Ok tt, World (files w1) (clock w1) (reads w1)
                  (trace w1 ++ [EvPrint "Failed to create quiz"]))) /\
  (forall ctx w1,
      Working.Agent_run (Working.quiz_master working) (Working.creation_task src n) ∅ w
        = (Ok ctx, w1) ->
      ctx !! "quiz_id" = None ->
      exists evs,
        trace (snd (Working.QuizCoordinator_run working src n answers w))
        = trace w1 ++
          [EvPrint "Failed to create quiz - trying fallback...";
           EvTool "create_quiz"; EvTool "save_quiz";
           EvAgent "Grader"
             (<["responses" := read_responses answers]>
                (<["quiz_id" := JStr (quiz_id_at (clock w1 (reads w1)))]> ∅))]
          ++ evs) /\
  forallb grader_has_id
    (added w (snd (Fixed.QuizCoordinator_run fixed src n answers w))) = true /\
  forallb grader_has_id
    (added w (snd (Working.QuizCoordinator_run working src n answers w))) = true.
Proof.
  intros fixed working. split; [|split; [|split]].
  - intros ctx w1 Hrun Hnone. unfold Fixed.QuizCoordinator_run.
    rewrite (bind_Ok _ _ _ _ _ Hrun). cbv zeta.
    unfold ctx_get. by rewrite Hnone.
  - intros ctx w1 Hrun Hnone. by apply (working_fallback c model_id src n answers w ctx).
  - apply appends_added, fixed_coordinator_appends.
  - apply appends_added, working_coordinator_appends.
Qed.

(** An endpoint that never asks for a tool: the first phase ends without
    identifier, and the structured coordinator goes on to the grader. *)
Lemma C4_working_coordinator_falls_back :
  let run := Working.QuizCoordinator_run
               (Working.new_coordinator Examples.plain_client "phi-4")
               "Water boils at one hundred degrees." 1 "A" Examples.w0 in
  (exists ctx w1,
      Working.Agent_run
        (Working.quiz_master (Working.new_coordinator Examples.plain_client "phi-4"))
        (Working.creation_task "Water boils at one hundred degrees." 1) ∅ Examples.w0
      = (Ok ctx, w1) /\ ctx !! "quiz_id" = None) /\
  fst run = Ok tt /\
  filter (fun e => is_agent e) (trace (snd run))
  = [EvAgent "QuizMaster" ∅;
     EvAgent "Grader"
       (<["responses" := JArr [JStr "A"]]>
          (<["quiz_id" := JStr "quiz_20250109_070503"]> ∅))] /\
  requests (trace (snd run)) = 2.
Proof.
  cbv zeta. split; [|split; [|split]].
  - eexists _, _. split; [reflexivity|]. vm_compute. reflexivity.
  - vm_compute. reflexivity.
  - vm_compute. reflexivity.
  - vm_compute. reflexivity.
Qed.

Lemma C4_grader_is_started_with_an_identifier_witness :
  Fixed.QuizCoordinator_run (Fixed.new_coordinator Examples.plain_client "phi-4")
    "Water boils at one hundred degrees." 1 "A" Examples.w0
  = (Ok tt, World ∅ Examples.ticking 0
              ([EvAgent "QuizMaster" ∅; EvRequest]
                 ++ [EvPrint "Failed to create quiz"])).
Proof.
  apply (proj1 (C4_grader_is_started_with_an_identifier Examples.plain_client
                  "phi-4" "Water boils at one hundred degrees." 1 "A" Examples.w0)
           (<["summary" := JStr "No tool is needed."]> ∅)
           (World ∅ Examples.ticking 0 [EvAgent "QuizMaster" ∅; EvRequest])).
  - reflexivity.
  - vm_compute. reflexivity.
Defined.

(** ** The loop of an agent *)

Lemma requests_app a b : requests (a ++ b) = requests a + requests b.
Proof. unfold requests. by rewrite List.filter_app, length_app. Qed.

Lemma requests_none evs : forallb no_request evs = true -> requests evs = 0.
Proof.
  induction evs as [|e evs IH]; [done|]. simpl. intros H.
  apply andb_true_iff in H as [He H]. unfold requests in *. simpl.
  unfold no_request in He. destruct (is_request e); [done|]. by apply IH.
Qed.


Lemma fixed_run_call_inv call messages ctx w s w' :
  Fixed.run_call call messages ctx w = (Ok s, w') ->
  exists r, Fixed.call_result call w = (Ok r, w')
            /\ fst s = messages ++ [Fixed.observation r]
            /\ update_context (fst r) (snd r) ctx = Ok (snd s).
Proof.
  unfold Fixed.run_call. intros H.
  apply bind_Ok_inv in H as (r & w1 & Hr & H).
  apply bind_Ok_inv in H as (ctx1 & w2 & Hc & H).
  apply lift_Ok_inv in Hc as [Hc ->]. injection H as <- <-. by exists r.
Qed.

Lemma working_run_call_inv tc messages ctx w s w' :
  Working.run_call tc messages ctx w = (Ok s, w') ->
  exists r, Working.call_result tc w = (Ok r, w')
            /\ fst s = messages ++ [Working.observation r]
            /\ update_context (JStr (tc_name tc)) (snd r) ctx = Ok (snd s).
Proof.
  unfold Working.run_call. intros H.
  apply bind_Ok_inv in H as (r & w1 & Hr & H).
  apply bind_Ok_inv in H as (ctx1 & w2 & Hc & H).
  apply lift_Ok_inv in Hc as [Hc ->]. injection H as <- <-. by exists r.
Qed.






Lemma create_run c r w :
  create c r w = (Ok (c r), World (files w) (clock w) (reads w) (trace w ++ [EvRequest])).
Proof. reflexivity. Qed.




Lemma fixed_agent_run_eq self task ctx w :
  Fixed.Agent_run self task ctx w
  = match Fixed.iterate self Fixed.max_iterations [Turn "user" task] ctx
            (World (files w) (clock w) (reads w)
               (trace w ++ [EvAgent (Fixed.name self) ctx])) with
    | (Ok s, w') => (Ok (snd s), w')
    | (Raise e, w') => (Raise e, w')
    end.
Proof.
  unfold Fixed.Agent_run. erewrite bind_Ok by reflexivity. unfold bind.
  by destruct (Fixed.iterate _ _ _ _ _) as [[s|e] w'].
Qed.

Lemma working_agent_run_eq self task ctx w :
  Working.Agent_run self task ctx w
  = match Working.iterate self Working.max_iterations [Turn "user" task] ctx
            (World (files w) (clock w) (reads w)
               (trace w ++ [EvAgent (Working.name self) ctx])) with
    | (Ok s, w') => (Ok (snd s), w')
    | (Raise e, w') => (Raise e, w')
    end.
Proof.
  unfold Working.Agent_run. erewrite bind_Ok by reflexivity. unfold bind.
  by destruct (Working.iterate _ _ _ _ _) as [[s|e] w'].
Qed.










(** ** Grading *)

Lemma py_chars_nonempty s : s <> EmptyString -> is_Some (py_chars s !! 0).
Proof.
  destruct s as [|c rest]; [done|]. intros _. simpl.
  destruct (py_chars rest) as [|h t]; [by eexists|].
  destruct (starts_with_cont h); by eexists.
Qed.

Lemma str_upper_nonempty s : s <> EmptyString -> str_upper s <> EmptyString.
Proof. by destruct s. Qed.

(** One round of the loop, on responses that are strings. *)
Lemma grade_one_spec rs i q score :
  Forall (fun r => r <> EmptyString) rs ->
  is_Some (correct_of q) ->
  grade_one (JArr (map JStr rs)) i q score
  = Ok (if String.eqb (answered rs i) (default EmptyString (correct_of q))
        then score + 1 else score,
        detail i (answered rs i) (default EmptyString (correct_of q))).
Proof.
  intros Hrs [c Hc]. unfold grade_one. cbn [py_len res_bind].
  rewrite length_map. unfold answered.
  destruct (rs !! i) as [r|] eqn:Hr.
  - assert (Hlt : i < length rs) by (by eapply lookup_lt_Some).
    apply Nat.ltb_lt in Hlt. rewrite Hlt. cbn [getitem_nat res_bind].
    rewrite list_lookup_fmap, Hr. cbn [fmap option_fmap option_map res_bind upper_method].
    assert (Hne : r <> EmptyString).
    { rewrite Forall_forall in Hrs. apply Hrs. by eapply list_elem_of_lookup_2. }
    destruct (py_chars_nonempty (str_upper r) (str_upper_nonempty r Hne)) as [u Hu].
    cbn [getitem_nat]. rewrite Hu. cbn [res_bind default].
    unfold correct_of in *. destruct (getitem_str q "correct_answer") as [[]|];
      try discriminate. cbn [res_bind getitem_nat]. rewrite Hc. reflexivity.
  - assert (Hge : length rs <= i) by (by apply lookup_ge_None).
    apply Nat.ltb_ge in Hge. rewrite Hge. cbn [res_bind].
    unfold correct_of in *. destruct (getitem_str q "correct_answer") as [[]|];
      try discriminate. cbn [res_bind getitem_nat]. rewrite Hc. reflexivity.
Qed.

Lemma count_true_cons b l : count_true (b :: l) = (if b then 1 else 0) + count_true l.
Proof. unfold count_true. by destruct b. Qed.

(** The loop, from any index on. *)
Lemma grade_loop_spec rs qs i score details :
  Forall (fun r => r <> EmptyString) rs ->
  Forall (fun q => is_Some (correct_of q)) qs ->
  grade_loop (JArr (map JStr rs)) qs i score details
  = Ok (score + count_true (marks rs qs i), details ++ details_of rs qs i).
Proof.
  intros Hrs Hqs. revert i score details.
  induction Hqs as [|q qs Hq Hqs IH]; intros i score details.
  - simpl. unfold count_true. simpl. by rewrite Nat.add_0_r, app_nil_r.
  - cbn [grade_loop]. rewrite (grade_one_spec rs i q score Hrs Hq).
    cbn [res_bind fst snd]. rewrite IH. cbn [marks details_of].
    rewrite count_true_cons, <- app_assoc. f_equal. f_equal.
    destruct (String.eqb _ _); lia.
Qed.

Lemma details_of_length rs qs i : length (details_of rs qs i) = length qs.
Proof. revert i. induction qs as [|q qs IH]; intros i; simpl; [done | by rewrite IH]. Qed.





Lemma load_quiz_stored quiz_id doc questions n w :
  files w !! quiz_file (py_str quiz_id) = Some (JsonDoc doc) ->
  get_method doc "questions" (JArr []) = Ok questions ->
  py_len questions = Ok n ->
  load_quiz quiz_id w
  = (Ok doc, World (files w) (clock w) (reads w) (trace w ++ [EvTool "load_quiz"])).
Proof.
  intros Hf Hq Hn. unfold load_quiz.
  erewrite bind_Ok by reflexivity. cbv zeta.
  fold (quiz_file (py_str quiz_id)).
  erewrite bind_Ok; [|unfold path_exists; cbn [files]; rewrite Hf; reflexivity].
  rewrite bool_decide_eq_true_2 by eauto. cbn [negb].
  erewrite bind_Ok; [|unfold json_load; cbn [files]; rewrite Hf; reflexivity].
  erewrite bind_Ok; [|unfold lift; rewrite Hq; reflexivity].
  erewrite bind_Ok; [|unfold lift; rewrite Hn; reflexivity].
  reflexivity.
Qed.

Lemma detail_result i user c :
  getitem_str (detail i user c) "result"
  = Ok (JStr (if String.eqb user c then tick else cross)).
Proof. reflexivity. Qed.



(** * The tools and the agents, further

    ** [create_quiz] *)

Lemma create_quiz_run source_text n w :
  create_quiz (JStr source_text) (JInt n) w
  = (Ok (JObj [("questions",
                JArr (map (question (sentences_of source_text))
                          (seq 0 (rounds_of n (sentences_of source_text)))));
               ("count", JInt (Z.of_nat (rounds_of n (sentences_of source_text))))]),
     World (files w) (clock w) (reads w) (trace w ++ [EvTool "create_quiz"])).
Proof.
  unfold create_quiz, sentences_of, rounds_of.
  erewrite bind_Ok by reflexivity.
  erewrite bind_Ok by reflexivity. cbv zeta.
  erewrite bind_Ok by reflexivity.
  unfold ret. by rewrite (length_map (question _)), length_seq.
Qed.

(** X1: on a text and an integer [create_quiz] never fails and writes
    nothing; it returns [min(num_questions, max(1, sentences))]
    questions, none when the number asked is zero or negative, and
    [count] is that number; the identifiers of the questions run from 1
    and every question has the answer [A] and the same three options. *)
Theorem create_quiz_count (source_text : string) (n : Z) (w : world) :
  exists qs,
    create_quiz (JStr source_text) (JInt n) w
    = (Ok (JObj [("questions", JArr qs); ("count", JInt (Z.of_nat (length qs)))]),
       World (files w) (clock w) (reads w) (trace w ++ [EvTool "create_quiz"]))
    /\ Z.of_nat (length qs)
       = Z.max 0 (Z.min n (Z.max 1 (Z.of_nat (length (sentences_of source_text)))))
    /\ forall i q, qs !! i = Some q ->
         getitem_str q "id" = Ok (JInt (Z.of_nat i + 1))
         /\ getitem_str q "correct_answer" = Ok (JStr "A")
         /\ getitem_str q "options"
            = Ok (JArr [JStr "A) Key concept"; JStr "B) Not mentioned";
                        JStr "C) Minor detail"]).
Proof.
  exists (map (question (sentences_of source_text))
              (seq 0 (rounds_of n (sentences_of source_text)))).
  split; [|split].
  - rewrite create_quiz_run. by rewrite length_map, length_seq.
  - rewrite length_map, length_seq. unfold rounds_of. lia.
  - intros i q Hq. apply list_lookup_fmap_Some in Hq as (j & -> & Hj).
    apply lookup_seq in Hj as [-> _]. cbn [Nat.add].
    repeat split; try reflexivity.
    cbn. do 3 f_equal. lia.
Qed.



(** ** [save_quiz] and [load_quiz] at the edges *)

(** X3: [save_quiz] on a value that is empty or does not hold
    [questions] returns the error result; it writes no file and does not
    read the clock. *)
Theorem save_quiz_rejects (quiz_data : json) (w : world) :
  truthy quiz_data = false \/ py_contains "questions" quiz_data = Ok false ->
  save_quiz quiz_data w
  = (Ok (invalid "Invalid quiz_data"),
     World (files w) (clock w) (reads w) (trace w ++ [EvTool "save_quiz"])).
Proof.
  intros H. rewrite save_quiz_run. cbv zeta.
  destruct H as [-> | H]; [reflexivity|].
  destruct (truthy quiz_data); [by rewrite H | reflexivity].
Qed.

Lemma save_quiz_rejects_witness :
  save_quiz (JObj [("count", JInt 0)]) Examples.w0
  = (Ok (invalid "Invalid quiz_data"),
     World ∅ Examples.ticking 0 [EvTool "save_quiz"]).
Proof.
  apply (save_quiz_rejects (JObj [("count", JInt 0)]) Examples.w0).
  right. reflexivity.
Defined.

Lemma load_quiz_missing quiz_id w :
  files w !! quiz_file (py_str quiz_id) = None ->
  load_quiz quiz_id w
  = (Ok (invalid ("Quiz not found: " +:+ py_str quiz_id)),
     World (files w) (clock w) (reads w) (trace w ++ [EvTool "load_quiz"])).
Proof.
  intros Hf. unfold load_quiz.
  erewrite bind_Ok by reflexivity. cbv zeta.
  fold (quiz_file (py_str quiz_id)).
  erewrite bind_Ok by reflexivity. cbn [files].
  rewrite bool_decide_eq_false_2; [reflexivity|].
  rewrite Hf. intros [? ?]; discriminate.
Qed.

Lemma load_quiz_run quiz_id w :
  load_quiz quiz_id w
  = (load_result quiz_id (files w !! quiz_file (py_str quiz_id)),
     World (files w) (clock w) (reads w) (trace w ++ [EvTool "load_quiz"])).
Proof.
  destruct (files w !! quiz_file (py_str quiz_id)) as [doc|] eqn:Hf;
    [|by apply load_quiz_missing].
  unfold load_quiz. erewrite bind_Ok by reflexivity. cbv zeta.
  fold (quiz_file (py_str quiz_id)).
  erewrite bind_Ok; [|unfold path_exists; cbn [files]; rewrite Hf; reflexivity].
  rewrite bool_decide_eq_true_2 by eauto. cbn [negb].
  unfold load_result.
  destruct (match doc with JsonDoc j => Ok j | TextDoc s => json_loads s end)
    as [data|e] eqn:Hd.
  - erewrite bind_Ok;
      [|unfold json_load; cbn [files]; rewrite Hf; destruct doc; rewrite Hd; reflexivity].
    cbn [res_bind].
    destruct (get_method data "questions" (JArr [])) as [qs|e];
      [|by erewrite bind_Raise by reflexivity].
    erewrite bind_Ok by reflexivity. cbn [res_bind].
    destruct (py_len qs) as [n|e]; [|by erewrite bind_Raise by reflexivity].
    by erewrite bind_Ok by reflexivity.
  - erewrite bind_Raise; [reflexivity|].
    unfold json_load. cbn [files]. rewrite Hf. destruct doc; rewrite Hd; reflexivity.
Qed.

Lemma load_quiz_empty_file quiz_id w :
  files w !! quiz_file (py_str quiz_id) = Some (TextDoc EmptyString) ->
  load_quiz quiz_id w
  = (Raise (Exn JSONDecodeError "Expecting value"),
     World (files w) (clock w) (reads w) (trace w ++ [EvTool "load_quiz"])).
Proof.
  intros Hf. unfold load_quiz.
  erewrite bind_Ok by reflexivity. cbv zeta.
  fold (quiz_file (py_str quiz_id)).
  erewrite bind_Ok; [|unfold path_exists; cbn [files]; rewrite Hf; reflexivity].
  rewrite bool_decide_eq_true_2 by eauto. cbn [negb].
  erewrite bind_Raise; [reflexivity|].
  unfold json_load. cbn [files]. rewrite Hf. reflexivity.
Qed.

(** X4: a list or a string that contains [questions] passes the test
    of [save_quiz] but cannot be indexed by it: the call raises a
    [TypeError] after the file was opened, so an empty file stays under
    the identifier of that second.  Through [execute_tool] the caller
    gets an error result and the same file, and [load_quiz] of that
    identifier fails to decode it. *)
Theorem save_quiz_leaves_empty_file (quiz_data : json) (w : world) :
  truthy quiz_data = true ->
  py_contains "questions" quiz_data = Ok true ->
  (forall members, quiz_data <> JObj members) ->
  let id := quiz_id_at (clock w (reads w)) in
  let w' := snd (save_quiz quiz_data w) in
  (exists msg, fst (save_quiz quiz_data w) = Raise (Exn TypeError msg)) /\
  files w' = <[quiz_file id := TextDoc EmptyString]> (files w) /\
  (exists msg,
      fst (Fixed.execute_tool (JStr "save_quiz") (JObj [("quiz_data", quiz_data)]) w)
      = Ok (invalid msg)) /\
  snd (Fixed.execute_tool (JStr "save_quiz") (JObj [("quiz_data", quiz_data)]) w) = w' /\
  fst (load_quiz (JStr id) w') = Raise (Exn JSONDecodeError "Expecting value").
Proof.
  intros Ht Hc Hd. cbv zeta.
  assert (Hg : exists msg, getitem_str quiz_data "questions" = Raise (Exn TypeError msg)).
  { destruct quiz_data; try discriminate; try (by eexists). by destruct (Hd members). }
  destruct Hg as [msg Hg].
  assert (Hrun : save_quiz quiz_data w
                 = (Raise (Exn TypeError msg),
                    World (<[quiz_file (quiz_id_at (clock w (reads w)))
                             := TextDoc EmptyString]> (files w))
                          (clock w) (S (reads w)) (trace w ++ [EvTool "save_quiz"]))).
  { rewrite save_quiz_run. cbv zeta. by rewrite Ht, Hc, Hg. }
  rewrite Hrun. cbn [fst snd files].
  split; [by eexists|]. split; [reflexivity|].
  rewrite (execute_tool_known "save_quiz"
             (PyFun "save_quiz" [("quiz_data", None)] (args1 save_quiz)) _ w eq_refl).
  assert (Hcall : call_kwargs
                    (PyFun "save_quiz" [("quiz_data", None)] (args1 save_quiz))
                    (JObj [("quiz_data", quiz_data)]) w
                  = save_quiz quiz_data w) by reflexivity.
  rewrite Hcall, Hrun. cbn [exn_kind exn_msg fst snd].
  split; [by eexists|]. split; [reflexivity|].
  rewrite load_quiz_empty_file; [reflexivity|].
  cbn [files py_str]. apply lookup_insert_eq.
Qed.

Lemma save_quiz_leaves_empty_file_witness :
  let w' := snd (save_quiz (JArr [JStr "questions"]) Examples.w0) in
  files w' = <[quiz_file "quiz_20250109_070503" := TextDoc EmptyString]> ∅ /\
  fst (load_quiz (JStr "quiz_20250109_070503") w')
  = Raise (Exn JSONDecodeError "Expecting value").
Proof.
  destruct (save_quiz_leaves_empty_file (JArr [JStr "questions"]) Examples.w0)
    as (_ & Hf & _ & _ & Hl); [reflexivity | reflexivity | discriminate |].
  split; [exact Hf | exact Hl].
Defined.

(** X5: for an identifier with no stored quiz, [load_quiz] returns the
    error result that names the identifier, [grade_responses] returns
    that same result whatever the responses, and [create_report] on it
    returns its own error result; none of the three writes a file. *)
Theorem missing_quiz_chain (quiz_id responses : json) (w : world) :
  files w !! quiz_file (py_str quiz_id) = None ->
  let err := invalid ("Quiz not found: " +:+ py_str quiz_id) in
  load_quiz quiz_id w
  = (Ok err, World (files w) (clock w) (reads w) (trace w ++ [EvTool "load_quiz"])) /\
  grade_responses quiz_id responses w
  = (Ok err, World (files w) (clock w) (reads w)
               (trace w ++ [EvTool "grade_responses"; EvTool "load_quiz"])) /\
  forall w',
    create_report quiz_id err w'
    = (Ok (invalid "Invalid grading results"),
       World (files w') (clock w') (reads w') (trace w' ++ [EvTool "create_report"])).
Proof.
  intros Hf. cbv zeta.
  split; [by apply load_quiz_missing|]. split.
  - unfold grade_responses. erewrite bind_Ok by reflexivity.
    erewrite bind_Ok; [|by apply load_quiz_missing].
    cbn [files clock reads trace]. rewrite <- app_assoc. reflexivity.
  - intros w'. reflexivity.
Qed.

Lemma missing_quiz_chain_witness :
  grade_responses (JStr "quiz_1") (JArr [JStr "A"]) Examples.w0
  = (Ok (invalid "Quiz not found: quiz_1"),
     World ∅ Examples.ticking 0 [EvTool "grade_responses"; EvTool "load_quiz"]).
Proof.
  destruct (missing_quiz_chain (JStr "quiz_1") (JArr [JStr "A"]) Examples.w0)
    as (_ & H & _); [reflexivity | exact H].
Defined.

(** ** Grading, in general *)

Lemma bind_ext {A B} (m : M A) (k k' : A -> M B) w :
  (forall a w1, k a w1 = k' a w1) -> bind m k w = bind m k' w.
Proof. intros H. unfold bind. destruct (m w) as [[a|e] w1]; [apply H | done]. Qed.

Lemma grade_responses_stored quiz_id members qs responses w :
  files w !! quiz_file (py_str quiz_id) = Some (JsonDoc (JObj members)) ->
  dict_get "questions" members = Some (JArr qs) ->
  grade_responses quiz_id responses w
  = let w' := World (files w) (clock w) (reads w)
                (trace w ++ [EvTool "grade_responses"; EvTool "load_quiz"]) in
    if dict_has "error" members then (Ok (JObj members), w')
    else match grade_loop responses qs 0 0 [] with
         | Ok r =>
             (Ok (JObj [("quiz_id", quiz_id); ("score", JInt (Z.of_nat (fst r)));
                        ("total", JInt (Z.of_nat (length qs)));
                        ("details", JArr (snd r))]), w')
         | Raise e => (Raise e, w')
         end.
Proof.
  intros Hf Hq. unfold grade_responses.
  erewrite bind_Ok by reflexivity.
  erewrite bind_Ok;
    [|eapply load_quiz_stored; [exact Hf | cbn [get_method]; rewrite Hq; reflexivity
                               | reflexivity]].
  erewrite bind_Ok by reflexivity.
  cbn [files clock reads trace]. rewrite <- app_assoc. cbn [app]. cbv zeta.
  destruct (dict_has "error" members); [reflexivity|].
  erewrite bind_Ok; [|unfold lift; cbn [get_method]; rewrite Hq; reflexivity].
  erewrite bind_Ok by reflexivity.
  destruct (grade_loop responses qs 0 0 []) as [r|e].
  - erewrite bind_Ok by reflexivity.
    erewrite bind_Ok by reflexivity. reflexivity.
  - erewrite bind_Raise by reflexivity. reflexivity.
Qed.

Lemma grade_responses_graded quiz_id members qs rs w :
  files w !! quiz_file (py_str quiz_id) = Some (JsonDoc (JObj members)) ->
  dict_get "error" members = None ->
  dict_get "questions" members = Some (JArr qs) ->
  Forall (fun q => is_Some (correct_of q)) qs ->
  Forall (fun r => r <> EmptyString) rs ->
  grade_responses quiz_id (JArr (map JStr rs)) w
  = (Ok (JObj [("quiz_id", quiz_id);
               ("score", JInt (Z.of_nat (count_true (marks rs qs 0))));
               ("total", JInt (Z.of_nat (length qs)));
               ("details", JArr (details_of rs qs 0))]),
     World (files w) (clock w) (reads w)
       (trace w ++ [EvTool "grade_responses"; EvTool "load_quiz"])).
Proof.
  intros Hf He Hq Hqs Hrs. unfold grade_responses.
  erewrite bind_Ok by reflexivity.
  erewrite bind_Ok;
    [|eapply load_quiz_stored; [exact Hf | cbn [get_method]; rewrite Hq; reflexivity
                               | reflexivity]].
  erewrite bind_Ok;
    [|unfold lift; cbn [py_contains]; unfold dict_has; rewrite He; reflexivity].
  cbv iota.
  erewrite bind_Ok; [|unfold lift; cbn [get_method]; rewrite Hq; reflexivity].
  erewrite bind_Ok by reflexivity.
  erewrite bind_Ok; [|unfold lift; rewrite (grade_loop_spec rs qs 0 0 [] Hrs Hqs);
                      reflexivity].
  erewrite bind_Ok by reflexivity.
  cbn [files clock reads trace fst snd Nat.add app]. rewrite <- app_assoc. reflexivity.
Qed.

Lemma tick_not_cross : String.eqb tick cross = false.
Proof. reflexivity. Qed.

Lemma ticked_detail i user c : ticked (detail i user c) = String.eqb user c.
Proof.
  unfold ticked. rewrite detail_result. cbn [eq_str].
  destruct (String.eqb user c); [apply String.eqb_refl | apply tick_not_cross].
Qed.

Lemma count_ticked rs qs i :
  count_true (marks rs qs i) = length (List.filter ticked (details_of rs qs i)).
Proof.
  revert i. induction qs as [|q qs IH]; intros i; [done|].
  cbn [marks details_of List.filter]. rewrite count_true_cons, ticked_detail, IH.
  by destruct (String.eqb _ _).
Qed.

(** X6: for a stored quiz whose questions have a correct answer and
    responses that are strings, not empty, the grading has one detail per
    question, the total is the number of questions, the score is the
    number of details that are ticked, and it never exceeds the total. *)
Theorem grade_score_counts_ticks (quiz_id : json) (members : list (string * json))
    (qs : list json) (rs : list string) (w : world) :
  files w !! quiz_file (py_str quiz_id) = Some (JsonDoc (JObj members)) ->
  dict_get "error" members = None ->
  dict_get "questions" members = Some (JArr qs) ->
  Forall (fun q => is_Some (correct_of q)) qs ->
  Forall (fun r => r <> EmptyString) rs ->
  exists score details,
    fst (grade_responses quiz_id (JArr (map JStr rs)) w)
    = Ok (JObj [("quiz_id", quiz_id); ("score", JInt (Z.of_nat score));
                ("total", JInt (Z.of_nat (length qs)));
                ("details", JArr details)])
    /\ length details = length qs
    /\ score = length (List.filter ticked details)
    /\ score <= length qs.
Proof.
  intros Hf He Hq Hqs Hrs.
  exists (count_true (marks rs qs 0)), (details_of rs qs 0).
  rewrite (grade_responses_graded _ _ _ _ _ Hf He Hq Hqs Hrs).
  split; [reflexivity|]. split; [apply details_of_length|].
  split; [apply count_ticked|].
  rewrite count_ticked, <- (details_of_length rs qs 0).
  apply List.filter_length_le.
Qed.

Lemma grade_score_counts_ticks_witness :
  let quiz := [("quiz_id", JStr "quiz_1");
               ("questions",
                JArr [JObj [("id", JInt 1); ("correct_answer", JStr "A")];
                      JObj [("id", JInt 2); ("correct_answer", JStr "B")]])] in
  let w := World (<[quiz_file "quiz_1" := JsonDoc (JObj quiz)]> ∅) Examples.ticking 0 [] in
  exists score details,
    fst (grade_responses (JStr "quiz_1") (JArr (map JStr ["a"; "c"; "b"])) w)
    = Ok (JObj [("quiz_id", JStr "quiz_1"); ("score", JInt (Z.of_nat score));
                ("total", JInt (Z.of_nat 2)); ("details", JArr details)])
    /\ length details = 2
    /\ score = length (List.filter ticked details)
    /\ score <= 2.
Proof.
  cbv zeta.
  apply (grade_score_counts_ticks (JStr "quiz_1")
           [("quiz_id", JStr "quiz_1");
            ("questions",
             JArr [JObj [("id", JInt 1); ("correct_answer", JStr "A")];
                   JObj [("id", JInt 2); ("correct_answer", JStr "B")]])]
           [JObj [("id", JInt 1); ("correct_answer", JStr "A")];
            JObj [("id", JInt 2); ("correct_answer", JStr "B")]]
           ["a"; "c"; "b"]).
  - simpl. apply lookup_insert_eq.
  - reflexivity.
  - reflexivity.
  - repeat constructor; by eexists.
  - repeat constructor; discriminate.
Defined.

Lemma grade_one_agree items items' i q score :
  items !! i = items' !! i ->
  grade_one (JArr items) i q score = grade_one (JArr items') i q score.
Proof.
  intros H. unfold grade_one. cbn [py_len res_bind getitem_nat].
  destruct (items !! i) as [x|] eqn:Hx.
  - symmetry in H.
    rewrite (proj2 (Nat.ltb_lt _ _) (lookup_lt_Some _ _ _ Hx)).
    rewrite (proj2 (Nat.ltb_lt _ _) (lookup_lt_Some _ _ _ H)).
    by rewrite H.
  - symmetry in H.
    rewrite (proj2 (Nat.ltb_ge _ _) (proj1 (lookup_ge_None _ _) Hx)).
    rewrite (proj2 (Nat.ltb_ge _ _) (proj1 (lookup_ge_None _ _) H)).
    reflexivity.
Qed.

Lemma grade_loop_agree items items' qs i score details :
  (forall j, i <= j < i + length qs -> items !! j = items' !! j) ->
  grade_loop (JArr items) qs i score details
  = grade_loop (JArr items') qs i score details.
Proof.
  revert i score details. induction qs as [|q qs IH]; intros i score details H; [done|].
  cbn [grade_loop]. rewrite (grade_one_agree items items' i q score).
  - destruct (grade_one (JArr items') i q score) as [r|e]; [|done].
    cbn [res_bind]. apply IH. intros j Hj. apply H. cbn [length]. lia.
  - apply H. cbn [length]. lia.
Qed.

(** X7: responses beyond the number of questions of the stored quiz are
    never looked at: whatever they are, the grading is the same with and
    without them. *)
Theorem grade_ignores_extra_responses (quiz_id : json)
    (members : list (string * json)) (qs items extra : list json) (w : world) :
  files w !! quiz_file (py_str quiz_id) = Some (JsonDoc (JObj members)) ->
  dict_get "questions" members = Some (JArr qs) ->
  length qs <= length items ->
  grade_responses quiz_id (JArr (items ++ extra)) w
  = grade_responses quiz_id (JArr items) w.
Proof.
  intros Hf Hq Hlen.
  rewrite !(grade_responses_stored _ _ _ _ _ Hf Hq).
  rewrite (grade_loop_agree (items ++ extra) items qs 0 0 []); [done|].
  intros j Hj. apply lookup_app_l. lia.
Qed.

Lemma grade_ignores_extra_responses_witness :
  let quiz := JObj [("quiz_id", JStr "quiz_1");
                    ("questions", JArr [JObj [("correct_answer", JStr "A")]])] in
  let w := World (<[quiz_file "quiz_1" := JsonDoc quiz]> ∅) Examples.ticking 0 [] in
  grade_responses (JStr "quiz_1") (JArr ([JStr "a"] ++ [JNull; JStr ""])) w
  = grade_responses (JStr "quiz_1") (JArr [JStr "a"]) w.
Proof.
  cbv zeta.
  eapply (grade_ignores_extra_responses (JStr "quiz_1")
            [("quiz_id", JStr "quiz_1");
             ("questions", JArr [JObj [("correct_answer", JStr "A")]])]
            [JObj [("correct_answer", JStr "A")]]).
  - simpl. apply lookup_insert_eq.
  - reflexivity.
  - simpl. lia.
Defined.

Lemma grade_one_initial rs rs' i q score :
  Forall2 (fun r r' => initial r = initial r') rs rs' ->
  grade_one (JArr (map JStr rs)) i q score
  = grade_one (JArr (map JStr rs')) i q score.
Proof.
  intros H. unfold grade_one. cbn [py_len res_bind].
  rewrite !length_map, (Forall2_length _ _ _ H).
  destruct (Nat.ltb i (length rs')) eqn:Hlt; [|reflexivity].
  apply Nat.ltb_lt in Hlt.
  destruct (lookup_lt_is_Some_2 rs' i Hlt) as [r' Hr'].
  destruct (Forall2_lookup_r _ _ _ _ _ H Hr') as (r & Hr & Hi).
  cbn [getitem_nat]. rewrite !list_lookup_fmap, Hr, Hr'.
  cbn [fmap option_fmap option_map res_bind upper_method getitem_nat].
  unfold initial in Hi. by rewrite Hi.
Qed.

Lemma grade_loop_initial rs rs' qs i score details :
  Forall2 (fun r r' => initial r = initial r') rs rs' ->
  grade_loop (JArr (map JStr rs)) qs i score details
  = grade_loop (JArr (map JStr rs')) qs i score details.
Proof.
  intros H. revert i score details.
  induction qs as [|q qs IH]; intros i score details; [done|].
  cbn [grade_loop]. rewrite (grade_one_initial rs rs' i q score H).
  destruct (grade_one _ i q score) as [r|e]; [|done]. cbn [res_bind]. apply IH.
Qed.

(** X8: grading reads a response through its first character in upper
    case only: two lists of responses that agree on these give the same
    result in the same world, whatever is stored. *)
Theorem grade_reads_initials_only (quiz_id : json) (rs rs' : list string)
    (w : world) :
  Forall2 (fun r r' => initial r = initial r') rs rs' ->
  grade_responses quiz_id (JArr (map JStr rs)) w
  = grade_responses quiz_id (JArr (map JStr rs')) w.
Proof.
  intros H. unfold grade_responses.
  apply bind_ext. intros _ w1. apply bind_ext. intros quiz w2.
  apply bind_ext. intros failed w3. destruct failed; [done|].
  apply bind_ext. intros questions w4. apply bind_ext. intros qs w5.
  by rewrite (grade_loop_initial rs rs' qs 0 0 [] H).
Qed.

Lemma grade_reads_initials_only_witness :
  Forall2 (fun r r' => initial r = initial r') ["apple"; "b"] ["A"; "Banana"] /\
  grade_responses (JStr "quiz_1") (JArr (map JStr ["apple"; "b"])) Examples.w0
  = grade_responses (JStr "quiz_1") (JArr (map JStr ["A"; "Banana"])) Examples.w0.
Proof.
  assert (H : Forall2 (fun r r' => initial r = initial r')
                ["apple"; "b"] ["A"; "Banana"]) by (repeat constructor).
  split; [exact H|].
  exact (grade_reads_initials_only (JStr "quiz_1") _ _ Examples.w0 H).
Defined.

Lemma read_responses_blank line :
  str_strip line = EmptyString -> read_responses line = JArr [JStr EmptyString].
Proof. intros H. unfold read_responses. by rewrite H. Qed.

(** X9: from a line that is empty or blank the coordinators form the
    single response that is the empty string, and [grade_responses] on it
    raises [IndexError] as soon as the stored quiz has a question. *)
Theorem blank_answers_cannot_be_graded (quiz_id : json)
    (members : list (string * json)) (q : json) (qs : list json)
    (line : string) (w : world) :
  files w !! quiz_file (py_str quiz_id) = Some (JsonDoc (JObj members)) ->
  dict_get "error" members = None ->
  dict_get "questions" members = Some (JArr (q :: qs)) ->
  str_strip line = EmptyString ->
  read_responses line = JArr [JStr EmptyString] /\
  fst (grade_responses quiz_id (read_responses line) w)
  = Raise (Exn IndexError "string index out of range").
Proof.
  intros Hf He Hq Hl. rewrite (read_responses_blank line Hl).
  split; [reflexivity|].
  rewrite (grade_responses_stored _ _ _ _ _ Hf Hq). cbv zeta.
  unfold dict_has. rewrite He. reflexivity.
Qed.

Lemma blank_answers_cannot_be_graded_witness :
  let quiz := JObj [("quiz_id", JStr "quiz_1");
                    ("questions", JArr [JObj [("correct_answer", JStr "A")]])] in
  let w := World (<[quiz_file "quiz_1" := JsonDoc quiz]> ∅) Examples.ticking 0 [] in
  fst (grade_responses (JStr "quiz_1") (read_responses "  ") w)
  = Raise (Exn IndexError "string index out of range").
Proof.
  cbv zeta.
  eapply (blank_answers_cannot_be_graded (JStr "quiz_1")
            [("quiz_id", JStr "quiz_1");
             ("questions", JArr [JObj [("correct_answer", JStr "A")]])]
            (JObj [("correct_answer", JStr "A")]) [] "  ").
  - simpl. apply lookup_insert_eq.
  - reflexivity.
  - reflexivity.
  - reflexivity.
Defined.

(** ** The report, and the tools together *)






Lemma correct_of_question sentences i : correct_of (question sentences i) = Some "A".
Proof. reflexivity. Qed.

Lemma initial_nonempty r c : initial r = Some c -> r <> EmptyString.
Proof. by intros H ->. Qed.

Lemma marks_all_A rs sentences l i :
  Forall (fun r => initial r = Some "A") rs ->
  i + length l <= length rs ->
  count_true (marks rs (map (question sentences) l) i) = length l.
Proof.
  intros Hrs. revert i. induction l as [|j l IH]; intros i Hi; [done|].
  cbn [map marks length] in *. rewrite count_true_cons, IH by lia.
  rewrite correct_of_question. unfold answered.
  destruct (lookup_lt_is_Some_2 rs i) as [r Hr]; [lia|]. rewrite Hr.
  rewrite Forall_forall in Hrs.
  assert (Hini : initial r = Some "A")
    by (apply Hrs; by eapply list_elem_of_lookup_2).
  unfold initial in Hini. rewrite Hini. reflexivity.
Qed.

(** X11: the tools compose.  What [create_quiz] returns for a text and
    an integer is saved by [save_quiz]; [load_quiz] of the identifier
    gives the questions back; and responses that all start with [a] or
    [A], at least one per question, get the full score. *)
Theorem quiz_pipeline (source_text : string) (n : Z) (rs : list string)
    (w : world) :
  Forall (fun r => initial r = Some "A") rs ->
  exists qs quiz_id w1 w2,
    create_quiz (JStr source_text) (JInt n) w
    = (Ok (JObj [("questions", JArr qs); ("count", JInt (Z.of_nat (length qs)))]), w1)
    /\ save_quiz (JObj [("questions", JArr qs); ("count", JInt (Z.of_nat (length qs)))]) w1
       = (Ok (JObj [("quiz_id", JStr quiz_id); ("path", JStr (quiz_file quiz_id))]), w2)
    /\ fst (load_quiz (JStr quiz_id) w2)
       = Ok (JObj [("quiz_id", JStr quiz_id); ("questions", JArr qs)])
    /\ (length qs <= length rs ->
        exists details,
          fst (grade_responses (JStr quiz_id) (JArr (map JStr rs)) w2)
          = Ok (JObj [("quiz_id", JStr quiz_id);
                      ("score", JInt (Z.of_nat (length qs)));
                      ("total", JInt (Z.of_nat (length qs)));
                      ("details", JArr details)])).
Proof.
  intros Hrs.
  set (ss := sentences_of source_text).
  set (qs := map (question ss) (seq 0 (rounds_of n ss))).
  set (w1 := World (files w) (clock w) (reads w) (trace w ++ [EvTool "create_quiz"])).
  set (id := quiz_id_at (clock w1 (reads w1))).
  set (w2 := World (<[quiz_file id
                       := JsonDoc (JObj [("quiz_id", JStr id); ("questions", JArr qs)])]>
                      (files w1))
                   (clock w1) (S (reads w1)) (trace w1 ++ [EvTool "save_quiz"])).
  assert (Hf : files w2 !! quiz_file (py_str (JStr id))
               = Some (JsonDoc (JObj [("quiz_id", JStr id); ("questions", JArr qs)])))
    by apply lookup_insert_eq.
  exists qs, id, w1, w2.
  assert (Hlen : length qs = rounds_of n ss)
    by (unfold qs; by rewrite length_map, length_seq).
  split; [|split; [|split]].
  - rewrite create_quiz_run. fold ss qs. by rewrite <- Hlen.
  - rewrite save_quiz_run. reflexivity.
  - by erewrite load_quiz_stored.
  - intros Hle. eexists.
    rewrite (grade_responses_graded (JStr id) _ qs rs w2 Hf eq_refl eq_refl).
    + cbn [fst]. unfold qs at 1.
      rewrite (marks_all_A rs ss (seq 0 (rounds_of n ss)) 0 Hrs)
        by (rewrite length_seq; lia).
      rewrite <- Hlen, length_seq. reflexivity.
    + apply Forall_forall. intros q Hq. unfold qs in Hq.
      apply list_elem_of_fmap in Hq as (j & -> & _).
      rewrite correct_of_question. by eexists.
    + eapply Forall_impl; [exact Hrs|]. intros r Hr. exact (initial_nonempty r _ Hr).
Qed.

Lemma quiz_pipeline_witness :
  Forall (fun r => initial r = Some "A") ["a"; "Alpha"] /\
  exists qs quiz_id w1 w2 details,
    create_quiz (JStr "Water boils at one hundred degrees.") (JInt 2) Examples.w0
    = (Ok (JObj [("questions", JArr qs); ("count", JInt (Z.of_nat (length qs)))]), w1)
    /\ save_quiz (JObj [("questions", JArr qs); ("count", JInt (Z.of_nat (length qs)))]) w1
       = (Ok (JObj [("quiz_id", JStr quiz_id); ("path", JStr (quiz_file quiz_id))]), w2)
    /\ fst (grade_responses (JStr quiz_id) (JArr (map JStr ["a"; "Alpha"])) w2)
       = Ok (JObj [("quiz_id", JStr quiz_id);
                   ("score", JInt (Z.of_nat (length qs)));
                   ("total", JInt (Z.of_nat (length qs)));
                   ("details", JArr details)]).
Proof.
  assert (Hrs : Forall (fun r => initial r = Some "A") ["a"; "Alpha"])
    by (repeat constructor).
  split; [exact Hrs|].
  destruct (quiz_pipeline "Water boils at one hundred degrees." 2 ["a"; "Alpha"]
              Examples.w0 Hrs)
    as (qs & id & w1 & w2 & Hc & Hs & _ & Hg).
  destruct (create_quiz_count "Water boils at one hundred degrees." 2 Examples.w0)
    as (qs' & Hc' & Hn & _).
  assert (qs' = qs) as -> by congruence.
  destruct Hg as [details Hg]; [simpl; lia|].
  exists qs, id, w1, w2, details. split; [exact Hc|]. split; [exact Hs | exact Hg].
Defined.

Lemma load_quiz_reads_its_file quiz_id w w' :
  files w !! quiz_file (py_str quiz_id) = files w' !! quiz_file (py_str quiz_id) ->
  fst (load_quiz quiz_id w) = fst (load_quiz quiz_id w').
Proof. intros H. rewrite !load_quiz_run. cbn [fst]. by rewrite H. Qed.

(** X12: a report and a stored quiz never share a path: [create_report]
    leaves every quiz file as it was, so that [load_quiz] returns the same
    after it as before, and [save_quiz] leaves every report as it was. *)
Theorem reports_and_quizzes_never_collide (a b quiz_id : json) (w : world) :
  files (snd (create_report a b w)) !! quiz_file (py_str quiz_id)
    = files w !! quiz_file (py_str quiz_id) /\
  fst (load_quiz quiz_id (snd (create_report a b w))) = fst (load_quiz quiz_id w) /\
  files (snd (save_quiz a w)) !! report_file quiz_id = files w !! report_file quiz_id.
Proof.
  assert (H1 : files (snd (create_report a b w)) !! quiz_file (py_str quiz_id)
               = files w !! quiz_file (py_str quiz_id)).
  { apply (create_report_same_files_but a b w). intros H. symmetry in H.
    by apply report_file_not_quiz_file in H. }
  split; [exact H1|]. split; [by apply load_quiz_reads_its_file|].
  apply (save_quiz_same_files_but a w). apply report_file_not_quiz_file.
Qed.

(** ** What every run keeps

    A relation between the world before and the world after that the
    writes of the tools keep is kept by the agents and by the
    coordinators. *)

Section Kept.
Context (R : world -> world -> Prop) `{!PreOrder R}.
Context (R_emit : forall e, stable R (emit e)).
Context (R_now : stable R now).
Context (R_write : forall p f, stable R (write_file p f)).

Lemma tool_keeps name f vs : TOOLS !! name = Some f -> stable R (body f vs).
Proof.
  intros H. apply tools_cases in H.
  repeat (apply elem_of_cons in H as [->|H]); [..|by apply elem_of_nil in H];
    simpl; unfold args1, args2, create_quiz, save_quiz, load_quiz,
      grade_responses, load_quiz, create_report, open_w;
    repeat first [ stable_step | apply R_emit | apply R_now | apply R_write ].
Qed.

Lemma fixed_execute_tool_keeps tool_name arguments :
  stable R (Fixed.execute_tool tool_name arguments).
Proof.
  unfold Fixed.execute_tool.
  apply stable_bind; [apply _ | apply stable_lift; apply _ | intros known].
  destruct known; simpl; [|apply stable_ret; apply _].
  apply stable_catch; [apply _ | | intros e; apply stable_ret; apply _].
  apply stable_bind_lift; [apply _|]. intros f Hf.
  apply stable_call_kwargs; [apply _|]. intros vs.
  unfold registry_get in Hf. destruct tool_name; try discriminate.
  destruct (TOOLS !! s) eqn:Hs; [|discriminate]. injection Hf as ->.
  by apply (tool_keeps s).
Qed.

Lemma fixed_call_result_keeps call : stable R (Fixed.call_result call).
Proof.
  unfold Fixed.call_result.
  repeat first [ stable_step | apply R_emit | apply fixed_execute_tool_keeps ].
Qed.

Lemma fixed_run_calls_keeps calls messages ctx :
  stable R (Fixed.run_calls calls messages ctx).
Proof.
  revert messages ctx. induction calls as [|call rest IH]; intros messages ctx; simpl.
  - apply stable_ret. apply _.
  - apply stable_bind; [apply _ | | intros s; apply IH].
    unfold Fixed.run_call.
    repeat first [stable_step | apply fixed_call_result_keeps].
Qed.

Lemma working_call_result_keeps tc : stable R (Working.call_result tc).
Proof.
  unfold Working.call_result.
  apply stable_bind; [apply _ | apply stable_lift; apply _ | intros args].
  apply stable_bind; [apply _ | apply R_emit | intros _].
  apply stable_bind; [apply _ | | intros result; apply stable_ret; apply _].
  destruct (TOOLS !! tc_name tc) as [f|] eqn:Hf; [|apply stable_ret; apply _].
  apply stable_call_kwargs; [apply _|]. intros vs. by apply (tool_keeps (tc_name tc)).
Qed.

Lemma working_run_calls_keeps calls messages ctx :
  stable R (Working.run_calls calls messages ctx).
Proof.
  revert messages ctx. induction calls as [|tc rest IH]; intros messages ctx; simpl.
  - apply stable_ret. apply _.
  - apply stable_bind; [apply _ | | intros s; apply IH].
    unfold Working.run_call.
    repeat first [stable_step | apply working_call_result_keeps].
Qed.

Lemma create_keeps c r : stable R (create c r).
Proof.
  unfold create.
  apply stable_bind; [apply _ | apply R_emit | intros _].
  apply stable_ret. apply _.
Qed.

Lemma fixed_iterate_keeps self n messages ctx :
  stable R (Fixed.iterate self n messages ctx).
Proof.
  revert messages ctx. induction n as [|n IH]; intros messages ctx; simpl.
  - apply stable_ret. apply _.
  - apply stable_bind; [apply _ | apply create_keeps | intros response].
    destruct (Fixed.extract_functools _); [|apply stable_ret; apply _].
    apply stable_bind; [apply _ | apply fixed_run_calls_keeps | intros s; apply IH].
Qed.

Lemma working_iterate_keeps self n messages ctx :
  stable R (Working.iterate self n messages ctx).
Proof.
  revert messages ctx. induction n as [|n IH]; intros messages ctx; simpl.
  - apply stable_ret. apply _.
  - apply stable_bind; [apply _ | apply create_keeps | intros message].
    destruct (tool_calls message) as [[|tc rest]|]; try (apply stable_ret; apply _).
    apply stable_bind; [apply _ | apply working_run_calls_keeps | intros s; apply IH].
Qed.

Lemma fixed_agent_run_keeps self task ctx : stable R (Fixed.Agent_run self task ctx).
Proof.
  unfold Fixed.Agent_run.
  apply stable_bind; [apply _ | apply R_emit | intros _].
  apply stable_bind; [apply _ | apply fixed_iterate_keeps | intros s].
  apply stable_ret. apply _.
Qed.

Lemma working_agent_run_keeps self task ctx :
  stable R (Working.Agent_run self task ctx).
Proof.
  unfold Working.Agent_run.
  apply stable_bind; [apply _ | apply R_emit | intros _].
  apply stable_bind; [apply _ | apply working_iterate_keeps | intros s].
  apply stable_ret. apply _.
Qed.

Lemma fixed_coordinator_keeps self src n answers :
  stable R (Fixed.QuizCoordinator_run self src n answers).
Proof.
  unfold Fixed.QuizCoordinator_run.
  apply stable_bind; [apply _ | apply fixed_agent_run_keeps | intros ctx].
  cbv zeta. destruct (negb _); [apply R_emit|].
  apply stable_bind; [apply _ | apply stable_lift; apply _ | intros _].
  apply stable_bind; [apply _ | apply fixed_agent_run_keeps | intros ctx2].
  apply stable_lift; apply _.
Qed.

Lemma working_grade_phase_keeps self ctx quiz_id answers :
  stable R (Working.grade_phase self ctx quiz_id answers).
Proof.
  unfold Working.grade_phase.
  apply stable_bind; [apply _ | apply stable_lift; apply _ | intros _].
  cbv zeta.
  apply stable_bind; [apply _ | apply working_agent_run_keeps | intros ctx2].
  destruct (truthy _); [apply stable_lift | apply stable_ret]; apply _.
Qed.

Lemma working_coordinator_keeps self src n answers :
  stable R (Working.QuizCoordinator_run self src n answers).
Proof.
  unfold Working.QuizCoordinator_run.
  apply stable_bind; [apply _ | apply working_agent_run_keeps | intros ctx].
  cbv zeta. destruct (negb _); [|apply working_grade_phase_keeps].
  apply stable_bind; [apply _ | apply R_emit | intros _].
  apply stable_bind; [apply _ | | intros quiz_result].
  { exact (tool_keeps "create_quiz"
             (PyFun "create_quiz" [("source_text", None); ("num_questions", None)]
                (args2 create_quiz)) [JStr src; JInt n] eq_refl). }
  apply stable_bind; [apply _ | | intros save_result].
  { exact (tool_keeps "save_quiz"
             (PyFun "save_quiz" [("quiz_data", None)] (args1 save_quiz))
             [quiz_result] eq_refl). }
  apply stable_bind; [apply _ | apply stable_lift; apply _ | intros fallback_id].
  destruct (negb _); [apply R_emit | apply working_grade_phase_keeps].
Qed.

End Kept.

#[local] Instance files_grow_preorder : PreOrder files_grow.
Proof. split; [by intros w p | intros a b c H1 H2 p Hp; by apply H2, H1]. Qed.

Lemma files_grow_emit e : stable files_grow (emit e).
Proof. by intros w p. Qed.

Lemma files_grow_now : stable files_grow now.
Proof. by intros w p. Qed.

Lemma files_grow_write p f : stable files_grow (write_file p f).
Proof.
  intros w q Hq. simpl. destruct (decide (q = p)) as [->|Hne].
  - rewrite lookup_insert_eq. by eexists.
  - by rewrite lookup_insert_ne.
Qed.

(** X13: nothing that the tools, the agents and the coordinators do
    removes a file: every path that holds a file before a run holds one
    after it, whatever the endpoint answers and whether or not the run
    ends with an exception. *)
Theorem no_file_is_removed (w : world) :
  (forall tool_name arguments,
      files_grow w (snd (Fixed.execute_tool tool_name arguments w))) /\
  (forall self task ctx, files_grow w (snd (Fixed.Agent_run self task ctx w))) /\
  (forall self task ctx, files_grow w (snd (Working.Agent_run self task ctx w))) /\
  (forall self src n answers,
      files_grow w (snd (Fixed.QuizCoordinator_run self src n answers w))) /\
  (forall self src n answers,
      files_grow w (snd (Working.QuizCoordinator_run self src n answers w))).
Proof.
  pose proof files_grow_emit as He. pose proof files_grow_now as Hn.
  pose proof files_grow_write as Hw.
  repeat split; intros.
  - by apply (fixed_execute_tool_keeps files_grow).
  - by apply (fixed_agent_run_keeps files_grow).
  - by apply (working_agent_run_keeps files_grow).
  - by apply (fixed_coordinator_keeps files_grow).
  - by apply (working_coordinator_keeps files_grow).
Qed.

Lemma returns_ret {A} (Q : A -> Prop) a : Q a -> returns Q (ret a).
Proof. intros H w a' w' [= <- _]. exact H. Qed.

Lemma returns_lift {A} (Q : A -> Prop) (r : res A) :
  (forall a, r = Ok a -> Q a) -> returns Q (lift r).
Proof. intros H w a w' [= -> _]. by apply H. Qed.

Lemma returns_bind {A B} (P : A -> Prop) (Q : B -> Prop) (m : M A) (k : A -> M B) :
  returns P m -> (forall a, P a -> returns Q (k a)) -> returns Q (bind m k).
Proof.
  intros Hm Hk w b w' H. apply bind_Ok_inv in H as (a & w1 & Ha & Hb).
  exact (Hk a (Hm _ _ _ Ha) _ _ _ Hb).
Qed.

Lemma returns_any {A} (m : M A) : returns (fun _ => True) m.
Proof. by intros w a w' _. Qed.

Lemma returns_seq {A B} (Q : B -> Prop) (m : M A) (k : A -> M B) :
  (forall a, returns Q (k a)) -> returns Q (bind m k).
Proof. intros Hk. apply (returns_bind (fun _ => True)); [apply returns_any | auto]. Qed.

Lemma is_dict_invalid msg : is_dict (invalid msg).
Proof. by eexists. Qed.

Lemma create_quiz_returns a b : returns quiz_shaped (create_quiz a b).
Proof.
  unfold create_quiz. apply returns_seq. intros _.
  apply returns_seq. intros pieces. cbv zeta.
  apply returns_seq. intros n. apply returns_ret. by eexists _, _, _.
Qed.

Lemma load_result_dict quiz_id f r : load_result quiz_id f = Ok r -> is_dict r.
Proof.
  unfold load_result. destruct f as [doc|]; [|intros [= <-]; apply is_dict_invalid].
  destruct (match doc with JsonDoc j => Ok j | TextDoc s => json_loads s end)
    as [data|]; [|discriminate]. cbn [res_bind].
  destruct data; try discriminate. cbn [get_method res_bind].
  destruct (py_len _); [|discriminate]. intros [= <-]. by eexists.
Qed.

Lemma load_quiz_returns a : returns is_dict (load_quiz a).
Proof.
  intros w r w' H. rewrite load_quiz_run in H. injection H as H _.
  destruct (load_result a _) as [r'|] eqn:Hr; [|discriminate].
  injection H as <-. by eapply load_result_dict.
Qed.

Lemma grade_responses_returns a b : returns is_dict (grade_responses a b).
Proof.
  unfold grade_responses. apply returns_seq. intros _.
  apply (returns_bind is_dict); [apply load_quiz_returns|]. intros quiz Hq.
  apply returns_seq. intros failed. destruct failed; [by apply returns_ret|].
  repeat (apply returns_seq; intros ?). apply returns_ret. by eexists.
Qed.

Lemma create_report_returns a b : returns is_dict (create_report a b).
Proof.
  unfold create_report. apply returns_seq. intros _.
  apply returns_seq. intros has. destruct (negb has).
  - apply returns_ret, is_dict_invalid.
  - cbv zeta. repeat (apply returns_seq; intros ?). apply returns_ret. by eexists.
Qed.

Lemma save_quiz_result quiz_data w r w' :
  save_quiz quiz_data w = (Ok r, w') ->
  r = invalid "Invalid quiz_data"
  \/ exists id, r = JObj [("quiz_id", JStr id); ("path", JStr (quiz_file id))]
                /\ is_Some (files w' !! quiz_file id).
Proof.
  rewrite save_quiz_run. cbv zeta.
  destruct (if truthy quiz_data then _ else _) as [[|]|]; [| |discriminate].
  - destruct (getitem_str quiz_data "questions"); [|discriminate].
    intros [= <- <-]. right. eexists. split; [reflexivity|].
    cbn [files]. rewrite lookup_insert_eq. by eexists.
  - intros [= <- _]. by left.
Qed.

Lemma call_kwargs_Ok_inv f arguments w r w' :
  call_kwargs f arguments w = (Ok r, w') -> exists vs, body f vs w = (Ok r, w').
Proof.
  unfold call_kwargs. destruct arguments; try discriminate.
  destruct (find _ _) as [[k v]|]; [discriminate|].
  intros H. apply bind_Ok_inv in H as (vs & w1 & Hv & Hb).
  apply lift_Ok_inv in Hv as [_ ->]. by exists vs.
Qed.

Lemma tool_result_invalid tool_name msg w : tool_result tool_name (invalid msg) w.
Proof. eexists. split; [reflexivity|]. split; [discriminate | intros _ v; discriminate]. Qed.

Lemma tool_result_dict tool_name r w :
  is_dict r ->
  eq_str "create_quiz" tool_name = false ->
  eq_str "save_quiz" tool_name = false ->
  tool_result tool_name r w.
Proof.
  intros [members ->] H1 H2. exists members. rewrite H1, H2.
  split; [reflexivity|]. split; discriminate.
Qed.

Lemma args2_Ok_inv f vs w r w' :
  args2 f vs w = (Ok r, w') -> exists a b, vs = [a; b] /\ f a b w = (Ok r, w').
Proof.
  destruct vs as [|a [|b [|c vs]]]; try discriminate. intros H. by exists a, b.
Qed.

Lemma args1_Ok_inv f vs w r w' :
  args1 f vs w = (Ok r, w') -> exists a, vs = [a] /\ f a w = (Ok r, w').
Proof.
  destruct vs as [|a [|b vs]]; try discriminate. intros H. by exists a.
Qed.

Lemma tool_body_result name f vs w r w' :
  TOOLS !! name = Some f -> body f vs w = (Ok r, w') ->
  tool_result (JStr name) r w'.
Proof.
  intros Hf Hb.
  destruct (decide (name = "create_quiz")) as [->|Hn1].
  { assert (Hc : TOOLS !! "create_quiz"
                 = Some (PyFun "create_quiz"
                           [("source_text", None); ("num_questions", None)]
                           (args2 create_quiz))) by reflexivity.
    rewrite Hc in Hf. injection Hf as <-. cbn [body] in Hb.
    apply args2_Ok_inv in Hb as (a & b & _ & Hb).
    pose proof (create_quiz_returns a b _ _ _ Hb) as Hq.
    destruct Hq as (ss & l & c & ->). eexists. split; [reflexivity|].
    split; [intros _ _; by eexists _, _, _ | discriminate]. }
  destruct (decide (name = "save_quiz")) as [->|Hn2].
  { assert (Hc : TOOLS !! "save_quiz"
                 = Some (PyFun "save_quiz" [("quiz_data", None)] (args1 save_quiz)))
      by reflexivity.
    rewrite Hc in Hf. injection Hf as <-. cbn [body] in Hb.
    apply args1_Ok_inv in Hb as (a & _ & Hb).
    apply save_quiz_result in Hb as [->|(id & -> & Hid)];
      [apply tool_result_invalid|].
    eexists. split; [reflexivity|]. split; [discriminate|].
    intros _ v [= <-]. by exists id. }
  apply tool_result_dict.
  - apply tools_cases in Hf.
    repeat (apply elem_of_cons in Hf as [->|Hf]); [..|by apply elem_of_nil in Hf];
      cbn [body] in Hb.
    + apply args2_Ok_inv in Hb as (a & b & _ & Hb).
      destruct (create_quiz_returns a b _ _ _ Hb) as (ss & l & c & ->). by eexists.
    + apply args1_Ok_inv in Hb as (a & _ & Hb).
      apply save_quiz_result in Hb as [->|(id & -> & _)]; by eexists.
    + apply args1_Ok_inv in Hb as (a & _ & Hb). by eapply load_quiz_returns.
    + apply args2_Ok_inv in Hb as (a & b & _ & Hb). by eapply grade_responses_returns.
    + apply args2_Ok_inv in Hb as (a & b & _ & Hb). by eapply create_report_returns.
  - cbn [eq_str]. apply String.eqb_neq. congruence.
  - cbn [eq_str]. apply String.eqb_neq. congruence.
Qed.

Lemma sound_context_grow ctx w w' :
  files_grow w w' -> sound_context ctx w -> sound_context ctx w'.
Proof.
  intros Hg (H1 & H2 & H3). split; [exact H1|]. split; [|exact H3].
  intros v Hv. destruct (H2 v Hv) as (id & -> & Hid). exists id. split; [done|].
  by apply Hg.
Qed.

Lemma sound_context_insert k v ctx w :
  k <> "quiz_data" -> k <> "quiz_id" -> k <> "grading_results" ->
  sound_context ctx w -> sound_context (<[k := v]> ctx) w.
Proof.
  intros N1 N2 N3 (H1 & H2 & H3).
  split; [|split]; intros x; rewrite lookup_insert_ne by done; auto.
Qed.

Lemma sound_context_empty w : sound_context ∅ w.
Proof. split; [|split]; intros v; by rewrite lookup_empty. Qed.

Lemma update_context_sound tool_name r ctx ctx' w :
  sound_context ctx w -> tool_result tool_name r w ->
  update_context tool_name r ctx = Ok ctx' -> sound_context ctx' w.
Proof.
  intros Hs (members & -> & Hq & Hi). unfold update_context.
  destruct (eq_str "create_quiz" tool_name) eqn:E1; cbn [py_contains res_bind].
  - destruct (dict_has "questions" members) eqn:D1.
    + intros [= <-]. destruct Hs as (H1 & H2 & H3).
      split; [|split]; intros v.
      * rewrite lookup_insert_eq. intros [= <-]. by apply Hq.
      * rewrite lookup_insert_ne by done. apply H2.
      * rewrite lookup_insert_ne by done. apply H3.
    + assert (E2 : eq_str "save_quiz" tool_name = false).
      { destruct tool_name; try done. cbn [eq_str] in *.
        apply String.eqb_eq in E1 as <-. reflexivity. }
      assert (E3 : eq_str "grade_responses" tool_name = false).
      { destruct tool_name; try done. cbn [eq_str] in *.
        apply String.eqb_eq in E1 as <-. reflexivity. }
      assert (E4 : eq_str "create_report" tool_name = false).
      { destruct tool_name; try done. cbn [eq_str] in *.
        apply String.eqb_eq in E1 as <-. reflexivity. }
      rewrite E2, E3, E4. cbn [res_bind]. by intros [= <-].
  - destruct (eq_str "save_quiz" tool_name) eqn:E2; cbn [py_contains res_bind].
    + unfold dict_has. destruct (dict_get "quiz_id" members) as [v|] eqn:D2.
      * cbn [getitem_str]. rewrite D2. cbn [res_bind]. intros [= <-].
        destruct Hs as (H1 & H2 & H3).
        split; [|split]; intros x.
        -- rewrite lookup_insert_ne by done. apply H1.
        -- rewrite lookup_insert_eq. intros [= <-]. by apply Hi.
        -- rewrite lookup_insert_ne by done. apply H3.
      * assert (E3 : eq_str "grade_responses" tool_name = false).
        { destruct tool_name; try done. cbn [eq_str] in *.
          apply String.eqb_eq in E2 as <-. reflexivity. }
        assert (E4 : eq_str "create_report" tool_name = false).
        { destruct tool_name; try done. cbn [eq_str] in *.
          apply String.eqb_eq in E2 as <-. reflexivity. }
        rewrite E3, E4. cbn [res_bind]. by intros [= <-].
    + destruct (eq_str "grade_responses" tool_name) eqn:E3; cbn [py_contains res_bind].
      * destruct (dict_has "score" members).
        -- intros [= <-]. destruct Hs as (H1 & H2 & H3).
           split; [|split]; intros x.
           ++ rewrite lookup_insert_ne by done. apply H1.
           ++ rewrite lookup_insert_ne by done. apply H2.
           ++ rewrite lookup_insert_eq. intros [= <-]. by eexists.
        -- assert (E4 : eq_str "create_report" tool_name = false).
           { destruct tool_name; try done. cbn [eq_str] in *.
             apply String.eqb_eq in E3 as <-. reflexivity. }
           rewrite E4. cbn [res_bind]. by intros [= <-].
      * destruct (eq_str "create_report" tool_name); cbn [py_contains res_bind];
          [|by intros [= <-]].
        destruct (dict_has "path" members); [|by intros [= <-]].
        destruct (getitem_str (JObj members) "path"); [|discriminate].
        cbn [res_bind]. intros [= <-]. by apply sound_context_insert.
Qed.

Lemma fixed_call_result_tool call w r w' :
  Fixed.call_result call w = (Ok r, w') -> tool_result (fst r) (snd r) w'.
Proof.
  unfold Fixed.call_result. intros H.
  apply bind_Ok_inv in H as (tool_name & w1 & _ & H).
  apply bind_Ok_inv in H as (arguments & w2 & _ & H).
  apply bind_Ok_inv in H as (u & w3 & _ & H).
  apply bind_Ok_inv in H as (result & w4 & Hx & H).
  injection H as <- <-. cbn [fst snd].
  unfold Fixed.execute_tool in Hx.
  apply bind_Ok_inv in Hx as (known & w5 & Hk & Hx).
  apply lift_Ok_inv in Hk as [Hk ->].
  destruct known; cbn [negb] in Hx;
    [|injection Hx as <- <-; apply tool_result_invalid].
  unfold catch in Hx.
  destruct (bind (lift (registry_get TOOLS tool_name)) _ w3) as [[v|e] w6] eqn:Hb.
  - injection Hx as <- <-.
    apply bind_Ok_inv in Hb as (f & w7 & Hf & Hc).
    apply lift_Ok_inv in Hf as [Hf ->].
    apply call_kwargs_Ok_inv in Hc as [vs Hc].
    unfold registry_get in Hf. destruct tool_name; try discriminate.
    destruct (TOOLS !! s) eqn:Hs; [|discriminate]. injection Hf as ->.
    by eapply tool_body_result.
  - destruct (same_class (exn_kind e) TypeError); [|discriminate].
    injection Hx as <- <-. apply tool_result_invalid.
Qed.

Lemma working_call_result_tool tc w r w' :
  Working.call_result tc w = (Ok r, w') ->
  tool_result (JStr (tc_name tc)) (snd r) w'.
Proof.
  unfold Working.call_result. intros H.
  apply bind_Ok_inv in H as (args & w1 & _ & H).
  apply bind_Ok_inv in H as (u & w2 & _ & H).
  apply bind_Ok_inv in H as (result & w3 & Hx & H).
  injection H as <- <-. cbn [snd].
  destruct (TOOLS !! tc_name tc) as [f|] eqn:Hf.
  - apply call_kwargs_Ok_inv in Hx as [vs Hx]. by eapply tool_body_result.
  - injection Hx as <- <-. apply tool_result_invalid.
Qed.

Lemma fixed_run_calls_sound calls messages ctx w s w' :
  sound_context ctx w ->
  Fixed.run_calls calls messages ctx w = (Ok s, w') -> sound_context (snd s) w'.
Proof.
  revert messages ctx w. induction calls as [|call rest IH]; intros messages ctx w Hs H.
  - injection H as <- <-. exact Hs.
  - cbn [Fixed.run_calls] in H. apply bind_Ok_inv in H as (s1 & w1 & H1 & H2).
    eapply IH; [|exact H2].
    pose proof (fixed_run_call_inv _ _ _ _ _ _ H1) as (r & Hr & _ & Hu).
    eapply update_context_sound; [|by eapply fixed_call_result_tool|exact Hu].
    eapply sound_context_grow; [|exact Hs].
    pose proof (fixed_call_result_keeps files_grow files_grow_emit files_grow_now
                  files_grow_write call w) as Hg.
    by rewrite Hr in Hg.
Qed.

Lemma working_run_calls_sound calls messages ctx w s w' :
  sound_context ctx w ->
  Working.run_calls calls messages ctx w = (Ok s, w') -> sound_context (snd s) w'.
Proof.
  revert messages ctx w. induction calls as [|tc rest IH]; intros messages ctx w Hs H.
  - injection H as <- <-. exact Hs.
  - cbn [Working.run_calls] in H. apply bind_Ok_inv in H as (s1 & w1 & H1 & H2).
    eapply IH; [|exact H2].
    pose proof (working_run_call_inv _ _ _ _ _ _ H1) as (r & Hr & _ & Hu).
    eapply update_context_sound; [|by eapply working_call_result_tool|exact Hu].
    eapply sound_context_grow; [|exact Hs].
    pose proof (working_call_result_keeps files_grow files_grow_emit files_grow_now
                  files_grow_write tc w) as Hg.
    by rewrite Hr in Hg.
Qed.

Lemma fixed_iterate_sound self n messages ctx w s w' :
  sound_context ctx w ->
  Fixed.iterate self n messages ctx w = (Ok s, w') -> sound_context (snd s) w'.
Proof.
  revert messages ctx w. induction n as [|n IH]; intros messages ctx w Hs H.
  - injection H as <- <-. exact Hs.
  - cbn [Fixed.iterate] in H. rewrite (bind_Ok _ _ _ _ _ (create_run _ _ _)) in H.
    cbv zeta in H.
    destruct (Fixed.extract_functools _) as [calls|].
    + apply bind_Ok_inv in H as (s1 & w1 & H1 & H2).
      eapply IH; [|exact H2]. eapply fixed_run_calls_sound; [|exact H1].
      eapply sound_context_grow; [|exact Hs]. by intros p.
    + injection H as <- <-. cbn [snd]. by apply sound_context_insert.
Qed.

Lemma working_iterate_sound self n messages ctx w s w' :
  sound_context ctx w ->
  Working.iterate self n messages ctx w = (Ok s, w') -> sound_context (snd s) w'.
Proof.
  revert messages ctx w. induction n as [|n IH]; intros messages ctx w Hs H.
  - injection H as <- <-. exact Hs.
  - cbn [Working.iterate] in H. rewrite (bind_Ok _ _ _ _ _ (create_run _ _ _)) in H.
    cbv zeta in H.
    destruct (tool_calls _) as [[|tc rest]|].
    + injection H as <- <-. cbn [snd]. by apply sound_context_insert.
    + apply bind_Ok_inv in H as (s1 & w1 & H1 & H2).
      eapply IH; [|exact H2]. eapply working_run_calls_sound; [|exact H1].
      eapply sound_context_grow; [|exact Hs]. by intros p.
    + injection H as <- <-. cbn [snd]. by apply sound_context_insert.
Qed.

Lemma fixed_agent_run_sound self task ctx w ctx' w' :
  sound_context ctx w ->
  Fixed.Agent_run self task ctx w = (Ok ctx', w') -> sound_context ctx' w'.
Proof.
  intros Hs H. rewrite fixed_agent_run_eq in H.
  destruct (Fixed.iterate _ _ _ _ _) as [[s|e] w1] eqn:Hi; [|discriminate].
  injection H as <- <-. eapply fixed_iterate_sound; [|exact Hi].
  eapply sound_context_grow; [|exact Hs]. by intros p.
Qed.

Lemma working_agent_run_sound self task ctx w ctx' w' :
  sound_context ctx w ->
  Working.Agent_run self task ctx w = (Ok ctx', w') -> sound_context ctx' w'.
Proof.
  intros Hs H. rewrite working_agent_run_eq in H.
  destruct (Working.iterate _ _ _ _ _) as [[s|e] w1] eqn:Hi; [|discriminate].
  injection H as <- <-. eapply working_iterate_sound; [|exact Hi].
  eapply sound_context_grow; [|exact Hs]. by intros p.
Qed.

Lemma take_quiz_sound ctx w : sound_context ctx w -> take_quiz ctx = Ok tt.
Proof.
  intros (H1 & _ & _). unfold take_quiz.
  destruct (ctx !! "quiz_data") as [v|] eqn:Hv; [|reflexivity].
  destruct (H1 v eq_refl) as (ss & l & c & ->). cbn.
  apply show_questions_generated.
Qed.

Lemma show_score_sound ctx w :
  sound_context ctx w ->
  show_score (default (JObj []) (ctx !! "grading_results")) = Ok tt.
Proof.
  intros (_ & _ & H3). destruct (ctx !! "grading_results") as [v|] eqn:Hv;
    [|reflexivity].
  by destruct (H3 v eq_refl) as (members & ->).
Qed.

(** X14: whatever the endpoint answers, the context that [Agent.run]
    returns from the empty context is in order for the coordinator:
    showing the questions of its quiz cannot fail, an identifier in it is
    a string under which a quiz file is there, and reading the score of
    its grading results cannot fail. *)
Theorem agent_run_context_is_sound (fixed : Fixed.Agent) (working : Working.Agent)
    (task : string) (w : world) :
  match Fixed.Agent_run fixed task ∅ w with
  | (Ok ctx, w') =>
      take_quiz ctx = Ok tt
      /\ (forall v, ctx !! "quiz_id" = Some v -> stored_id v w')
      /\ show_score (default (JObj []) (ctx !! "grading_results")) = Ok tt
  | (Raise _, _) => True
  end /\
  match Working.Agent_run working task ∅ w with
  | (Ok ctx, w') =>
      take_quiz ctx = Ok tt
      /\ (forall v, ctx !! "quiz_id" = Some v -> stored_id v w')
      /\ show_score (default (JObj []) (ctx !! "grading_results")) = Ok tt
  | (Raise _, _) => True
  end.
Proof.
  split.
  - destruct (Fixed.Agent_run fixed task ∅ w) as [[ctx|e] w'] eqn:H; [|done].
    pose proof (fixed_agent_run_sound _ _ _ _ _ _ (sound_context_empty w) H) as Hs.
    split; [by eapply take_quiz_sound|]. split; [apply Hs | by eapply show_score_sound].
  - destruct (Working.Agent_run working task ∅ w) as [[ctx|e] w'] eqn:H; [|done].
    pose proof (working_agent_run_sound _ _ _ _ _ _ (sound_context_empty w) H) as Hs.
    split; [by eapply take_quiz_sound|]. split; [apply Hs | by eapply show_score_sound].
Qed.



Lemma find_none_forallb {A} (p : A -> bool) l :
  forallb p l = true -> find (fun x => negb (p x)) l = None.
Proof.
  induction l as [|x l IH]; [done|]. cbn [forallb find].
  intros H. apply andb_true_iff in H as [-> H]. cbn [negb]. by apply IH.
Qed.

Lemma bind_params_fit f ps kwargs :
  forallb (fun p => match snd p with
                    | Some _ => true
                    | None => dict_has (fst p) kwargs
                    end) ps = true ->
  exists vs, bind_params f ps kwargs = Ok vs /\ length vs = length ps.
Proof.
  induction ps as [|[p d] ps IH]; [by exists []|].
  cbn [forallb fst snd bind_params]. intros H. apply andb_true_iff in H as [Hp H].
  destruct (IH H) as (vs & -> & Hlen). unfold dict_has in Hp.
  destruct (dict_get p kwargs) as [v|]; [exists (v :: vs); cbn; by rewrite Hlen|].
  destruct d as [v|]; [|discriminate]. exists (v :: vs). cbn. by rewrite Hlen.
Qed.

Lemma call_kwargs_well_keyed f arguments w :
  well_keyed f arguments = true ->
  exists vs, length vs = length (params f) /\ call_kwargs f arguments w = body f vs w.
Proof.
  unfold well_keyed, call_kwargs. destruct arguments; try discriminate.
  intros H. apply andb_true_iff in H as [H1 H2].
  rewrite (find_none_forallb _ _ H1).
  destruct (bind_params_fit (fname f) _ _ H2) as (vs & Hv & Hlen).
  exists vs. split; [exact Hlen|]. unfold bind, lift. by rewrite Hv.
Qed.

Lemma tool_body_starts name f vs w :
  TOOLS !! name = Some f -> length vs = length (params f) ->
  exists evs, trace (snd (body f vs w)) = trace w ++ EvTool name :: evs.
Proof.
  intros Hf Hlen.
  assert (Hb : exists k, body f vs = bind (emit (EvTool name)) k
                         /\ forall a, stable (appends any_event) (k a)).
  { pose proof (tool_appends any_event (fun _ => eq_refl)) as Hstable.
    unfold TOOLS in Hf. apply elem_of_list_to_map_2 in Hf.
    repeat (apply elem_of_cons in Hf as [Hf|Hf];
            [injection Hf as -> ->; cbn [params length] in Hlen|]);
      [..|by apply elem_of_nil in Hf].
    - destruct vs as [|a [|b [|c vs]]]; try discriminate.
      eexists. split; [reflexivity|]. intros []. cbv beta zeta.
      repeat first [stable_step].
    - destruct vs as [|a [|b vs]]; try discriminate.
      eexists. split; [reflexivity|]. intros []. cbv beta zeta.
      repeat first [stable_step | apply appends_now | apply appends_write
                   | unfold open_w].
    - destruct vs as [|a [|b vs]]; try discriminate.
      eexists. split; [reflexivity|]. intros []. cbv zeta.
      repeat first [stable_step].
    - destruct vs as [|a [|b [|c vs]]]; try discriminate.
      eexists. split; [reflexivity|]. intros [].
      apply stable_bind; [apply _ | | intros quiz].
      { exact (Hstable "load_quiz" _ [a] eq_refl). }
      repeat first [stable_step].
    - destruct vs as [|a [|b [|c vs]]]; try discriminate.
      eexists. split; [reflexivity|]. intros []. cbv beta zeta.
      repeat first [stable_step | apply appends_write | unfold open_w]. }
  destruct Hb as (k & -> & Hk).
  destruct (bind_extends (emit (EvTool name)) k w Hk) as (evs & Ht & _).
  exists evs. rewrite Ht. cbn [emit snd trace]. by rewrite <- app_assoc.
Qed.

Lemma fixed_execute_tool_world name f arguments w :
  TOOLS !! name = Some f ->
  snd (Fixed.execute_tool (JStr name) arguments w) = snd (call_kwargs f arguments w).
Proof.
  intros Hf. rewrite (execute_tool_known name f arguments w Hf).
  destruct (call_kwargs f arguments w) as [[v|e] w']; [done|].
  by destruct (exn_kind e).
Qed.

Lemma appends_trace w w' : appends any_event w w' -> exists evs, trace w' = trace w ++ evs.
Proof. intros (evs & H & _). by exists evs. Qed.

Lemma fixed_call_result_starts call name f args w :
  get_method call "name" JNull = Ok (JStr name) ->
  get_method call "arguments" (JObj []) = Ok args ->
  TOOLS !! name = Some f -> well_keyed f args = true ->
  exists evs,
    trace (snd (Fixed.call_result call w))
    = trace w ++ EvCall (JStr name) args :: EvTool name :: evs.
Proof.
  intros Hn Ha Hf Hk. unfold Fixed.call_result.
  erewrite bind_Ok; [|unfold lift; rewrite Hn; reflexivity].
  erewrite bind_Ok; [|unfold lift; rewrite Ha; reflexivity].
  erewrite bind_Ok by reflexivity.
  match goal with
  | |- context [bind (Fixed.execute_tool ?n ?a) ?k ?w0] =>
      destruct (appends_trace _ _
                  (bind_extends (Fixed.execute_tool n a) k w0
                     (fun r => stable_ret (appends any_event) _))) as [evs2 Ht2];
      set (w1 := w0) in *
  end.
  rewrite Ht2, (fixed_execute_tool_world name f args w1 Hf).
  destruct (call_kwargs_well_keyed f args w1 Hk) as (vs & Hlen & ->).
  destruct (tool_body_starts name f vs w1 Hf Hlen) as [evs1 Ht1].
  exists (evs1 ++ evs2). rewrite Ht1. unfold w1. cbn [trace].
  rewrite <- !app_assoc. reflexivity.
Qed.

Lemma working_call_result_starts tc f args w :
  json_loads (tc_arguments tc) = Ok args ->
  TOOLS !! tc_name tc = Some f -> well_keyed f args = true ->
  exists evs,
    trace (snd (Working.call_result tc w))
    = trace w ++ EvCall (JStr (tc_name tc)) args :: EvTool (tc_name tc) :: evs.
Proof.
  intros Ha Hf Hk. unfold Working.call_result. cbv zeta.
  erewrite bind_Ok; [|unfold lift; rewrite Ha; reflexivity].
  erewrite bind_Ok by reflexivity. rewrite Hf.
  match goal with
  | |- context [bind (call_kwargs f args) ?k ?w0] =>
      destruct (appends_trace _ _
                  (bind_extends (call_kwargs f args) k w0
                     (fun r => stable_ret (appends any_event) _))) as [evs2 Ht2];
      set (w1 := w0) in *
  end.
  rewrite Ht2.
  destruct (call_kwargs_well_keyed f args w1 Hk) as (vs & Hlen & ->).
  destruct (tool_body_starts (tc_name tc) f vs w1 Hf Hlen) as [evs1 Ht1].
  exists (evs1 ++ evs2). rewrite Ht1. unfold w1. cbn [trace].
  rewrite <- !app_assoc. reflexivity.
Qed.

Lemma update_context_stable tool_name r ctx (k : context -> M (list turn * context)) :
  (forall c, stable (appends any_event) (k c)) ->
  stable (appends any_event) (bind (lift (update_context tool_name r ctx)) k).
Proof. intros Hk. apply stable_bind; [apply _ | apply stable_lift; apply _ | exact Hk]. Qed.

(** X16: the list of tools that an agent is created with selects the
    declarations that are sent to the endpoint and nothing else: when a
    response asks for a registered tool with arguments that fit, the
    agent runs it, whether or not the tool is in its list. *)
Theorem tool_list_is_not_enforced :
  (forall (tools : list string) agent_name c model_id messages ctx w text call rest
          name f args,
      let self := Fixed.new_agent agent_name tools c model_id in
      content (c (Request model_id messages (Fixed.tool_schemas self))) = Some text ->
      Fixed.extract_functools text = Some (call :: rest) ->
      get_method call "name" JNull = Ok (JStr name) ->
      get_method call "arguments" (JObj []) = Ok args ->
      TOOLS !! name = Some f -> well_keyed f args = true ->
      exists evs,
        trace (snd (Fixed.iterate self 1 messages ctx w))
        = trace w ++ EvRequest :: EvCall (JStr name) args :: EvTool name :: evs) /\
  (forall (tools : list string) agent_name c model_id messages ctx w tc rest f args,
      let self := Working.new_agent agent_name tools c model_id in
      tool_calls (c (Request model_id messages (Working.tool_schemas self)))
        = Some (tc :: rest) ->
      json_loads (tc_arguments tc) = Ok args ->
      TOOLS !! tc_name tc = Some f -> well_keyed f args = true ->
      exists evs,
        trace (snd (Working.iterate self 1 messages ctx w))
        = trace w ++ EvRequest :: EvCall (JStr (tc_name tc)) args
                  :: EvTool (tc_name tc) :: evs).
Proof.
  pose proof (fun e : event => eq_refl : any_event e = true) as Hany.
  split.
  - intros tools agent_name c model_id messages ctx w text call rest name f args self
      Hc He Hn Ha Hf Hk.
    cbn [Fixed.iterate]. rewrite (bind_Ok _ _ _ _ _ (create_run _ _ _)). cbv zeta.
    cbn [Fixed.agent_client Fixed.model_id self Fixed.new_agent] in *.
    rewrite Hc. change (default EmptyString (Some text)) with text. rewrite He.
    set (w1 := World (files w) (clock w) (reads w) (trace w ++ [EvRequest])).
    destruct (fixed_call_result_starts call name f args w1 Hn Ha Hf Hk) as [evs1 H1].
    match goal with
    | |- context [bind (Fixed.run_calls (call :: rest) ?ms ctx) ?k w1] =>
        assert (H2 : appends any_event (snd (Fixed.call_result call w1))
                       (snd (bind (Fixed.run_calls (call :: rest) ms ctx) k w1)))
    end.
    { etrans; [|apply bind_extends; intros s; apply stable_ret; apply _].
      cbn [Fixed.run_calls].
      etrans; [|apply bind_extends; intros s;
                by apply (fixed_run_calls_appends any_event)].
      unfold Fixed.run_call. apply bind_extends. intros r.
      apply stable_bind; [apply _ | apply stable_lift; apply _ | intros c'].
      apply stable_ret; apply _. }
    destruct (appends_trace _ _ H2) as [evs2 Ht2].
    exists (evs1 ++ evs2). rewrite Ht2, H1. unfold w1. cbn [trace].
    rewrite <- !app_assoc. reflexivity.
  - intros tools agent_name c model_id messages ctx w tc rest f args self
      Hc Ha Hf Hk.
    cbn [Working.iterate]. rewrite (bind_Ok _ _ _ _ _ (create_run _ _ _)). cbv zeta.
    cbn [Working.agent_client Working.model_id self Working.new_agent] in *.
    rewrite Hc.
    set (w1 := World (files w) (clock w) (reads w) (trace w ++ [EvRequest])).
    destruct (working_call_result_starts tc f args w1 Ha Hf Hk) as [evs1 H1].
    match goal with
    | |- context [bind (Working.run_calls (tc :: rest) ?ms ctx) ?k w1] =>
        assert (H2 : appends any_event (snd (Working.call_result tc w1))
                       (snd (bind (Working.run_calls (tc :: rest) ms ctx) k w1)))
    end.
    { etrans; [|apply bind_extends; intros s; apply stable_ret; apply _].
      cbn [Working.run_calls].
      etrans; [|apply bind_extends; intros s;
                by apply (working_run_calls_appends any_event)].
      unfold Working.run_call. apply bind_extends. intros r.
      apply stable_bind; [apply _ | apply stable_lift; apply _ | intros c'].
      apply stable_ret; apply _. }
    destruct (appends_trace _ _ H2) as [evs2 Ht2].
    exists (evs1 ++ evs2). rewrite Ht2, H1. unfold w1. cbn [trace].
    rewrite <- !app_assoc. reflexivity.
Qed.

Lemma tool_list_is_not_enforced_witness :
  let self := Fixed.new_agent "Idle" [] Examples.eager_client "phi-4" in
  Fixed.tool_schemas self = [] /\
  exists evs,
    trace (snd (Fixed.iterate self 1 [Turn "user" "Hello"] ∅ Examples.w0))
    = [] ++ EvRequest
         :: EvCall (JStr "create_quiz")
              (JObj [("source_text", JStr "Water boils at one hundred degrees.");
                     ("num_questions", JInt 1)])
         :: EvTool "create_quiz" :: evs.
Proof.
  split; [reflexivity|].
  apply (proj1 tool_list_is_not_enforced [] "Idle" Examples.eager_client "phi-4"
           [Turn "user" "Hello"] ∅ Examples.w0 Examples.eager_text
           (JObj [("name", JStr "create_quiz");
                  ("arguments",
                   JObj [("source_text", JStr "Water boils at one hundred degrees.");
                         ("num_questions", JInt 1)])])
           [] "create_quiz"
           (PyFun "create_quiz" [("source_text", None); ("num_questions", None)]
              (args2 create_quiz)));
    reflexivity.
Defined.

Lemma update_context_keys tool_name r ctx ctx' k :
  update_context tool_name r ctx = Ok ctx' -> k ∉ context_keys ->
  ctx' !! k = ctx !! k.
Proof.
  unfold update_context, context_keys. intros H Hk.
  assert (k <> "quiz_data" /\ k <> "quiz_id" /\ k <> "grading_results"
          /\ k <> "report_path") as (N1 & N2 & N3 & N4).
  { repeat split; intros ->; apply Hk; set_solver. }
  repeat match type of H with
         | (let* _ := ?c in _) = _ => destruct c as [[]|]; cbn [res_bind] in H
         | Ok _ = Ok _ => injection H as <-
         | _ => discriminate
         end; rewrite ?lookup_insert_ne by done; reflexivity.
Qed.

Lemma update_context_invalid tool_name msg ctx :
  update_context tool_name (invalid msg) ctx = Ok ctx.
Proof.
  unfold update_context.
  destruct (eq_str "create_quiz" tool_name), (eq_str "save_quiz" tool_name),
    (eq_str "grade_responses" tool_name), (eq_str "create_report" tool_name);
    reflexivity.
Qed.

Lemma fixed_run_calls_keys calls messages ctx w s w' k :
  k ∉ context_keys ->
  Fixed.run_calls calls messages ctx w = (Ok s, w') -> snd s !! k = ctx !! k.
Proof.
  intros Hk. revert messages ctx w.
  induction calls as [|call rest IH]; intros messages ctx w H.
  - by injection H as <- <-.
  - cbn [Fixed.run_calls] in H. apply bind_Ok_inv in H as (s1 & w1 & H1 & H2).
    rewrite (IH _ _ _ H2).
    destruct (fixed_run_call_inv _ _ _ _ _ _ H1) as (r & _ & _ & Hu).
    by eapply update_context_keys.
Qed.

Lemma working_run_calls_keys calls messages ctx w s w' k :
  k ∉ context_keys ->
  Working.run_calls calls messages ctx w = (Ok s, w') -> snd s !! k = ctx !! k.
Proof.
  intros Hk. revert messages ctx w.
  induction calls as [|call rest IH]; intros messages ctx w H.
  - by injection H as <- <-.
  - cbn [Working.run_calls] in H. apply bind_Ok_inv in H as (s1 & w1 & H1 & H2).
    rewrite (IH _ _ _ H2).
    destruct (working_run_call_inv _ _ _ _ _ _ H1) as (r & _ & _ & Hu).
    by eapply update_context_keys.
Qed.

Lemma fixed_iterate_keys self n messages ctx w s w' k :
  k ∉ context_keys -> k <> "summary" ->
  Fixed.iterate self n messages ctx w = (Ok s, w') -> snd s !! k = ctx !! k.
Proof.
  intros Hk Hs. revert messages ctx w.
  induction n as [|n IH]; intros messages ctx w H.
  - by injection H as <- <-.
  - cbn [Fixed.iterate] in H. rewrite (bind_Ok _ _ _ _ _ (create_run _ _ _)) in H.
    cbv zeta in H. destruct (Fixed.extract_functools _) as [calls|].
    + apply bind_Ok_inv in H as (s1 & w1 & H1 & H2).
      rewrite (IH _ _ _ H2). by eapply fixed_run_calls_keys.
    + injection H as <- <-. cbn [snd]. by rewrite lookup_insert_ne.
Qed.

Lemma working_iterate_keys self n messages ctx w s w' k :
  k ∉ context_keys -> k <> "summary" ->
  Working.iterate self n messages ctx w = (Ok s, w') -> snd s !! k = ctx !! k.
Proof.
  intros Hk Hs. revert messages ctx w.
  induction n as [|n IH]; intros messages ctx w H.
  - by injection H as <- <-.
  - cbn [Working.iterate] in H. rewrite (bind_Ok _ _ _ _ _ (create_run _ _ _)) in H.
    cbv zeta in H. destruct (tool_calls _) as [[|tc rest]|].
    + injection H as <- <-. cbn [snd]. by rewrite lookup_insert_ne.
    + apply bind_Ok_inv in H as (s1 & w1 & H1 & H2).
      rewrite (IH _ _ _ H2). by eapply working_run_calls_keys.
    + injection H as <- <-. cbn [snd]. by rewrite lookup_insert_ne.
Qed.

(** X17: [Agent.run] writes five keys of the context and no other: a
    key that is not one of the four that the tool results are projected
    to, nor [summary], has on return the value it had at the start; and
    an error result changes nothing in the context, under any tool
    name. *)
Theorem agent_writes_its_own_keys (fixed : Fixed.Agent) (working : Working.Agent)
    (task : string) (ctx : context) (w : world) (k : string) :
  k ∉ context_keys -> k <> "summary" ->
  (forall tool_name msg c, update_context tool_name (invalid msg) c = Ok c) /\
  match Fixed.Agent_run fixed task ctx w with
  | (Ok ctx', _) => ctx' !! k = ctx !! k
  | (Raise _, _) => True
  end /\
  match Working.Agent_run working task ctx w with
  | (Ok ctx', _) => ctx' !! k = ctx !! k
  | (Raise _, _) => True
  end.
Proof.
  intros Hk Hs. split; [apply update_context_invalid|]. split.
  - rewrite fixed_agent_run_eq.
    destruct (Fixed.iterate _ _ _ _ _) as [[s|e] w1] eqn:Hi; [|done].
    by eapply fixed_iterate_keys.
  - rewrite working_agent_run_eq.
    destruct (Working.iterate _ _ _ _ _) as [[s|e] w1] eqn:Hi; [|done].
    by eapply working_iterate_keys.
Qed.

Lemma agent_writes_its_own_keys_witness :
  match Fixed.Agent_run
          (Fixed.new_agent "Grader" ["load_quiz"; "grade_responses"; "create_report"]
             Examples.plain_client "phi-4")
          "Grade the quiz."
          (<["responses" := JArr [JStr "A"]]> (<["quiz_id" := JStr "quiz_1"]> ∅))
          Examples.w0 with
  | (Ok ctx', _) => ctx' !! "responses" = Some (JArr [JStr "A"])
  | (Raise _, _) => True
  end.
Proof.
  pose proof (agent_writes_its_own_keys
                (Fixed.new_agent "Grader" ["load_quiz"; "grade_responses"; "create_report"]
                   Examples.plain_client "phi-4")
                (Working.new_agent "Grader" [] Examples.plain_client "phi-4")
                "Grade the quiz."
                (<["responses" := JArr [JStr "A"]]> (<["quiz_id" := JStr "quiz_1"]> ∅))
                Examples.w0 "responses") as H.
  destruct H as (_ & H & _).
  - unfold context_keys. intros Hin.
    repeat (apply elem_of_cons in Hin as [Hin|Hin]; [discriminate|]).
    by apply elem_of_nil in Hin.
  - discriminate.
  - destruct (Fixed.Agent_run _ _ _ _) as [[ctx'|e] w']; [|done].
    rewrite H. apply lookup_insert_eq.
Defined.

Lemma registered_needs_arguments name f :
  TOOLS !! name = Some f -> well_keyed f (JObj []) = false.
Proof.
  intros H. apply tools_cases in H.
  repeat (apply elem_of_cons in H as [->|H]); [..|by apply elem_of_nil in H];
    reflexivity.
Qed.

(** X18: a call of the text that lacks its name is answered with the
    error result for the tool [None], and a call that names a registered
    tool and lacks its arguments is answered with the error result for
    arguments that do not fit; in both cases no tool is run and the call
    is the only event. *)
Theorem incomplete_calls_get_error_results (members : list (string * json))
    (w : world) :
  (dict_get "name" members = None ->
   Fixed.call_result (JObj members) w
   = (Ok (JNull, invalid "Unknown tool: None"),
      World (files w) (clock w) (reads w)
        (trace w ++ [EvCall JNull (default (JObj []) (dict_get "arguments" members))]))) /\
  (forall name f,
      dict_get "name" members = Some (JStr name) ->
      dict_get "arguments" members = None ->
      TOOLS !! name = Some f ->
      exists msg,
        Fixed.call_result (JObj members) w
        = (Ok (JStr name, invalid ("Invalid arguments for " +:+ name +:+ ": " +:+ msg)),
           World (files w) (clock w) (reads w)
             (trace w ++ [EvCall (JStr name) (JObj [])]))).
Proof.
  split.
  - intros Hn. unfold Fixed.call_result.
    erewrite bind_Ok; [|unfold lift; cbn [get_method]; rewrite Hn; reflexivity].
    erewrite bind_Ok by reflexivity.
    erewrite bind_Ok by reflexivity.
    erewrite bind_Ok by reflexivity. reflexivity.
  - intros name f Hn Ha Hf. unfold Fixed.call_result.
    erewrite bind_Ok; [|unfold lift; cbn [get_method]; rewrite Hn; reflexivity].
    erewrite bind_Ok; [|unfold lift; cbn [get_method]; rewrite Ha; reflexivity].
    erewrite bind_Ok by reflexivity.
    match goal with
    | |- context [bind (Fixed.execute_tool _ _) _ ?w0] =>
        destruct (call_kwargs_ill_keyed f (JObj []) w0
                    (registered_needs_arguments name f Hf)) as [msg Hm];
        rewrite (bind_Ok _ _ w0 (invalid ("Invalid arguments for " +:+ name +:+ ": " +:+ msg)) w0)
    end.
    + by exists msg.
    + rewrite (execute_tool_known name f _ _ Hf), Hm. reflexivity.
Qed.

Lemma incomplete_calls_get_error_results_witness :
  exists msg,
    Fixed.call_result (JObj [("name", JStr "save_quiz")]) Examples.w0
    = (Ok (JStr "save_quiz", invalid ("Invalid arguments for save_quiz: " +:+ msg)),
       World ∅ Examples.ticking 0 [EvCall (JStr "save_quiz") (JObj [])]).
Proof.
  exact (proj2 (incomplete_calls_get_error_results
                  [("name", JStr "save_quiz")] Examples.w0)
           "save_quiz" (PyFun "save_quiz" [("quiz_data", None)] (args1 save_quiz))
           eq_refl eq_refl eq_refl).
Defined.

Lemma registered_iff_declared s : is_Some (TOOLS !! s) <-> s ∈ TOOL_SCHEMAS.
Proof.
  split.
  - intros [f Hf]. unfold TOOLS in Hf. apply elem_of_list_to_map_2 in Hf.
    unfold TOOL_SCHEMAS.
    repeat (apply elem_of_cons in Hf as [Hf|Hf]; [injection Hf as -> _; set_solver|]).
    by apply elem_of_nil in Hf.
  - unfold TOOL_SCHEMAS. intros H.
    repeat (apply elem_of_cons in H as [->|H]; [by eexists|]).
    by apply elem_of_nil in H.
Qed.

(** X19: [Agent.__init__] keeps the declarations of the names that are
    both in the list it is given and registered, in the order of
    [TOOL_SCHEMAS]; a name that is no tool is dropped; the two programs
    do the same. *)
Theorem agent_declares_known_tools (agent_name : string) (tools : list string)
    (c : client) (model_id : string) :
  Fixed.tool_schemas (Fixed.new_agent agent_name tools c model_id)
    = Working.tool_schemas (Working.new_agent agent_name tools c model_id) /\
  sublist (Fixed.tool_schemas (Fixed.new_agent agent_name tools c model_id))
          TOOL_SCHEMAS /\
  forall s, s ∈ Fixed.tool_schemas (Fixed.new_agent agent_name tools c model_id)
            <-> s ∈ tools /\ is_Some (TOOLS !! s).
Proof.
  split; [reflexivity|]. split.
  - cbn [Fixed.new_agent Fixed.tool_schemas]. apply sublist_filter.
  - intros s. cbn [Fixed.new_agent Fixed.tool_schemas].
    rewrite list_elem_of_filter, registered_iff_declared, bool_decide_spec. tauto.
Qed.

(** ** The two parsers, the diagnostics and the third loop *)

Lemma brackets_agree body :
  match before_last_bracket body with
  | None => before_first_bracket body = None
  | Some g => before_first_bracket body = before_first_bracket (g +:+ "]")
  end.
Proof.
  induction body as [|c rest IH]; [done|].
  cbn [before_last_bracket before_first_bracket].
  destruct (before_last_bracket rest) as [g0|].
  - rewrite append_cons. cbn [before_first_bracket].
    destruct (Ascii.eqb c "]"); [done|]. by rewrite IH.
  - rewrite IH. destruct (Ascii.eqb c "]") eqn:Hc; [|done].
    cbn. reflexivity.
Qed.

Lemma before_first_bracket_whole g :
  before_first_bracket (g +:+ "]") = Some g <-> is_substring "]" g = false.
Proof.
  induction g as [|c g IH]; [done|].
  rewrite append_cons. cbn [before_first_bracket is_substring is_prefix].
  rewrite (Ascii.eqb_sym "]" c).
  destruct (Ascii.eqb c "]") eqn:Hc.
  - cbn. split; discriminate.
  - cbn [andb orb]. rewrite <- IH.
    destruct (before_first_bracket (g +:+ "]")) as [g'|].
    + split; intros H; injection H as ->; reflexivity.
    + split; discriminate.
Qed.

(** X20: the parser of [quiz_slm_fixed.py] and the one of
    [compare_modes.py] find the marker in the same texts; the text that
    the second takes between the brackets is what the first takes, cut at
    its first closing bracket; so the two read the same text exactly when
    the call holds no closing bracket, and a call with a list among its
    arguments is cut short by the second. *)
Theorem the_two_parsers_find_the_same_marker (text : string) :
  match search_functools_greedy text with
  | None => search_functools_lazy text = None
  | Some g =>
      search_functools_lazy text = before_first_bracket (g +:+ "]")
      /\ (search_functools_lazy text = Some g <-> is_substring "]" g = false)
  end.
Proof.
  assert (H : match search_functools_greedy text with
              | None => search_functools_lazy text = None
              | Some g => search_functools_lazy text = before_first_bracket (g +:+ "]")
              end).
  { induction text as [|c rest IH].
    - reflexivity.
    - cbn [search_functools_greedy search_functools_lazy].
      destruct (after_marker (String c rest)) as [body|]; [|exact IH].
      pose proof (brackets_agree body) as Hb.
      destruct (before_last_bracket body) as [g|].
      + rewrite Hb. destruct (before_first_bracket (g +:+ "]")) eqn:Hg; [done|].
        exfalso. clear -Hg. induction g as [|a g IHg].
        * discriminate.
        * rewrite append_cons in Hg. cbn [before_first_bracket] in Hg.
          destruct (Ascii.eqb a "]"); [discriminate|].
          destruct (before_first_bracket (g +:+ "]")); [discriminate | by apply IHg].
      + rewrite Hb. exact IH. }
  destruct (search_functools_greedy text) as [g|]; [|exact H].
  split; [exact H|]. rewrite H. apply before_first_bracket_whole.
Qed.

Lemma the_two_parsers_find_the_same_marker_witness :
  Fixed.extract_functools Examples.list_text
  = Some [JObj [("name", JStr "get_weather");
                ("arguments", JObj [("location", JStr "Paris");
                                    ("days", JArr [JInt 1; JInt 2])])]] /\
  search_functools_lazy Examples.list_text
  = Some ("{" +:+ Examples.q "name" +:+ ": " +:+ Examples.q "get_weather" +:+ ", "
            +:+ Examples.q "arguments" +:+ ": {" +:+ Examples.q "location" +:+ ": "
            +:+ Examples.q "Paris" +:+ ", " +:+ Examples.q "days" +:+ ": [1, 2") /\
  CompareModes.test_mode_b_from_response (Some Examples.list_text) Examples.w0
  = (Ok tt, World ∅ Examples.ticking 0
              [EvPrint CompareModes.mode_b_detected;
               EvPrint CompareModes.json_parse_error]).
Proof.
  split; [by vm_compute|]. split; [|by vm_compute].
  pose proof (the_two_parsers_find_the_same_marker Examples.list_text) as H.
  destruct (search_functools_greedy Examples.list_text) as [g|] eqn:Hg; [|by vm_compute in Hg].
  destruct H as [-> _]. vm_compute in Hg. injection Hg as <-. by vm_compute.
Defined.






Section ModeEvents.
Context (P : event -> bool).
Context (P_call : forall tool_name arguments, P (EvCall tool_name arguments) = true).
Context (P_print : forall line, P (EvPrint line) = true).

Lemma mode_a_calls_append message calls messages :
  stable (appends P) (CompareModes.run_structured_calls message calls messages).
Proof.
  revert messages. induction calls as [|tc rest IH]; intros messages; simpl.
  - apply stable_ret. apply _.
  - apply stable_bind; [apply _ | apply appends_emit, P_call | intros _].
    apply stable_bind; [apply _ | apply stable_lift; apply _ | intros args].
    apply stable_bind_lift; [apply _|]. intros f Hf.
    apply (compare_modes_tool (JStr (tc_name tc))) in Hf as ->.
    apply stable_bind; [apply _ | | intros result; apply IH].
    apply stable_call_kwargs; [apply _|]. intros vs. apply get_weather_fun_stable. apply _.
Qed.

Lemma mode_b_calls_append calls :
  stable (appends P) (CompareModes.run_text_calls calls).
Proof.
  induction calls as [|call rest IH]; simpl.
  - apply stable_ret. apply _.
  - apply stable_bind; [apply _ | apply stable_lift; apply _ | intros func_name].
    apply stable_bind; [apply _ | apply stable_lift; apply _ | intros func_args].
    apply stable_bind; [apply _ | apply appends_emit, P_call | intros _].
    apply stable_bind_lift; [apply _|]. intros f Hf.
    apply (compare_modes_tool func_name) in Hf as ->.
    apply stable_bind; [apply _ | | intros _; apply IH].
    apply stable_call_kwargs; [apply _|]. intros vs. apply get_weather_fun_stable. apply _.
Qed.

Lemma mode_b_from_response_appends text :
  stable (appends P) (CompareModes.test_mode_b_from_response text).
Proof.
  unfold CompareModes.test_mode_b_from_response.
  destruct text as [s|]; [|apply stable_lift; apply _].
  destruct (search_functools_lazy s) as [group|]; [|apply appends_emit, P_print].
  apply stable_bind; [apply _ | apply appends_emit, P_print | intros _].
  apply stable_catch; [apply _ | | intros e; apply appends_emit, P_print].
  apply stable_bind; [apply _ | apply stable_lift; apply _ | intros calls].
  apply stable_bind; [apply _ | apply stable_lift; apply _ | intros items].
  apply mode_b_calls_append.
Qed.

End ModeEvents.

Lemma requests_le_app a b n m : requests a <= n -> requests b <= m -> requests (a ++ b) <= n + m.
Proof. rewrite requests_app. lia. Qed.

Lemma appends_no_request w w' :
  appends no_request w w' -> exists evs, trace w' = trace w ++ evs /\ requests evs = 0.
Proof. intros (evs & Ht & Hn). exists evs. split; [exact Ht | by apply requests_none]. Qed.

Lemma test_mode_b_requests c model_id w :
  exists evs,
    trace (snd (CompareModes.test_mode_b c model_id w)) = trace w ++ evs
    /\ requests evs = 1.
Proof.
  unfold CompareModes.test_mode_b. rewrite (bind_Ok _ _ _ _ _ (create_run _ _ _)).
  match goal with
  | |- context [CompareModes.test_mode_b_from_response ?t ?w0] =>
      destruct (appends_no_request _ _
                  (mode_b_from_response_appends no_request (fun _ _ => eq_refl)
                     (fun _ => eq_refl) t w0)) as (evs & Ht & Hn)
  end.
  exists (EvRequest :: evs). rewrite Ht. cbn [trace]. rewrite <- app_assoc.
  split; [reflexivity|]. change (EvRequest :: evs) with ([EvRequest] ++ evs).
  rewrite requests_app, Hn. reflexivity.
Qed.

Lemma test_mode_a_requests c model_id w :
  exists evs,
    trace (snd (CompareModes.test_mode_a c model_id w)) = trace w ++ evs
    /\ 1 <= requests evs <= 2.
Proof.
  unfold CompareModes.test_mode_a. cbv zeta.
  rewrite (bind_Ok _ _ _ _ _ (create_run _ _ _)).
  set (message := c _).
  destruct (tool_calls message) as [[|tc rest]|] eqn:Htc.
  - erewrite bind_Ok by reflexivity. erewrite bind_Ok by reflexivity.
    match goal with
    | |- context [CompareModes.test_mode_b_from_response ?t ?w0] =>
        destruct (appends_no_request _ _
                    (mode_b_from_response_appends no_request (fun _ _ => eq_refl)
                       (fun _ => eq_refl) t w0)) as (evs & Ht & Hn)
    end.
    eexists. rewrite Ht. cbn [trace]. rewrite <- !app_assoc. split; [reflexivity|].
    rewrite !requests_app, Hn. cbn. lia.
  - erewrite bind_Ok by reflexivity.
    match goal with
    | |- context [bind (CompareModes.run_structured_calls ?m ?cs ?ms) ?k ?w0] =>
        destruct (appends_no_request _ _
                    (mode_a_calls_append no_request (fun _ _ => eq_refl) m cs ms w0))
          as (evs & Ht & Hn);
        destruct (CompareModes.run_structured_calls m cs ms w0) as [[ms'|e] w1] eqn:Hr
    end.
    + erewrite bind_Ok by exact Hr.
      rewrite (bind_Ok _ _ _ _ _ (create_run _ _ _)).
      cbn [snd] in Ht. unfold ret. cbn [snd trace]. rewrite Ht. cbn [trace].
      eexists. rewrite <- !app_assoc. split; [reflexivity|].
      rewrite !requests_app, Hn. cbn. lia.
    + erewrite bind_Raise by exact Hr. cbn [snd] in *. rewrite Ht. cbn [trace].
      eexists. rewrite <- !app_assoc. split; [reflexivity|].
      rewrite !requests_app, Hn. cbn. lia.
  - erewrite bind_Ok by reflexivity. erewrite bind_Ok by reflexivity.
    match goal with
    | |- context [CompareModes.test_mode_b_from_response ?t ?w0] =>
        destruct (appends_no_request _ _
                    (mode_b_from_response_appends no_request (fun _ _ => eq_refl)
                       (fun _ => eq_refl) t w0)) as (evs & Ht & Hn)
    end.
    eexists. rewrite Ht. cbn [trace]. rewrite <- !app_assoc. split; [reflexivity|].
    rewrite !requests_app, Hn. cbn. lia.
Qed.

(** X22: once its set-up has given a client and a model, the comparison
    of [compare_modes.py] always ends with its closing line and no
    exception, after one to three requests; when the first test raises,
    the second is not run: the error line and the closing line follow at
    once. *)
Theorem comparison_always_completes (c : client) (model_id : string) (w : world) :
  let run := CompareModes.main c model_id w in
  fst run = Ok tt /\
  (exists evs,
      trace (snd run) = trace w ++ evs ++ [EvPrint CompareModes.comparison_complete]
      /\ 1 <= requests evs <= 3) /\
  (forall e w1,
      CompareModes.test_mode_a c model_id w = (Raise e, w1) ->
      run = (Ok tt, World (files w1) (clock w1) (reads w1)
                      (trace w1 ++ [EvPrint CompareModes.comparison_error;
                                    EvPrint CompareModes.comparison_complete]))).
Proof.
  cbv zeta. unfold CompareModes.main, CompareModes.compare_modes.
  destruct (test_mode_a_requests c model_id w) as (evs1 & Ht1 & Hn1).
  destruct (CompareModes.test_mode_a c model_id w) as [[u|e] w1] eqn:Ha; cbn [snd] in Ht1.
  - destruct (test_mode_b_requests c model_id w1) as (evs2 & Ht2 & Hn2).
    destruct (CompareModes.test_mode_b c model_id w1) as [[u2|e] w2] eqn:Hb;
      cbn [snd] in Ht2.
    + erewrite bind_Ok.
      2:{ unfold catch_all. erewrite bind_Ok by exact Ha.
          erewrite bind_Ok by exact Hb. reflexivity. }
      cbn [emit fst snd trace].
      split; [by destruct u2|]. split; [|discriminate].
      exists (evs1 ++ evs2 ++ [EvPrint CompareModes.summary]).
      rewrite Ht2, Ht1. repeat rewrite <- app_assoc. split; [reflexivity|].
      rewrite !requests_app. cbn. lia.
    + erewrite bind_Ok.
      2:{ unfold catch_all. erewrite bind_Ok by exact Ha.
          erewrite bind_Raise by exact Hb. reflexivity. }
      cbn [emit fst snd trace].
      split; [reflexivity|]. split; [|discriminate].
      exists (evs1 ++ evs2 ++ [EvPrint CompareModes.comparison_error]).
      rewrite Ht2, Ht1. repeat rewrite <- app_assoc. split; [reflexivity|].
      rewrite !requests_app. cbn. lia.
  - erewrite bind_Ok.
    2:{ unfold catch_all. erewrite bind_Raise by exact Ha. reflexivity. }
    cbn [emit fst snd trace].
    split; [reflexivity|]. split.
    + exists (evs1 ++ [EvPrint CompareModes.comparison_error]).
      rewrite Ht1. repeat rewrite <- app_assoc. split; [reflexivity|].
      rewrite !requests_app. cbn. lia.
    + intros e' w' [= <- <-]. unfold emit. cbn [files clock reads trace].
      by rewrite <- app_assoc.
Qed.

Lemma comparison_always_completes_witness :
  CompareModes.test_mode_a (fun _ => ChatMessage None None) "phi-4-mini" Examples.w0
  = (Raise (Exn TypeError "expected string or bytes-like object, got 'NoneType'"),
     World ∅ Examples.ticking 0
       [EvRequest; EvPrint CompareModes.mode_a_not_detected;
        EvPrint "Falling back to Mode B..."]) /\
  CompareModes.main (fun _ => ChatMessage None None) "phi-4-mini" Examples.w0
  = (Ok tt, World ∅ Examples.ticking 0
              ([EvRequest; EvPrint CompareModes.mode_a_not_detected;
                EvPrint "Falling back to Mode B..."]
                 ++ [EvPrint CompareModes.comparison_error;
                     EvPrint CompareModes.comparison_complete])).
Proof.
  assert (H : CompareModes.test_mode_a (fun _ => ChatMessage None None) "phi-4-mini"
                Examples.w0
              = (Raise (Exn TypeError "expected string or bytes-like object, got 'NoneType'"),
                 World ∅ Examples.ticking 0
                   [EvRequest; EvPrint CompareModes.mode_a_not_detected;
                    EvPrint "Falling back to Mode B..."])) by reflexivity.
  split; [exact H|].
  exact (proj2 (proj2 (comparison_always_completes (fun _ => ChatMessage None None)
                         "phi-4-mini" Examples.w0)) _ _ H).
Defined.

(** X23: [test_mode_a] appends the message of the assistant once for
    each call, before the result of that call: after [n] calls the
    conversation has [2 n] more turns, [n] of them that message. *)
Theorem mode_a_repeats_the_assistant_turn (message : chat_message)
    (calls : list tool_call) (messages ms : list turn) (w w' : world) :
  CompareModes.run_structured_calls message calls messages w = (Ok ms, w') ->
  exists results,
    length results = length calls
    /\ ms = messages ++ call_turns message calls results
    /\ length ms = length messages + 2 * length calls
    /\ length (List.filter (fun t => match t with Assistant _ => true | _ => false end)
                 (call_turns message calls results)) = length calls.
Proof.
  revert messages w. induction calls as [|tc rest IH]; intros messages w H.
  - injection H as <- <-. exists []. cbn. by rewrite app_nil_r, Nat.add_0_r.
  - cbn [CompareModes.run_structured_calls] in H.
    apply bind_Ok_inv in H as (u & w1 & _ & H).
    apply bind_Ok_inv in H as (args & w2 & _ & H).
    apply bind_Ok_inv in H as (f & w3 & _ & H).
    apply bind_Ok_inv in H as (result & w4 & _ & H).
    destruct (IH _ _ H) as (results & Hlen & -> & Hms & Hcount).
    exists (result :: results). cbn [length call_turns List.filter].
    split; [by rewrite Hlen|]. split; [by rewrite <- app_assoc|].
    split; [rewrite Hms, length_app; cbn [length]; lia|].
    by rewrite Hcount.
Qed.

Lemma mode_a_repeats_the_assistant_turn_witness :
  let message := ChatMessage None (Some [Examples.weather_call; Examples.weather_call]) in
  exists ms w' results,
    CompareModes.run_structured_calls message
      [Examples.weather_call; Examples.weather_call] [Turn "user" "Hi"] Examples.w0
    = (Ok ms, w')
    /\ ms = [Turn "user" "Hi"]
            ++ call_turns message [Examples.weather_call; Examples.weather_call] results
    /\ length ms = 1 + 2 * 2.
Proof.
  cbv zeta.
  destruct (CompareModes.run_structured_calls
              (ChatMessage None (Some [Examples.weather_call; Examples.weather_call]))
              [Examples.weather_call; Examples.weather_call] [Turn "user" "Hi"]
              Examples.w0) as [[ms|e] w'] eqn:H; [|by vm_compute in H].
  destruct (mode_a_repeats_the_assistant_turn _ _ _ _ _ _ H)
    as (results & _ & Hms & Hlen & _).
  exists ms, w', results. split; [reflexivity|]. split; [exact Hms | exact Hlen].
Defined.

(** X24: [test_mode_b_from_response] handles the failure to decode the
    text and no other: a call that names anything but the one tool of the
    file ends the function with a [KeyError] (a [TypeError] for a name
    that cannot be hashed). *)
Theorem mode_b_lets_tool_faults_through (text group : string) (call name : json)
    (calls : list json) (w : world) :
  search_functools_lazy text = Some group ->
  json_loads ("[" +:+ group +:+ "]") = Ok (JArr (call :: calls)) ->
  get_method call "name" JNull = Ok name ->
  name <> JStr "get_weather" ->
  exists e,
    fst (CompareModes.test_mode_b_from_response (Some text) w) = Raise e
    /\ (exn_kind e = KeyError \/ exn_kind e = TypeError).
Proof.
  intros Hs Hj Hn Hne. unfold CompareModes.test_mode_b_from_response. rewrite Hs.
  erewrite bind_Ok by reflexivity.
  assert (Ha : exists args, get_method call "arguments" (JObj []) = Ok args).
  { destruct call; try discriminate. by eexists. }
  destruct Ha as [args Ha].
  assert (Hr : exists e, registry_get CompareModes.TOOLS name = Raise e
                         /\ (exn_kind e = KeyError \/ exn_kind e = TypeError)).
  { unfold registry_get. destruct name; try (eexists; split; [reflexivity|]; by auto).
    destruct (CompareModes.TOOLS !! s) as [f|] eqn:Hf;
      [|eexists; split; [reflexivity|]; by left].
    exfalso. apply Hne. f_equal.
    unfold CompareModes.TOOLS in Hf. apply elem_of_list_to_map_2 in Hf.
    apply elem_of_cons in Hf as [Hf|Hf]; [by injection Hf as -> _|].
    by apply elem_of_nil in Hf. }
  destruct Hr as (e & Hr & He). exists e. split; [|exact He].
  unfold catch. 
  match goal with
  | |- context [bind (lift (json_loads ?s)) ?k ?w0] =>
      assert (Hrun : bind (lift (json_loads s)) k w0
                     = (Raise e, World (files w0) (clock w0) (reads w0)
                                   (trace w0 ++ [EvCall name args])))
  end.
  { erewrite bind_Ok; [|unfold lift; rewrite Hj; reflexivity].
    erewrite bind_Ok by reflexivity. cbn [CompareModes.run_text_calls].
    erewrite bind_Ok; [|unfold lift; rewrite Hn; reflexivity].
    erewrite bind_Ok; [|unfold lift; rewrite Ha; reflexivity].
    erewrite bind_Ok by reflexivity.
    erewrite bind_Raise; [reflexivity|]. unfold lift. by rewrite Hr. }
  rewrite Hrun. destruct He as [He|He]; rewrite He; reflexivity.
Qed.

Lemma mode_b_lets_tool_faults_through_witness :
  fst (CompareModes.test_mode_b_from_response
         (Some ("functools[{" +:+ Examples.q "name" +:+ ": " +:+ Examples.q "get_time" +:+ "}]"))
         Examples.w0)
  = Raise (Exn KeyError "'get_time'").
Proof.
  destruct (mode_b_lets_tool_faults_through
              ("functools[{" +:+ Examples.q "name" +:+ ": " +:+ Examples.q "get_time" +:+ "}]")
              ("{" +:+ Examples.q "name" +:+ ": " +:+ Examples.q "get_time" +:+ "}")
              (JObj [("name", JStr "get_time")]) (JStr "get_time") [] Examples.w0)
    as (e & He & _); [by vm_compute | by vm_compute | reflexivity | discriminate |].
  by vm_compute.
Defined.






Section Phi4.
Context (calculate : pyfun).




Context (P : event -> bool).
Context (P_tool : forall name, P (EvTool name) = true).
Context (P_call : forall tool_name arguments, P (EvCall tool_name arguments) = true).
Context (P_print : forall line, P (EvPrint line) = true).
Context (P_calculate : forall vs, stable (appends P) (body calculate vs)).




End Phi4.







Lemma replace_char_free a b s :
  a <> b -> is_substring (String a EmptyString) (replace_char a b s) = false.
Proof.
  intros Hab. induction s as [|c s IH]; [reflexivity|].
  cbn [replace_char is_substring is_prefix]. rewrite IH, orb_false_r, andb_true_r.
  destruct (Ascii.eqb_spec c a) as [->|Hc]; apply Ascii.eqb_neq; congruence.
Qed.

Lemma lower_ascii_fixed c :
  lower_ascii (if Ascii.eqb (lower_ascii c) " " then "_"%char else lower_ascii c)
  = (if Ascii.eqb (lower_ascii c) " " then "_"%char else lower_ascii c).
Proof. destruct c as [[] [] [] [] [] [] [] []]; reflexivity. Qed.

Lemma str_lower_fixed s :
  str_lower (replace_char " " "_" (str_lower s)) = replace_char " " "_" (str_lower s).
Proof.
  induction s as [|c s IH]; [reflexivity|].
  cbn [str_lower replace_char]. by rewrite IH, lower_ascii_fixed.
Qed.

Lemma str_lower_app a b : str_lower (a +:+ b) = str_lower a +:+ str_lower b.
Proof.
  induction a as [|c a IH]; [reflexivity|].
  rewrite append_cons. cbn [str_lower]. by rewrite append_cons, IH.
Qed.

(** X27: the mock tools of [test_phi4_toolcalling.py]: on a topic and
    an integer [generate_quiz] returns as many questions as asked, none
    for a negative number, three when the number is left out, under an
    identifier that starts with [quiz_] and holds no space and no ASCII
    capital; [save_quiz] on that result reports the same number of
    questions and writes nothing. *)
Theorem mock_quiz_tools_compose (topic : string) (n : Z) (w : world) :
  exists id questions,
    Phi4Test.generate_quiz (JStr topic) (JInt n) w
    = (Ok (JObj [("quiz_id", JStr id); ("topic", JStr topic);
                 ("questions", JArr questions);
                 ("total", JInt (Z.max 0 n))]),
       World (files w) (clock w) (reads w) (trace w ++ [EvTool "generate_quiz"]))
    /\ Z.of_nat (length questions) = Z.max 0 n
    /\ is_prefix "quiz_" id = true
    /\ is_substring " " id = false
    /\ str_lower id = id
    /\ call_kwargs Phi4Test.generate_quiz_fun (JObj [("topic", JStr topic)]) w
       = Phi4Test.generate_quiz (JStr topic) (JInt 3) w
    /\ forall w1,
         Phi4Test.save_quiz (JStr id)
           (JObj [("quiz_id", JStr id); ("topic", JStr topic);
                  ("questions", JArr questions); ("total", JInt (Z.max 0 n))]) w1
         = (Ok (JObj [("status", JStr "saved"); ("quiz_id", JStr id);
                      ("file_path", JStr ("./quizzes/" +:+ id +:+ ".json"));
                      ("question_count", JInt (Z.max 0 n))]),
            World (files w1) (clock w1) (reads w1) (trace w1 ++ [EvTool "save_quiz"])).
Proof.
  exists ("quiz_" +:+ replace_char " " "_" (str_lower topic)),
         (map (Phi4Test.generate_quiz_question (JStr topic)) (seq 0 (Z.to_nat n))).
  assert (Hlen : Z.of_nat (length (map (Phi4Test.generate_quiz_question (JStr topic))
                                     (seq 0 (Z.to_nat n)))) = Z.max 0 n).
  { rewrite length_map, length_seq. lia. }
  split; [|split; [exact Hlen|split; [reflexivity|split; [|split; [|split]]]]].
  - unfold Phi4Test.generate_quiz. erewrite bind_Ok by reflexivity.
    erewrite bind_Ok by reflexivity. cbv zeta. erewrite bind_Ok by reflexivity.
    unfold ret. by rewrite Hlen.
  - rewrite !append_cons. cbn [is_substring is_prefix Ascii.eqb Bool.eqb andb orb].
    apply replace_char_free. discriminate.
  - rewrite str_lower_app, str_lower_fixed. reflexivity.
  - reflexivity.
  - intros w1. unfold Phi4Test.save_quiz. erewrite bind_Ok by reflexivity.
    erewrite bind_Ok by reflexivity. erewrite bind_Ok by reflexivity.
    unfold ret. cbn [py_len]. by rewrite Hlen.
Qed.
